(** * Container-return kiosk controller: frame codec, link layer, sequence
      engine, QR validator, store adapter and sync service.

    A shallow embedding of the Python sources ([src/uart/uart.py],
    [src/qr/processor.py], [src/database/crud.py], [src/audit/logger.py],
    [src/api/service.py], [src/main.py]) together with the properties the
    specification states about them.

    Conventions of the embedding
    - Python [int] is [Z]; [bytes] is [list byte]; [str] is [string] (code
      points below 256); [Optional[T]] is [option T].
    - A [datetime] is an instant in microseconds since the Unix epoch plus a
      flag telling whether it carries a time zone (always UTC); ordering an
      aware and a naive value raises, as in Python.  A timestamp column of
      the database holds the ISO text of such a value, and SQL compares
      the texts.
    - [time.time()] is a virtual clock in microseconds kept in the state;
      [time.sleep] advances it; every other operation takes no time.
    - The serial port and the backend are scripted parts of the state. *)

From Stdlib Require Import ZArith String Ascii List Bool Lia.
From Stdlib.Strings Require Import Byte.
From Stdlib Require Import DecimalString.
From Stdlib Require Import Sorted Permutation.
Import ListNotations.

Local Open Scope Z_scope.

(* ===================================================================== *)
(** * Part I. Definitions                                                 *)
(* ===================================================================== *)

(** ** Frame codec ([UARTProtocol]) *)

Module Codec.

(** [class MessageType(IntEnum)] *)
Definition ACK : Z := 0.
Definition GET_SENSOR_STATUS : Z := 1.
Definition SENSOR_STATE_CHANGE : Z := 2.
Definition RESTART : Z := 3.
Definition ACTUATOR_MOVEMENT : Z := 4.
Definition LIGHT_MANAGEMENT : Z := 5.
Definition BUTTON_PUSHED : Z := 6.
Definition ERROR_MSG : Z := 7.
Definition DOOR_CONTROL : Z := 8.

(** [MessageType(v)] succeeds exactly on the nine declared values. *)
Definition is_message_type (v : Z) : bool := (0 <=? v) && (v <=? 8).

(** [@dataclass class UARTMessage] *)
Record UARTMessage : Type := mkMsg {
  msg_type : Z;
  msg_id : Z;
  payload : list byte
}.

Definition payload_length (m : UARTMessage) : Z := Z.of_nat (length (payload m)).

Definition START_BYTE : byte := x7b.
Definition END_BYTE : byte := x7d.

(** [bytearray.append(v)]: raises [ValueError] unless [0 <= v < 256]. *)
Definition byte_of_int (v : Z) : option byte :=
  if (0 <=? v) && (v <? 256) then Byte.of_N (Z.to_N v) else None.

Definition int_of_byte (b : byte) : Z := Z.of_N (Byte.to_N b).

Definition validate_message (m : UARTMessage) : bool :=
  if negb ((0 <=? msg_id m) && (msg_id m <=? 99)) then false
  else if payload_length m >? 255 then false
  else if negb (is_message_type (msg_type m)) then false
  else true.

(** [encode_message]; [None] stands for the raised [ValueError]. *)
Definition encode_message (m : UARTMessage) : option (list byte) :=
  if negb (validate_message m) then None
  else
    match byte_of_int (msg_type m), byte_of_int (msg_id m),
          byte_of_int (payload_length m) with
    | Some t, Some i, Some l =>
        Some ([START_BYTE; t; i; l] ++ payload m ++ [END_BYTE])
    | _, _, _ => None
    end.

Definition validate_frame (frame : list byte) : bool :=
  if Z.of_nat (length frame) <? 5 then false
  else
    match nth_error frame 0 with
    | None => false
    | Some b0 =>
        if negb (Byte.eqb b0 START_BYTE) then false
        else if negb (Byte.eqb (last frame x00) END_BYTE) then false
        else
          match nth_error frame 3 with
          | None => false
          | Some l =>
              if negb (Z.of_nat (length frame) =? 5 + int_of_byte l) then false
              else true
          end
    end.

(** [decode_frame]; the [except (ValueError, IndexError)] arm returns
    [None] as well. *)
Definition decode_frame (frame : list byte) : option UARTMessage :=
  if negb (validate_frame frame) then None
  else
    match nth_error frame 1, nth_error frame 2, nth_error frame 3 with
    | Some t, Some i, Some l =>
        if is_message_type (int_of_byte t) then
          let payload_length := int_of_byte l in
          let payload :=
            if payload_length >? 0
            then firstn (Z.to_nat payload_length) (skipn 4 frame)
            else [] in
          Some (mkMsg (int_of_byte t) (int_of_byte i) payload)
        else None
    | _, _, _ => None
    end.

(** [struct.pack('<BB', a, b)] and friends: one unsigned byte per
    argument, [struct.error] when one is out of range. *)
Fixpoint pack_bytes (vs : list Z) : option (list byte) :=
  match vs with
  | [] => Some []
  | v :: tl =>
      match byte_of_int v, pack_bytes tl with
      | Some b, Some bs => Some (b :: bs)
      | _, _ => None
      end
  end.

(** [create_ack]: payload [type, id] of the original, id 0. *)
Definition create_ack (original_msg : UARTMessage) : option UARTMessage :=
  match pack_bytes [msg_type original_msg; msg_id original_msg] with
  | Some ack_payload => Some (mkMsg ACK 0 ack_payload)
  | None => None
  end.

End Codec.

(** ** Values shared by the components *)

Module Py.

(** [datetime]: an instant (microseconds since the Unix epoch) and whether
    the value carries [tzinfo]. *)
Record datetime : Type := mkDatetime {
  instant : Z;
  tz_aware : bool
}.

(** [a < b] on datetimes; [None] is the [TypeError] Python raises when
    exactly one side is time-zone aware. *)
Definition datetime_lt (a b : datetime) : option bool :=
  if Bool.eqb (tz_aware a) (tz_aware b) then Some (instant a <? instant b)
  else None.

Definition datetime_eqb (a b : datetime) : bool :=
  (instant a =? instant b) && Bool.eqb (tz_aware a) (tz_aware b).

(** [datetime.fromtimestamp(0, tz=timezone.utc)] *)
Definition epoch_utc : datetime := mkDatetime 0 true.

(** The place of [d.isoformat()] among the ISO texts in the order of
    their bytes, which is how SQLite compares and sorts the timestamp
    columns: texts of different instants are ordered as the instants,
    and the text of a naive value is a proper prefix of the text of the
    aware value of the same instant, which ends in [+00:00]. *)
Definition iso_key (d : datetime) : Z := 2 * instant d + (if tz_aware d then 1 else 0).

(** [d.strftime('%Y-%m-%d %H:%M:%S.%f')[:-3] + '+00']: the time cut to
    milliseconds, the same text for a naive and for an aware value. *)
Definition server_timestamp (d : datetime) : Z := instant d / 1000.

Definition seconds (n : Z) : Z := n * 1000000.
Definition days (n : Z) : Z := n * 86400 * 1000000.

(** Values found in the dictionaries handed to the store adapter. *)
Inductive pyval : Type :=
| VNone
| VBool (b : bool)
| VInt (n : Z)
| VStr (s : string)
| VDatetime (d : datetime).

(** Python truthiness. *)
Definition truthy (v : pyval) : bool :=
  match v with
  | VNone => false
  | VBool b => b
  | VInt n => negb (n =? 0)
  | VStr s => negb (String.eqb s EmptyString)
  | VDatetime _ => true
  end.

(** An insertion-ordered [dict] with string keys. *)
Definition dict : Type := list (string * pyval).

Fixpoint dict_get (k : string) (d : dict) : option pyval :=
  match d with
  | [] => None
  | (k', v) :: tl => if String.eqb k k' then Some v else dict_get k tl
  end.

(** [d[k] = v]: replaces the value in place, or appends the new key. *)
Fixpoint dict_set (k : string) (v : pyval) (d : dict) : dict :=
  match d with
  | [] => [(k, v)]
  | (k', v') :: tl =>
      if String.eqb k k' then (k', v) :: tl else (k', v') :: dict_set k v tl
  end.

Definition dict_is_empty (d : dict) : bool :=
  match d with [] => true | _ => false end.

(** Truthiness of a [time.time()] value kept in an attribute that starts
    as [None]: [None] and [0.0] are both false. *)
Definition truthy_time (t : option Z) : bool :=
  match t with
  | None => false
  | Some v => negb (v =? 0)
  end.

End Py.

(** ** Store adapter ([database/models.py], [database/crud.py]) *)

Module Store.
Import Py.

Inductive LogType : Type := ERROR | INFO | RETURN_VALID | RETURN_INVALID.

Record Container : Type := mkContainer {
  id : string;
  qr_code : string;
  is_returnable : bool;
  due_date : option datetime;
  updated_at : datetime
}.

Record DeviceStatus : Type := mkDeviceStatus {
  last_sync_at : datetime;
  last_seen_at : datetime;
  version : string;
  update_failures : Z;
  active : bool;
  is_in_safe_mode : bool
}.

Record AuditLog : Type := mkAuditLog {
  log_id : string;
  log_type : LogType;
  description : string;
  is_offline_action : bool;
  container_id : option string;
  created_at : datetime
}.

Record ContainerCreate : Type := mkContainerCreate {
  cc_qr_code : string;
  cc_is_returnable : bool;
  cc_due_date : option datetime
}.

Record DeviceStatusUpdate : Type := mkDeviceStatusUpdate {
  u_last_sync_at : option datetime;
  u_last_seen_at : option datetime;
  u_version : option string;
  u_update_failures : option Z;
  u_active : option bool;
  u_is_in_safe_mode : option bool
}.

Definition no_update : DeviceStatusUpdate :=
  mkDeviceStatusUpdate None None None None None None.

Record AuditLogCreate : Type := mkAuditLogCreate {
  alc_type : LogType;
  alc_description : string;
  alc_is_offline_action : bool;
  alc_container_id : option string
}.

(** The three tables.  Rows are kept in insertion order; a timestamp
    column holds the [datetime] whose [isoformat()] text was stored, and
    SQL comparisons of such columns compare the texts ([iso_key]).
    [uuid_counter] numbers the identifiers drawn by [uuid4()]. *)
Record DB : Type := mkDB {
  containers : list Container;
  device_status : option DeviceStatus;
  audit_logs : list AuditLog;
  uuid_counter : nat
}.

(** What makes a statement fail; each is reported to the caller as a
    [DatabaseError] after the transaction is rolled back. *)
Inductive db_error : Type :=
| PRIMARY_KEY_constraint
| UNIQUE_constraint
| FOREIGN_KEY_constraint
| unsupported_value.

Inductive db_result (A : Type) : Type :=
| Ok (a : A) (db' : DB)
| DatabaseError (e : db_error).
Arguments Ok {A} a db'.
Arguments DatabaseError {A} e.

(** [str(uuid4())]: a fresh identifier per call. *)
Definition uuid_of (n : nat) : string :=
  ("uuid-" ++ NilEmpty.string_of_uint (Nat.to_uint n))%string.

Definition set_containers (cs : list Container) (db : DB) : DB :=
  mkDB cs (device_status db) (audit_logs db) (uuid_counter db).
Definition set_device_status (ds : option DeviceStatus) (db : DB) : DB :=
  mkDB (containers db) ds (audit_logs db) (uuid_counter db).
Definition set_audit_logs (ls : list AuditLog) (db : DB) : DB :=
  mkDB (containers db) (device_status db) ls (uuid_counter db).
Definition bump_uuid (db : DB) : DB :=
  mkDB (containers db) (device_status db) (audit_logs db) (S (uuid_counter db)).

(** *** ContainerCRUD *)

(** [SELECT * FROM Container WHERE id = ?] *)
Definition get_by_id (container_id : string) (db : DB) : option Container :=
  find (fun c => String.eqb (id c) container_id) (containers db).

(** [SELECT * FROM Container WHERE qrCode = ?] *)
Definition get_by_qr_code (qr : string) (db : DB) : option Container :=
  find (fun c => String.eqb (qr_code c) qr) (containers db).

(** [INSERT INTO Container]: primary key and [qrCode UNIQUE]. *)
Definition insert_container (c : Container) (db : DB) : db_result unit :=
  if existsb (fun c' => String.eqb (id c') (id c)) (containers db)
  then DatabaseError PRIMARY_KEY_constraint
  else if existsb (fun c' => String.eqb (qr_code c') (qr_code c)) (containers db)
  then DatabaseError UNIQUE_constraint
  else Ok tt (set_containers (containers db ++ [c]) db).

Definition create_with_id (now : datetime) (container_id : string)
    (container_data : ContainerCreate) (db : DB) : db_result (option Container) :=
  match insert_container
          (mkContainer container_id (cc_qr_code container_data)
             (cc_is_returnable container_data) (cc_due_date container_data) now) db with
  | Ok _ db' => Ok (get_by_id container_id db') db'
  | DatabaseError e => DatabaseError e
  end.

Definition create (now : datetime) (container_data : ContainerCreate) (db : DB)
    : db_result (option Container) :=
  let container_id := uuid_of (uuid_counter db) in
  create_with_id now container_id container_data (bump_uuid db).

(** The columns an [UPDATE Container SET ...] assigns. *)
Record set_clauses : Type := mkSet {
  set_dueDate : option datetime;
  set_isReturnable : option bool;
  set_qrCode : option string;
  set_updatedAt : option datetime
}.

Definition no_clauses : set_clauses := mkSet None None None None.

Definition clauses_empty (s : set_clauses) : bool :=
  match set_dueDate s, set_isReturnable s, set_qrCode s, set_updatedAt s with
  | None, None, None, None => true
  | _, _, _, _ => false
  end.

(** The loop [for field, value in updates.items()] of [update]; [None]
    is a value the model of the columns cannot hold. *)
Fixpoint build_clauses (updates : dict) (acc : set_clauses) : option set_clauses :=
  match updates with
  | [] => Some acc
  | (field, value) :: tl =>
      if String.eqb field "due_date"%string && truthy value then
        match value with
        | VDatetime d =>
            build_clauses tl (mkSet (Some d) (set_isReturnable acc)
                                (set_qrCode acc) (set_updatedAt acc))
        | _ => None
        end
      else if String.eqb field "is_returnable"%string then
        build_clauses tl (mkSet (set_dueDate acc) (Some (truthy value))
                            (set_qrCode acc) (set_updatedAt acc))
      else if String.eqb field "qr_code"%string then
        match value with
        | VStr q =>
            build_clauses tl (mkSet (set_dueDate acc) (set_isReturnable acc)
                                (Some q) (set_updatedAt acc))
        | _ => None
        end
      else if String.eqb field "updatedAt"%string then
        match value with
        | VDatetime d =>
            build_clauses tl (mkSet (set_dueDate acc) (set_isReturnable acc)
                                (set_qrCode acc) (Some d))
        | _ => None
        end
      else build_clauses tl acc
  end.

Definition apply_clauses (s : set_clauses) (c : Container) : Container :=
  mkContainer (id c)
    (match set_qrCode s with Some q => q | None => qr_code c end)
    (match set_isReturnable s with Some b => b | None => is_returnable c end)
    (match set_dueDate s with Some d => Some d | None => due_date c end)
    (match set_updatedAt s with Some d => d | None => updated_at c end).

(** [UPDATE Container SET ... WHERE id = :id]; the result is the row
    count. *)
Definition exec_update (container_id : string) (s : set_clauses) (db : DB)
    : db_result Z :=
  match get_by_id container_id db with
  | None => Ok 0 db
  | Some _ =>
      let clash :=
        match set_qrCode s with
        | Some q =>
            existsb (fun c => String.eqb (qr_code c) q
                              && negb (String.eqb (id c) container_id))
                    (containers db)
        | None => false
        end in
      if clash then DatabaseError UNIQUE_constraint
      else
        Ok 1 (set_containers
                (map (fun c => if String.eqb (id c) container_id
                               then apply_clauses s c else c)
                     (containers db)) db)
  end.

(** [ContainerCRUD.update].  [now] is [datetime.utcnow()], a naive
    value; a timestamp passed as ISO text is the [VDatetime] it
    denotes. *)
Definition update (now : datetime) (container_id : string) (updates : dict)
    (db : DB) : db_result (option Container) :=
  if dict_is_empty updates then Ok (get_by_id container_id db) db
  else
    let updates := dict_set "updatedAt"%string (VDatetime now) updates in
    match build_clauses updates no_clauses with
    | None => DatabaseError unsupported_value
    | Some s =>
        if clauses_empty s then Ok (get_by_id container_id db) db
        else
          match exec_update container_id s db with
          | DatabaseError e => DatabaseError e
          | Ok rowcount db' =>
              if rowcount =? 0 then Ok None db'
              else Ok (get_by_id container_id db') db'
          end
    end.

(** [ORDER BY ... DESC] on an indexed column: SQLite walks the index
    backwards, so the rows come by decreasing key and, among rows with
    the same key, the one inserted last comes first. *)
Fixpoint insert_desc {A} (key : A -> Z) (x : A) (l : list A) : list A :=
  match l with
  | [] => [x]
  | y :: tl => if key y <=? key x then x :: l else y :: insert_desc key x tl
  end.

Definition order_desc {A} (key : A -> Z) (l : list A) : list A :=
  fold_left (fun acc x => insert_desc key x acc) l [].

(** [SELECT * FROM Container WHERE updatedAt > ? ORDER BY updatedAt DESC] *)
Definition get_since (since : datetime) (db : DB) : list Container :=
  order_desc (fun c => iso_key (updated_at c))
    (filter (fun c => iso_key (updated_at c) >? iso_key since) (containers db)).

(** [DELETE FROM Container]; refused while an audit log still refers to
    a container (foreign keys are enforced). *)
Definition delete_all_containers (db : DB) : db_result bool :=
  if existsb (fun l => match container_id l with
                       | Some cid => existsb (fun c => String.eqb (id c) cid) (containers db)
                       | None => false
                       end) (audit_logs db)
  then DatabaseError FOREIGN_KEY_constraint
  else Ok true (set_containers [] db).

(** *** DeviceStatusCRUD *)

Definition get_status (db : DB) : option DeviceStatus := device_status db.

Definition apply_status_update (u : DeviceStatusUpdate) (s : DeviceStatus) : DeviceStatus :=
  mkDeviceStatus
    (match u_last_sync_at u with Some d => d | None => last_sync_at s end)
    (match u_last_seen_at u with Some d => d | None => last_seen_at s end)
    (match u_version u with
     | Some v => if String.eqb v ""%string then version s else v
     | None => version s end)
    (match u_update_failures u with Some n => n | None => update_failures s end)
    (match u_active u with Some b => b | None => active s end)
    (match u_is_in_safe_mode u with Some b => b | None => is_in_safe_mode s end).

(** [update_status]: [UPDATE DeviceStatus SET ... WHERE id = 1], then
    [get_status()].  Without a row the statement changes nothing. *)
Definition update_status (u : DeviceStatusUpdate) (db : DB)
    : db_result (option DeviceStatus) :=
  let db' := set_device_status (option_map (apply_status_update u) (device_status db)) db in
  Ok (get_status db') db'.

(** *** AuditLogCRUD *)

Definition get_log_by_id (i : string) (db : DB) : option AuditLog :=
  find (fun l => String.eqb (log_id l) i) (audit_logs db).

(** [create_log]: the container reference, when given, must name an
    existing container.  The identifier comes from [uuid4()] and is
    taken to be new to the table. *)
Definition create_log (now : datetime) (log_data : AuditLogCreate) (db : DB)
    : db_result (option AuditLog) :=
  let i := uuid_of (uuid_counter db) in
  let db1 := bump_uuid db in
  let fk_ok :=
    match alc_container_id log_data with
    | Some cid => existsb (fun c => String.eqb (id c) cid) (containers db1)
    | None => true
    end in
  if negb fk_ok then DatabaseError FOREIGN_KEY_constraint
  else
    let row := mkAuditLog i (alc_type log_data) (alc_description log_data)
                 (alc_is_offline_action log_data) (alc_container_id log_data) now in
    let db2 := set_audit_logs (audit_logs db1 ++ [row]) db1 in
    Ok (get_log_by_id i db2) db2.

(** [SELECT * FROM AuditLog WHERE createdAt >= ? ORDER BY createdAt DESC] *)
Definition get_logs_since (since : datetime) (db : DB) : list AuditLog :=
  order_desc (fun l => iso_key (created_at l))
    (filter (fun l => iso_key (created_at l) >=? iso_key since) (audit_logs db)).

(** [DELETE FROM AuditLog WHERE id = ?]; true when a row went away. *)
Definition delete_log (i : string) (db : DB) : db_result bool :=
  let kept := filter (fun l => negb (String.eqb (log_id l) i)) (audit_logs db) in
  Ok (Nat.ltb (length kept) (length (audit_logs db))) (set_audit_logs kept db).

Definition delete_all_logs (db : DB) : db_result bool :=
  Ok true (set_audit_logs [] db).

(** [ContainerCRUD.delete]: [DELETE FROM Container WHERE id = ?]; refused
    while an audit log refers to the row; true when a row went away. *)
Definition delete (cid : string) (db : DB) : db_result bool :=
  let present := existsb (fun c => String.eqb (id c) cid) (containers db) in
  let referenced :=
    existsb (fun l => match container_id l with
                      | Some c => String.eqb c cid
                      | None => false
                      end) (audit_logs db) in
  if present && referenced then DatabaseError FOREIGN_KEY_constraint
  else
    let kept := filter (fun c => negb (String.eqb (id c) cid)) (containers db) in
    Ok (Nat.ltb (length kept) (length (containers db))) (set_containers kept db).

(** [LIMIT n] as the queries add it: [if limit:] leaves it out for
    [None] and for 0, and SQLite takes a negative limit as no limit. *)
Definition limited {A} (limit : option Z) (rows : list A) : list A :=
  match limit with
  | Some n => if n >? 0 then firstn (Z.to_nat n) rows else rows
  | None => rows
  end.

(** [ContainerCRUD.get_all]: [SELECT * FROM Container ORDER BY updatedAt DESC]. *)
Definition get_all (limit : option Z) (db : DB) : list Container :=
  limited limit (order_desc (fun c => iso_key (updated_at c)) (containers db)).

End Store.

(** ** Library functions the QR validator calls: SHA-256, HMAC, Base32 *)

Module Hash.
Import Codec.

Definition w32 (x : Z) : Z := x mod 4294967296.
Definition rotr (n x : Z) : Z := Z.lor (Z.shiftr x n) (w32 (Z.shiftl x (32 - n))).
Definition shr (n x : Z) : Z := Z.shiftr x n.
Definition not32 (x : Z) : Z := Z.lxor x 4294967295.
Definition Ch (x y z : Z) : Z := Z.lxor (Z.land x y) (Z.land (not32 x) z).
Definition Maj (x y z : Z) : Z :=
  Z.lxor (Z.lxor (Z.land x y) (Z.land x z)) (Z.land y z).
Definition Sigma0 (x : Z) : Z := Z.lxor (Z.lxor (rotr 2 x) (rotr 13 x)) (rotr 22 x).
Definition Sigma1 (x : Z) : Z := Z.lxor (Z.lxor (rotr 6 x) (rotr 11 x)) (rotr 25 x).
Definition sigma0 (x : Z) : Z := Z.lxor (Z.lxor (rotr 7 x) (rotr 18 x)) (shr 3 x).
Definition sigma1 (x : Z) : Z := Z.lxor (Z.lxor (rotr 17 x) (rotr 19 x)) (shr 10 x).

Definition K256 : list Z :=
  [1116352408; 1899447441; 3049323471; 3921009573; 961987163; 1508970993;
   2453635748; 2870763221; 3624381080; 310598401; 607225278; 1426881987;
   1925078388; 2162078206; 2614888103; 3248222580; 3835390401; 4022224774;
   264347078; 604807628; 770255983; 1249150122; 1555081692; 1996064986;
   2554220882; 2821834349; 2952996808; 3210313671; 3336571891; 3584528711;
   113926993; 338241895; 666307205; 773529912; 1294757372; 1396182291;
   1695183700; 1986661051; 2177026350; 2456956037; 2730485921; 2820302411;
   3259730800; 3345764771; 3516065817; 3600352804; 4094571909; 275423344;
   430227734; 506948616; 659060556; 883997877; 958139571; 1322822218;
   1537002063; 1747873779; 1955562222; 2024104815; 2227730452; 2361852424;
   2428436474; 2756734187; 3204031479; 3329325298].

Record regs : Type := mkRegs { ra : Z; rb : Z; rc : Z; rd : Z; re : Z; rf : Z; rg : Z; rh : Z }.

Definition H256 : regs :=
  mkRegs 1779033703 3144134277 1013904242 2773480762
         1359893119 2600822924 528734635 1541459225.

Definition byte_wrap (z : Z) : byte :=
  match Byte.of_N (Z.to_N (z mod 256)) with Some b => b | None => x00 end.

Fixpoint words_of_bytes (bs : list byte) : list Z :=
  match bs with
  | b0 :: b1 :: b2 :: b3 :: tl =>
      (int_of_byte b0 * 16777216 + int_of_byte b1 * 65536
       + int_of_byte b2 * 256 + int_of_byte b3) :: words_of_bytes tl
  | _ => []
  end.

Definition bytes_of_word (w : Z) : list byte :=
  [byte_wrap (Z.shiftr w 24); byte_wrap (Z.shiftr w 16); byte_wrap (Z.shiftr w 8); byte_wrap w].

(** The first [n] schedule words are extended to 64; the list is kept
    newest first. *)
Fixpoint extend_schedule (n : nat) (rev_w : list Z) : list Z :=
  match n with
  | O => rev_w
  | S n' =>
      let w := w32 (sigma1 (nth 1 rev_w 0) + nth 6 rev_w 0
                    + sigma0 (nth 14 rev_w 0) + nth 15 rev_w 0) in
      extend_schedule n' (w :: rev_w)
  end.

Definition round (r : regs) (kw : Z * Z) : regs :=
  let t1 := w32 (rh r + Sigma1 (re r) + Ch (re r) (rf r) (rg r) + fst kw + snd kw) in
  let t2 := w32 (Sigma0 (ra r) + Maj (ra r) (rb r) (rc r)) in
  mkRegs (w32 (t1 + t2)) (ra r) (rb r) (rc r) (w32 (rd r + t1)) (re r) (rf r) (rg r).

Definition compress (h : regs) (block : list byte) : regs :=
  let w := rev (extend_schedule 48 (rev (words_of_bytes block))) in
  let r := fold_left round (combine K256 w) h in
  mkRegs (w32 (ra h + ra r)) (w32 (rb h + rb r)) (w32 (rc h + rc r)) (w32 (rd h + rd r))
         (w32 (re h + re r)) (w32 (rf h + rf r)) (w32 (rg h + rg r)) (w32 (rh h + rh r)).

Definition pad (msg : list byte) : list byte :=
  let len := Z.of_nat (length msg) in
  let zeros := Z.to_nat ((55 - len) mod 64) in
  let bits := len * 8 in
  msg ++ [x80] ++ repeat x00 zeros
      ++ bytes_of_word (Z.shiftr bits 32) ++ bytes_of_word bits.

Fixpoint blocks (n : nat) (bs : list byte) (h : regs) : regs :=
  match n with
  | O => h
  | S n' => blocks n' (skipn 64 bs) (compress h (firstn 64 bs))
  end.

Definition digest_of (r : regs) : list byte :=
  bytes_of_word (ra r) ++ bytes_of_word (rb r) ++ bytes_of_word (rc r)
  ++ bytes_of_word (rd r) ++ bytes_of_word (re r) ++ bytes_of_word (rf r)
  ++ bytes_of_word (rg r) ++ bytes_of_word (rh r).

(** [hashlib.sha256(msg).digest()] *)
Definition sha256 (msg : list byte) : list byte :=
  let p := pad msg in
  digest_of (blocks (Nat.div (length p) 64) p H256).

Definition xor_byte (c : Z) (b : byte) : byte := byte_wrap (Z.lxor (int_of_byte b) c).

(** [hmac.new(key, msg, hashlib.sha256).digest()] *)
Definition hmac_sha256 (key msg : list byte) : list byte :=
  let k := if Nat.ltb 64 (length key) then sha256 key else key in
  let k := k ++ repeat x00 (64 - length k) in
  sha256 (map (xor_byte 92) k ++ sha256 (map (xor_byte 54) k ++ msg)).

(** The Base32 alphabet of RFC 4648. *)
Definition b32_alphabet : list ascii :=
  list_ascii_of_string "ABCDEFGHIJKLMNOPQRSTUVWXYZ234567".

Definition b32_char (v : Z) : ascii :=
  nth (Z.to_nat (Z.land v 31)) b32_alphabet "A"%char.

(** The eight characters of one five-byte group [c]. *)
Definition b32_group (c : Z) : list ascii :=
  [b32_char (Z.shiftr c 35); b32_char (Z.shiftr c 30); b32_char (Z.shiftr c 25);
   b32_char (Z.shiftr c 20); b32_char (Z.shiftr c 15); b32_char (Z.shiftr c 10);
   b32_char (Z.shiftr c 5); b32_char c].

Definition group_value (b0 b1 b2 b3 b4 : byte) : Z :=
  int_of_byte b0 * 4294967296 + int_of_byte b1 * 16777216
  + int_of_byte b2 * 65536 + int_of_byte b3 * 256 + int_of_byte b4.

Definition pad_char : ascii := "="%char.

(** [base64.b32encode]: five bytes give eight characters; a shorter last
    group is filled with zero bytes and its unused characters are
    replaced by the padding character. *)
Fixpoint b32encode (bs : list byte) : list ascii :=
  match bs with
  | [] => []
  | [b0] => firstn 2 (b32_group (group_value b0 x00 x00 x00 x00)) ++ repeat pad_char 6
  | [b0; b1] => firstn 4 (b32_group (group_value b0 b1 x00 x00 x00)) ++ repeat pad_char 4
  | [b0; b1; b2] => firstn 5 (b32_group (group_value b0 b1 b2 x00 x00)) ++ repeat pad_char 3
  | [b0; b1; b2; b3] => firstn 7 (b32_group (group_value b0 b1 b2 b3 x00)) ++ repeat pad_char 1
  | b0 :: b1 :: b2 :: b3 :: b4 :: tl => b32_group (group_value b0 b1 b2 b3 b4) ++ b32encode tl
  end.

End Hash.

(** ** QR validator ([qr/processor.py]) *)

Module QR.
Import Codec Hash.
Local Open Scope string_scope.

Inductive ValidationResult : Type :=
| VALID | INVALID_FORMAT | INVALID_LENGTH | INVALID_CHARACTERS
| INVALID_URL_FORMAT | INVALID_HASH | FRAUD_ATTEMPT.

(** The [value] of the enumeration member. *)
Definition validation_value (v : ValidationResult) : string :=
  match v with
  | VALID => "valid"
  | INVALID_FORMAT => "invalid_format"
  | INVALID_LENGTH => "invalid_length"
  | INVALID_CHARACTERS => "invalid_characters"
  | INVALID_URL_FORMAT => "invalid_url_format"
  | INVALID_HASH => "invalid_hash"
  | FRAUD_ATTEMPT => "fraud_attempt"
  end.

(** [QRProcessingResult] without [processing_time]. *)
Record QRProcessingResult : Type := mkQRResult {
  qr_code : string;
  validation : ValidationResult;
  container_id : option string;
  error_message : option string;
  is_fraud_attempt : bool;
  parsed_url : option (string * string)
}.

Definition code_of (c : ascii) : nat := nat_of_ascii c.

Definition in_range (lo hi : ascii) (c : ascii) : bool :=
  Nat.leb (code_of lo) (code_of c) && Nat.leb (code_of c) (code_of hi).

Definition is_lower (c : ascii) : bool := in_range "a" "z" c.
Definition is_upper (c : ascii) : bool := in_range "A" "Z" c.
Definition is_digit (c : ascii) : bool := in_range "0" "9" c.

(** [str.upper] and [str.lower] on the letters a-z and A-Z. *)
Definition upper_char (c : ascii) : ascii :=
  if is_lower c then ascii_of_nat (code_of c - 32) else c.
Definition lower_char (c : ascii) : ascii :=
  if is_upper c then ascii_of_nat (code_of c + 32) else c.

Definition upper (s : string) : string :=
  string_of_list_ascii (map upper_char (list_ascii_of_string s)).

(** The characters [str.strip()] removes. *)
Definition is_space (c : ascii) : bool :=
  let n := code_of c in
  (Nat.leb 9 n && Nat.leb n 13) || (Nat.leb 28 n && Nat.leb n 32)
  || Nat.eqb n 133 || Nat.eqb n 160.

Fixpoint lstrip (cs : list ascii) : list ascii :=
  match cs with
  | c :: tl => if is_space c then lstrip tl else cs
  | [] => []
  end.

Definition strip (s : string) : string :=
  string_of_list_ascii (rev (lstrip (rev (lstrip (list_ascii_of_string s))))).

(** Character classes of the pattern under [re.IGNORECASE], on the
    characters below U+0100.  (Beyond those, [re.IGNORECASE] also takes
    U+017F and U+212A into a range of letters; such scans are outside
    the strings of this development.) *)
Definition code_class (c : ascii) : bool :=
  let u := upper_char c in
  in_range "A" "H" u || in_range "J" "N" u || in_range "P" "Z" u || in_range "2" "9" u.

Definition hash_class (c : ascii) : bool :=
  is_upper (upper_char c) || is_digit c.

Definition ieq (a b : ascii) : bool := Ascii.eqb (lower_char a) (lower_char b).

(** A literal of the pattern against the front of the input. *)
Fixpoint match_literal (lit cs : list ascii) : option (list ascii) :=
  match lit, cs with
  | [], _ => Some cs
  | l :: lit', c :: cs' => if ieq l c then match_literal lit' cs' else None
  | _ :: _, [] => None
  end.

(** Exactly [n] characters of a class. *)
Fixpoint match_class (cls : ascii -> bool) (n : nat) (cs : list ascii)
    : option (list ascii * list ascii) :=
  match n with
  | O => Some ([], cs)
  | S n' =>
      match cs with
      | c :: cs' =>
          if cls c then
            match match_class cls n' cs' with
            | Some (g, rest) => Some (c :: g, rest)
            | None => None
            end
          else None
      | [] => None
      end
  end.

Definition newline : ascii := ascii_of_nat 10.

(** [scheme ://paka.eco/QR/ (code){6} / (hash){6} $] against a whole
    suffix; [$] also matches before a final newline. *)
Definition match_tail (scheme : string) (cs : list ascii) : option (string * string) :=
  match match_literal (list_ascii_of_string (scheme ++ "://paka.eco/QR/")) cs with
  | None => None
  | Some r1 =>
      match match_class code_class 6 r1 with
      | None => None
      | Some (code, r2) =>
          match match_literal ["/"%char] r2 with
          | None => None
          | Some r3 =>
              match match_class hash_class 6 r3 with
              | None => None
              | Some (hash, r4) =>
                  match r4 with
                  | [] => Some (string_of_list_ascii code, string_of_list_ascii hash)
                  | [c] => if Ascii.eqb c newline
                           then Some (string_of_list_ascii code, string_of_list_ascii hash)
                           else None
                  | _ => None
                  end
              end
          end
      end
  end.

(** [re.compile(r'.*https?:\/\/paka\.eco\/QR\/([A-HJ-NP-Z2-9]{6})\/([A-Z0-9]{6})$',
    re.IGNORECASE).match]: the leading [.*] takes any characters but
    newlines, then the rest of the pattern must take the whole
    remainder.  The split points are tried from the longest prefix down,
    as the greedy [.*] does. *)
Fixpoint match_from (cs : list ascii) : option (string * string) :=
  let here :=
    match match_tail "https" cs with
    | Some g => Some g
    | None => match_tail "http" cs
    end in
  match cs with
  | [] => here
  | c :: cs' =>
      if Ascii.eqb c newline then here
      else
        match match_from cs' with
        | Some g => Some g
        | None => here
        end
  end.

Definition url_pattern_match (s : string) : option (string * string) :=
  match_from (list_ascii_of_string s).

(** [_parse_scanned_url]: the groups, upper-cased. *)
Definition parse_scanned_url (url : string) : option (string * string) :=
  if String.eqb url "" then None
  else
    match url_pattern_match (strip url) with
    | None => None
    | Some (code, hash) => Some (upper code, upper hash)
    end.

(** [str.encode('utf-8')] for code points below 256. *)
Definition utf8_encode (s : string) : list byte :=
  flat_map (fun c =>
              let n := Z.of_nat (code_of c) in
              if (n <? 128)%Z then [byte_wrap n]
              else [byte_wrap (Z.lor 192 (Z.shiftr n 6));
                    byte_wrap (Z.lor 128 (Z.land n 63))])
           (list_ascii_of_string s).

Definition hash_length : nat := 6.

(** [_generate_hmac_hash] *)
Definition generate_hmac_hash (private_key code : string) : string :=
  let raw_digest := hmac_sha256 (utf8_encode private_key) (utf8_encode code) in
  let encoded := b32encode raw_digest in
  upper (string_of_list_ascii (firstn hash_length encoded)).

(** [process_qr_code] *)
Definition process_qr_code (private_key qr : string) : QRProcessingResult :=
  let qr := strip qr in
  let parsed := parse_scanned_url qr in
  match parsed with
  | None =>
      mkQRResult qr FRAUD_ATTEMPT None
        (Some "Invalid URL format. Expected: http://paka.eco/QR/[CODE]/[HASH]")
        true parsed
  | Some (code, provided_hash) =>
      let expected_hash := generate_hmac_hash private_key code in
      if negb (String.eqb provided_hash expected_hash) then
        mkQRResult qr FRAUD_ATTEMPT None
          (Some "Invalid hash. The QR code may be corrupted or fraudulent")
          true parsed
      else
        mkQRResult qr VALID (Some code) None false parsed
  end.

End QR.

(** ** The state of the running process and its environment *)

Module World.
Import Codec Py.

(** [UART.sensor_states]: a dictionary with the two keys
    [SensorType.COVER] and [SensorType.CONTAINER]; no key is ever added
    or removed. *)
Record SensorStates : Type := mkSensors {
  cover : bool;
  container : bool
}.

(** The attributes of the [UART] object.  An attribute holding a
    collaborator is reduced to what the engine reads of it:
    [serial_connection] tells whether the port is open, [qr_processor]
    holds the private key of the processor, the others whether the
    collaborator was wired. *)
Record UART : Type := mkUART {
  serial_connection : bool;
  message_id_counter : Z;
  db_manager : bool;
  api_service : bool;
  audit_logger : bool;
  qr_processor : option string;
  sensor_states : SensorStates;
  last_ack_id : option Z;
  waiting_for_ack : bool;
  waiting_for_qr : bool;
  qr_timeout_start : option Z;
  container_qr_code : option string;
  seq2_completed : bool;
  seq2_completion_time : option Z;
  seq3_completed : bool;
  seq3_completion_time : option Z;
  seq1_lights_active : bool;
  seq1_activation_time : option Z;
  seq4_in_progress : bool;
  device_inactive_callback : bool
}.

(** The mode flags of [ContainerReturnSystem] and the scanner switch. *)
Record App : Type := mkApp {
  device_inactive : bool;
  device_secure_mode : bool;
  qr_scanner : bool;
  scan_enabled : bool
}.

(** The attributes of [APIService] the sync service reads and writes;
    the two callbacks tell whether one is registered. *)
Record APIService : Type := mkAPIService {
  last_active_status : option bool;
  last_secure_mode_status : option bool;
  device_status_callback : bool;
  secure_mode_callback : bool
}.

(** [containerData] of a validation reply, a dictionary that is not
    empty: each of the two entries is absent (or null) or present;
    [cd_updatedAt] is the timestamp the text parses to. *)
Record ContainerData : Type := mkContainerData {
  cd_isReturnable : option bool;
  cd_updatedAt : option datetime
}.

(** The [data] of a validation reply, a dictionary that is not empty;
    [containerData] is [None] when the entry is absent or empty. *)
Record ValidateData : Type := mkValidateData {
  containerData : option ContainerData
}.

(** One element of the [data] list of a sync reply. *)
Record ServerContainer : Type := mkServerContainer {
  sc_id : string;
  sc_qrCode : string;
  sc_isReturnable : option bool;
  sc_dueTime : option datetime
}.

(** The body of a sync request; the timestamps are sent as text cut to
    milliseconds ([server_timestamp]). *)
Record LogDict : Type := mkLogDict {
  ld_type : Store.LogType;
  ld_description : string;
  ld_isOfflineAction : bool;
  ld_containerId : option string;
  ld_createdAt : Z
}.

Record ContainerDict : Type := mkContainerDict {
  cdict_id : string;
  cdict_isReturnable : bool;
  cdict_updatedAt : Z
}.

(** What a request to the backend comes back with. *)
Inductive reply (A : Type) : Type :=
| RequestException
| Response (success : bool) (data : A).
Arguments RequestException {A}.
Arguments Response {A} success data.

(** Everything outside the process.  [clock] is the current time in
    microseconds since the epoch.  [rx] lists what the serial port holds
    at each successive poll.  The three functions are the backend. *)
Record Env : Type := mkEnv {
  clock : Z;
  rx : list (list byte);
  validate_reply : string -> reply (option ValidateData);
  sync_reply : list LogDict -> list ContainerDict -> reply (list ServerContainer);
  healthcheck_reply : string -> Z -> reply (option bool)
}.

Inductive level : Type := DEBUG | INFO | WARNING | ERROR.

(** What can be observed of a run, oldest first: bytes written to the
    serial port, lines given to the logger (the step-by-step progress
    lines are left out, and where a line ends in formatted values only
    its constant part is kept), and requests posted to the backend. *)
Inductive event : Type :=
| Write (frame : list byte)
| Log (lvl : level) (msg : string)
| PostValidate (container_id : string)
| PostSync (logs : list LogDict) (containers : list ContainerDict)
| PostHealthcheck (version : string) (update_failures : Z).

Record World : Type := mkWorld {
  uart : UART;
  app : App;
  svc : APIService;
  db : Store.DB;
  env : Env;
  trace : list event
}.

Inductive exn : Type :=
| DatabaseError (e : Store.db_error)
| RequestFailed
| AttributeError
| TypeError
| ValueError.

(** How a computation ends: with a value, with a raised exception, or
    cut off because the recursion budget of the model ran out. *)
Inductive outcome (A : Type) : Type :=
| Ret (a : A)
| Raise (e : exn)
| OutOfFuel.
Arguments Ret {A} a.
Arguments Raise {A} e.
Arguments OutOfFuel {A}.

Definition M (A : Type) : Type := World -> outcome A * World.

Definition ret {A} (a : A) : M A := fun w => (Ret a, w).

Definition bind {A B} (m : M A) (k : A -> M B) : M B :=
  fun w =>
    match m w with
    | (Ret a, w') => k a w'
    | (Raise e, w') => (Raise e, w')
    | (OutOfFuel, w') => (OutOfFuel, w')
    end.

Definition raise {A} (e : exn) : M A := fun w => (Raise e, w).
Definition out_of_fuel {A} : M A := fun w => (OutOfFuel, w).

(** [try: m  except Exception as e: h e] *)
Definition try_except {A} (m : M A) (h : exn -> M A) : M A :=
  fun w =>
    match m w with
    | (Raise e, w') => h e w'
    | r => r
    end.

(** [try: m  finally: f] *)
Definition try_finally {A} (m : M A) (f : M unit) : M A :=
  fun w =>
    match m w with
    | (o, w') =>
        match f w' with
        | (Ret _, w'') => (o, w'')
        | (Raise e, w'') => (Raise e, w'')
        | (OutOfFuel, w'') => (OutOfFuel, w'')
        end
    end.

Declare Scope monad_scope.
Delimit Scope monad_scope with monad.
Notation "x <- m ;; k" := (bind m (fun x => k))
  (at level 61, m at next level, right associativity) : monad_scope.
Notation "m ;; k" := (bind m (fun _ => k))
  (at level 61, right associativity) : monad_scope.
Local Open Scope monad_scope.

Definition get : M World := fun w => (Ret w, w).
Definition gets {A} (f : World -> A) : M A := fun w => (Ret (f w), w).
Definition modify (f : World -> World) : M unit := fun w => (Ret tt, f w).

Definition set_uart (u : UART) (w : World) : World :=
  mkWorld u (app w) (svc w) (db w) (env w) (trace w).
Definition set_app (a : App) (w : World) : World :=
  mkWorld (uart w) a (svc w) (db w) (env w) (trace w).
Definition set_svc (s : APIService) (w : World) : World :=
  mkWorld (uart w) (app w) s (db w) (env w) (trace w).
Definition set_db (d : Store.DB) (w : World) : World :=
  mkWorld (uart w) (app w) (svc w) d (env w) (trace w).
Definition set_env (e : Env) (w : World) : World :=
  mkWorld (uart w) (app w) (svc w) (db w) e (trace w).
Definition set_trace (t : list event) (w : World) : World :=
  mkWorld (uart w) (app w) (svc w) (db w) (env w) t.

Definition upd_uart (f : UART -> UART) : M unit := modify (fun w => set_uart (f (uart w)) w).
Definition upd_app (f : App -> App) : M unit := modify (fun w => set_app (f (app w)) w).
Definition upd_svc (f : APIService -> APIService) : M unit :=
  modify (fun w => set_svc (f (svc w)) w).
Definition upd_env (f : Env -> Env) : M unit := modify (fun w => set_env (f (env w)) w).

Definition emit (e : event) : M unit := modify (fun w => set_trace (trace w ++ [e]) w).
Definition log (lvl : level) (msg : string) : M unit := emit (Log lvl msg).

(** A statement of the store adapter run against the database of the
    process; a failure is raised. *)
Definition db_call {A} (f : Store.DB -> Store.db_result A) : M A :=
  fun w =>
    match f (db w) with
    | Store.Ok a d => (Ret a, set_db d w)
    | Store.DatabaseError e => (Raise (DatabaseError e), w)
    end.

Definition db_query {A} (f : Store.DB -> A) : M A := gets (fun w => f (db w)).

Definition set_clock (t : Z) (e : Env) : Env :=
  mkEnv t (rx e) (validate_reply e) (sync_reply e) (healthcheck_reply e).
Definition set_rx (r : list (list byte)) (e : Env) : Env :=
  mkEnv (clock e) r (validate_reply e) (sync_reply e) (healthcheck_reply e).

(** [time.time()] *)
Definition time_time : M Z := gets (fun w => clock (env w)).
(** [time.sleep(d)] *)
Definition sleep (d : Z) : M unit := upd_env (fun e => set_clock (clock e + d) e).
(** [datetime.now(timezone.utc)] and [datetime.utcnow()] *)
Definition now_utc : M datetime := gets (fun w => mkDatetime (clock (env w)) true).
Definition utcnow : M datetime := gets (fun w => mkDatetime (clock (env w)) false).

(** [for x in xs: body x] *)
Fixpoint for_each {A} (xs : list A) (body : A -> M unit) : M unit :=
  match xs with
  | [] => ret tt
  | x :: tl => body x ;; for_each tl body
  end.

(** Field updates of [UART]. *)
Definition set_message_id_counter (v : Z) (u : UART) : UART :=
  mkUART (serial_connection u) v (db_manager u) (api_service u) (audit_logger u)
    (qr_processor u) (sensor_states u) (last_ack_id u) (waiting_for_ack u)
    (waiting_for_qr u) (qr_timeout_start u) (container_qr_code u) (seq2_completed u)
    (seq2_completion_time u) (seq3_completed u) (seq3_completion_time u)
    (seq1_lights_active u) (seq1_activation_time u) (seq4_in_progress u)
    (device_inactive_callback u).
Definition set_sensor_states (v : SensorStates) (u : UART) : UART :=
  mkUART (serial_connection u) (message_id_counter u) (db_manager u) (api_service u)
    (audit_logger u) (qr_processor u) v (last_ack_id u) (waiting_for_ack u)
    (waiting_for_qr u) (qr_timeout_start u) (container_qr_code u) (seq2_completed u)
    (seq2_completion_time u) (seq3_completed u) (seq3_completion_time u)
    (seq1_lights_active u) (seq1_activation_time u) (seq4_in_progress u)
    (device_inactive_callback u).
Definition set_ack_state (ack : option Z) (waiting : bool) (u : UART) : UART :=
  mkUART (serial_connection u) (message_id_counter u) (db_manager u) (api_service u)
    (audit_logger u) (qr_processor u) (sensor_states u) ack waiting
    (waiting_for_qr u) (qr_timeout_start u) (container_qr_code u) (seq2_completed u)
    (seq2_completion_time u) (seq3_completed u) (seq3_completion_time u)
    (seq1_lights_active u) (seq1_activation_time u) (seq4_in_progress u)
    (device_inactive_callback u).
Definition set_qr_state (waiting : bool) (start : option Z) (code : option string)
    (u : UART) : UART :=
  mkUART (serial_connection u) (message_id_counter u) (db_manager u) (api_service u)
    (audit_logger u) (qr_processor u) (sensor_states u) (last_ack_id u)
    (waiting_for_ack u) waiting start code (seq2_completed u)
    (seq2_completion_time u) (seq3_completed u) (seq3_completion_time u)
    (seq1_lights_active u) (seq1_activation_time u) (seq4_in_progress u)
    (device_inactive_callback u).
Definition set_seq2 (done : bool) (at_time : option Z) (u : UART) : UART :=
  mkUART (serial_connection u) (message_id_counter u) (db_manager u) (api_service u)
    (audit_logger u) (qr_processor u) (sensor_states u) (last_ack_id u)
    (waiting_for_ack u) (waiting_for_qr u) (qr_timeout_start u) (container_qr_code u)
    done at_time (seq3_completed u) (seq3_completion_time u)
    (seq1_lights_active u) (seq1_activation_time u) (seq4_in_progress u)
    (device_inactive_callback u).
Definition set_seq3 (done : bool) (at_time : option Z) (u : UART) : UART :=
  mkUART (serial_connection u) (message_id_counter u) (db_manager u) (api_service u)
    (audit_logger u) (qr_processor u) (sensor_states u) (last_ack_id u)
    (waiting_for_ack u) (waiting_for_qr u) (qr_timeout_start u) (container_qr_code u)
    (seq2_completed u) (seq2_completion_time u) done at_time
    (seq1_lights_active u) (seq1_activation_time u) (seq4_in_progress u)
    (device_inactive_callback u).
Definition set_seq1_lights (active : bool) (at_time : option Z) (u : UART) : UART :=
  mkUART (serial_connection u) (message_id_counter u) (db_manager u) (api_service u)
    (audit_logger u) (qr_processor u) (sensor_states u) (last_ack_id u)
    (waiting_for_ack u) (waiting_for_qr u) (qr_timeout_start u) (container_qr_code u)
    (seq2_completed u) (seq2_completion_time u) (seq3_completed u)
    (seq3_completion_time u) active at_time (seq4_in_progress u)
    (device_inactive_callback u).
Definition set_seq4_in_progress (v : bool) (u : UART) : UART :=
  mkUART (serial_connection u) (message_id_counter u) (db_manager u) (api_service u)
    (audit_logger u) (qr_processor u) (sensor_states u) (last_ack_id u)
    (waiting_for_ack u) (waiting_for_qr u) (qr_timeout_start u) (container_qr_code u)
    (seq2_completed u) (seq2_completion_time u) (seq3_completed u)
    (seq3_completion_time u) (seq1_lights_active u) (seq1_activation_time u) v
    (device_inactive_callback u).
Definition set_device_inactive_callback (v : bool) (u : UART) : UART :=
  mkUART (serial_connection u) (message_id_counter u) (db_manager u) (api_service u)
    (audit_logger u) (qr_processor u) (sensor_states u) (last_ack_id u)
    (waiting_for_ack u) (waiting_for_qr u) (qr_timeout_start u) (container_qr_code u)
    (seq2_completed u) (seq2_completion_time u) (seq3_completed u)
    (seq3_completion_time u) (seq1_lights_active u) (seq1_activation_time u)
    (seq4_in_progress u) v.

(** A relation every run of [m] keeps between the state before and the
    state after; computations that end with a value; computations the
    recursion budget never cuts off. *)
Definition respects (R : World -> World -> Prop) {A} (m : M A) : Prop :=
  forall w, R w (snd (m w)).

Definition returns {A} (m : M A) : Prop := forall w, exists a, fst (m w) = Ret a.

Definition unfuelled {A} (m : M A) : Prop := forall w, fst (m w) <> OutOfFuel.

End World.

(** ** Audit logger ([audit/logger.py]) *)

Module Audit.
Import Py World.
Local Open Scope monad_scope.
Local Open Scope string_scope.

Definition log_type_value (t : Store.LogType) : string :=
  match t with
  | Store.ERROR => "ERROR"
  | Store.INFO => "INFO"
  | Store.RETURN_VALID => "RETURN_VALID"
  | Store.RETURN_INVALID => "RETURN_INVALID"
  end.

Definition bool_repr (b : bool) : string := if b then "True" else "False".

Definition nonempty (s : option string) : bool :=
  match s with
  | Some v => negb (String.eqb v "")
  | None => false
  end.

(** The line given to the application logger besides the database
    row. *)
Definition app_log_line (log_type : Store.LogType) (description : string)
    (container_id : option string) (is_offline : bool) : M unit :=
  log (match log_type with Store.ERROR => ERROR | _ => INFO end)
      ("[" ++ log_type_value log_type ++ "] " ++ description
       ++ " (Container: " ++ (if nonempty container_id
                              then match container_id with Some c => c | None => "" end
                              else "N/A")
       ++ ", Offline: " ++ bool_repr is_offline ++ ")").

Definition create_log (a : Store.AuditLogCreate) : M (option Store.AuditLog) :=
  now <- utcnow ;; db_call (Store.create_log now a).

(** [AuditLogger._log_to_database] *)
Definition log_to_database (log_type : Store.LogType) (description : string)
    (container_id : option string) (is_offline : bool) : M unit :=
  try_except
    (_ <- create_log (Store.mkAuditLogCreate log_type description is_offline container_id) ;;
     app_log_line log_type description container_id is_offline)
    (fun e =>
       let report_failure :=
         log ERROR "Failed to log audit entry to database" ;;
         app_log_line log_type description container_id is_offline in
       match e, container_id with
       | DatabaseError Store.FOREIGN_KEY_constraint, Some cid =>
           if nonempty container_id then
             retried <-
               try_except
                 (_ <- create_log
                         (Store.mkAuditLogCreate log_type
                            (description ++ " (Container ID: " ++ cid ++ " - not found in DB)")
                            is_offline None) ;;
                  log WARNING "Logged audit entry without container reference due to FK constraint" ;;
                  ret true)
                 (fun _ => ret false) ;;
             if retried then ret tt else report_failure
           else report_failure
       | _, _ => report_failure
       end).

Definition log_return_valid (container_id description : string) (is_offline : bool) : M unit :=
  log_to_database Store.RETURN_VALID description (Some container_id) is_offline.

Definition log_return_invalid (container_id description : string) (is_offline : bool) : M unit :=
  log_to_database Store.RETURN_INVALID description (Some container_id) is_offline.

Definition log_info (description : string) : M unit :=
  log_to_database Store.INFO description None false.

Definition log_error (description : string) : M unit :=
  log_to_database Store.ERROR description None false.

(** [log_security_event]; [details] is the rendering of a dictionary
    that is not empty, [None] stands for a missing or empty one. *)
Definition log_security_event (event_type description : string) (details : option string)
    : M unit :=
  let detail_str :=
    match details with
    | Some d => " - Details: " ++ d
    | None => ""
    end in
  log_error ("Security Event [" ++ event_type ++ "]: " ++ description ++ detail_str).

End Audit.

(** ** Link layer and QR decision policy ([uart/uart.py], class [UART]) *)

Module Link.
Import Codec Py World.
Local Open Scope monad_scope.
Local Open Scope string_scope.

(** [ActuatorType], [ActuatorAction], [LightPosition], [LightColor],
    [LightType], [SensorType], [SensorStatus], [DoorAction] *)
Definition ActuatorType_COVER : Z := 0.
Definition ActuatorType_CONTAINER : Z := 1.
Definition ActuatorAction_STORE : Z := 0.
Definition ActuatorAction_OPEN : Z := 1.
Definition ActuatorAction_CLOSE : Z := 2.
Definition LightPosition_CONTAINER : Z := 0.
Definition LightPosition_COVER : Z := 1.
Definition LightColor_WHITE_ON : Z := 0.
Definition LightColor_RED_ON : Z := 1.
Definition LightColor_GREEN_ON : Z := 2.
Definition LightColor_DISABLE_ALL : Z := 3.
Definition LightType_STEADY : Z := 0.
Definition LightType_BLINKING : Z := 1.
Definition SensorType_COVER : Z := 0.
Definition SensorType_CONTAINER : Z := 1.
Definition SensorStatus_NO_DETECTION : Z := 0.
Definition SensorStatus_DETECTION : Z := 1.
Definition DoorAction_BLOCK : Z := 0.
Definition DoorAction_UNBLOCK : Z := 1.

(** [_is_device_inactive]; the registered callback is the one
    [main.py] installs, [lambda: self.device_inactive or
    self.device_secure_mode]. *)
Definition is_device_inactive : M bool :=
  w <- get ;;
  if device_inactive_callback (uart w)
  then ret (device_inactive (app w) || device_secure_mode (app w))
  else ret false.

Definition get_next_message_id : M Z :=
  upd_uart (fun u => set_message_id_counter ((message_id_counter u + 1) mod 100) u) ;;
  gets (fun w => message_id_counter (uart w)).

(** [serial_connection.write(frame)]: the open port takes the whole
    frame. *)
Definition serial_write (frame : list byte) : M Z :=
  emit (Write frame) ;; ret (Z.of_nat (length frame)).

Definition send_message (msg_type : Z) (payload : list byte) : M bool :=
  u <- gets uart ;;
  if negb (serial_connection u) then
    log ERROR "UART not connected" ;; ret false
  else
    msg_id <- get_next_message_id ;;
    match encode_message (mkMsg msg_type msg_id payload) with
    | None => log ERROR "Send failed" ;; ret false
    | Some frame =>
        bytes_written <- serial_write frame ;;
        if (bytes_written >? 0)%Z then ret true
        else log ERROR "Failed to send" ;; ret false
    end.

Definition send_ack (original_message : UARTMessage) : M bool :=
  u <- gets uart ;;
  if negb (serial_connection u) then
    log ERROR "UART not connected" ;; ret false
  else
    match create_ack original_message with
    | None => log ERROR "Failed to send ACK" ;; ret false
    | Some ack_message =>
        match encode_message ack_message with
        | None => log ERROR "Failed to send ACK" ;; ret false
        | Some frame =>
            bytes_written <- serial_write frame ;;
            if (bytes_written >? 0)%Z then ret true else ret false
        end
    end.

(** What the frame extraction of [receive_messages] finds at a
    position; a frame that is not decoded either fails [validate_frame]
    or passes it and fails on its type byte, which [decode_frame] logs. *)
Inductive extracted : Type :=
| Decoded (m : UARTMessage)
| Undecodable (well_framed : bool)
| Incomplete.

(** The loop [while i < len(data)] of [receive_messages] on the rest of
    the data from position [i]; [n] bounds the number of steps by the
    length of the data. *)
Fixpoint extract_frames (n : nat) (data : list byte) : list extracted :=
  match n with
  | O => []
  | S n' =>
      match data with
      | [] => []
      | b :: rest =>
          if Byte.eqb b START_BYTE && Nat.ltb 4 (length data) then
            let payload_length := int_of_byte (nth 3 data x00) in
            let frame_length := Z.to_nat (5 + payload_length) in
            if Nat.leb frame_length (length data) then
              let frame := firstn frame_length data in
              match decode_frame frame with
              | Some message => Decoded message :: extract_frames n' (skipn frame_length data)
              | None =>
                  Undecodable (validate_frame frame)
                  :: extract_frames n' (skipn frame_length data)
              end
            else [Incomplete]
          else extract_frames n' rest
      end
  end.

(** [serial_connection.read(in_waiting)]: the bytes waiting at this
    poll. *)
Definition serial_read : M (list byte) :=
  w <- get ;;
  match rx (env w) with
  | [] => ret []
  | chunk :: later => upd_env (set_rx later) ;; ret chunk
  end.

Definition receive_messages : M (list UARTMessage) :=
  u <- gets uart ;;
  if negb (serial_connection u) then ret []
  else
    data <- serial_read ;;
    let found := extract_frames (length data) data in
    for_each found (fun x =>
      match x with
      | Decoded _ => ret tt
      | Undecodable well_framed =>
          (if well_framed then log ERROR "Decode error" else ret tt) ;;
          log ERROR "FAILED TO DECODE FRAME"
      | Incomplete => log WARNING "Incomplete frame"
      end) ;;
    ret (flat_map (fun x => match x with Decoded m => [m] | _ => [] end) found).

(** [struct.pack] of small integers; out of range raises. *)
Definition pack (vs : list Z) : M (list byte) :=
  match pack_bytes vs with
  | Some bs => ret bs
  | None => raise ValueError
  end.

Definition control_actuator (actuator_type action : Z) : M bool :=
  payload <- pack [actuator_type; action] ;;
  send_message ACTUATOR_MOVEMENT payload.

Definition control_light (position light_color light_type : Z) : M bool :=
  payload <- pack [position; light_color; light_type] ;;
  send_message LIGHT_MANAGEMENT payload.

Definition control_door (action : Z) : M bool :=
  payload <- pack [action] ;;
  send_message DOOR_CONTROL payload.

Definition turn_all_lights_off : M bool :=
  r1 <- control_light LightPosition_CONTAINER LightColor_DISABLE_ALL LightType_STEADY ;;
  r2 <- control_light LightPosition_COVER LightColor_DISABLE_ALL LightType_STEADY ;;
  ret (r1 && r2).

Definition store_cover : M bool := control_actuator ActuatorType_COVER ActuatorAction_STORE.
Definition open_cover : M bool := control_actuator ActuatorType_COVER ActuatorAction_OPEN.
Definition close_cover : M bool := control_actuator ActuatorType_COVER ActuatorAction_CLOSE.
Definition store_container : M bool :=
  control_actuator ActuatorType_CONTAINER ActuatorAction_STORE.
Definition open_container : M bool :=
  control_actuator ActuatorType_CONTAINER ActuatorAction_OPEN.
Definition close_container : M bool :=
  control_actuator ActuatorType_CONTAINER ActuatorAction_CLOSE.

Definition set_cover_light_white : M bool :=
  control_light LightPosition_COVER LightColor_WHITE_ON LightType_STEADY.
Definition set_cover_light_green : M bool :=
  control_light LightPosition_COVER LightColor_GREEN_ON LightType_STEADY.
Definition set_cover_light_red : M bool :=
  control_light LightPosition_COVER LightColor_RED_ON LightType_STEADY.
Definition set_container_light_white : M bool :=
  control_light LightPosition_CONTAINER LightColor_WHITE_ON LightType_STEADY.
Definition set_container_light_green : M bool :=
  control_light LightPosition_CONTAINER LightColor_GREEN_ON LightType_STEADY.
Definition set_container_light_red : M bool :=
  control_light LightPosition_CONTAINER LightColor_RED_ON LightType_STEADY.

(** [set_error_state]: red container light. *)
Definition set_error_state : M bool := set_container_light_red.

Definition block_doors : M bool := control_door DoorAction_BLOCK.
Definition unblock_doors : M bool := control_door DoorAction_UNBLOCK.

Definition handle_ack (message : UARTMessage) : M unit :=
  upd_uart (set_ack_state (Some (msg_id message)) false).

Definition handle_error_message (message : UARTMessage) : M unit :=
  log ERROR "Hardware error from micro" ;;
  _ <- set_error_state ;;
  ret tt.

(** [handle_qr_scan] *)
Definition handle_qr_scan (qr : string) : M unit :=
  u <- gets uart ;;
  if waiting_for_qr u then
    log INFO "QR code received" ;;
    upd_uart (fun u => set_qr_state false (qr_timeout_start u) (Some qr) u)
  else
    log WARNING "QR code received but not waiting for QR".

End Link.

(** ** QR decision policy ([UART._validate_container_qr] and helpers) *)

Module Decision.
Import Codec Py World Link.
Local Open Scope monad_scope.
Local Open Scope string_scope.

(** A stand-in for [datetime.isoformat()] inside descriptions. *)
Definition isoformat (d : datetime) : string :=
  NilEmpty.string_of_int (Z.to_int (instant d)).

(** [APIService.validate_container] *)
Definition api_validate_container (container_id : string) : M (option ValidateData) :=
  emit (PostValidate container_id) ;;
  w <- get ;;
  match validate_reply (env w) container_id with
  | RequestException => log ERROR "Container validation failed" ;; ret None
  | Response success data => if success then ret data else ret None
  end.

(** [_validate_with_server] *)
Definition validate_with_server (qr_code : string) : M (option ValidateData) :=
  try_except
    (u <- gets uart ;;
     if negb (api_service u) || negb (db_manager u) then
       log WARNING "No API service or database manager available for server validation" ;;
       ret None
     else
       container <- db_query (Store.get_by_qr_code qr_code) ;;
       match container with
       | None =>
           log WARNING "Container not found in local database for QR" ;; ret None
       | Some c =>
           response <- api_validate_container (Store.id c) ;;
           match response with
           | Some r => ret (Some r)
           | None => log WARNING "Server validation failed for container" ;; ret None
           end
       end)
    (fun _ => log ERROR "Server validation request failed" ;; ret None).

(** [_update_local_container]; [container_id] is the [id] entry the
    caller stored in the dictionary. *)
Definition update_local_container (qr_code : string) (container_id : string)
    (container_data : ContainerData) : M unit :=
  try_except
    (u <- gets uart ;;
     if negb (db_manager u) then
       log WARNING "No database manager available for updating container"
     else
       let is_returnable := cd_isReturnable container_data in
       if String.eqb container_id "" then
         log WARNING "No container ID in server response"
       else
         let updated_at := cd_updatedAt container_data in
         existing_container <- db_query (Store.get_by_qr_code qr_code) ;;
         match existing_container with
         | Some existing =>
             let updates : dict := [] in
             let updates :=
               match is_returnable with
               | Some b => dict_set "is_returnable" (VBool b) updates
               | None => updates
               end in
             let updates :=
               match updated_at with
               | Some d => dict_set "updatedAt" (VDatetime d) updates
               | None => updates
               end in
             if negb (dict_is_empty updates) then
               now <- utcnow ;;
               _ <- db_call (Store.update now (Store.id existing) updates) ;;
               log INFO "Updated existing container with server data"
             else ret tt
         | None =>
             now <- utcnow ;;
             _ <- db_call (Store.create now
                             (Store.mkContainerCreate qr_code
                                (match is_returnable with Some b => b | None => true end)
                                updated_at)) ;;
             log INFO "Created new container from server data"
         end)
    (fun _ => log ERROR "Error updating local container").

(** [_handle_server_response] *)
Definition handle_server_response (qr_code : string) (response : ValidateData) : M bool :=
  try_except
    (let container_data := containerData response in
     let is_returnable :=
       match container_data with
       | Some cd => match cd_isReturnable cd with Some b => b | None => false end
       | None => false
       end in
     u <- gets uart ;;
     container <- db_query (Store.get_by_qr_code qr_code) ;;
     (match container_data with
      | Some cd =>
          match container with
          | Some c => update_local_container qr_code (Store.id c) cd
          | None => raise AttributeError
          end
      | None => ret tt
      end) ;;
     if negb is_returnable then
       log INFO "Container rejected by server: Container return not valid" ;;
       (if audit_logger u then
          match container with
          | Some c =>
              Audit.log_return_invalid (Store.id c)
                ("Server rejection - QR: " ++ qr_code
                 ++ ", Reason: Container return not valid") false
          | None => raise AttributeError
          end
        else ret tt) ;;
       ret false
     else
       log INFO "Container accepted by server" ;;
       (if audit_logger u then
          match container with
          | Some c =>
              Audit.log_return_valid (Store.id c) ("Server acceptance - QR: " ++ qr_code) false
          | None => raise AttributeError
          end
        else ret tt) ;;
       ret true)
    (fun _ => log ERROR "Error handling server response" ;; ret false).

(** [_handle_offline_fallback] *)
Definition handle_offline_fallback (qr_code : string) : M bool :=
  try_except
    (log INFO "Using offline fallback validation" ;;
     u <- gets uart ;;
     if negb (db_manager u) then
       log ERROR "No database manager available for offline validation" ;; ret false
     else
       container <- db_query (Store.get_by_qr_code qr_code) ;;
       match container with
       | None =>
           log WARNING "Container not found in local database" ;; ret false
       | Some c =>
           if negb (Store.is_returnable c) then
             log WARNING "Container not returnable in local database" ;;
             (if audit_logger u then
                Audit.log_return_invalid (Store.id c)
                  ("Offline validation failed - not returnable - QR: " ++ qr_code) true
              else ret tt) ;;
             ret false
           else
             let accept : M bool :=
               log INFO "Container accepted via offline validation" ;;
               (if audit_logger u then
                  Audit.log_return_valid (Store.id c)
                    ("Offline validation success - QR: " ++ qr_code) true
                else ret tt) ;;
               ret true in
             match Store.due_date c with
             | None => accept
             | Some due =>
                 current_time <- now_utc ;;
                 match datetime_lt due current_time with
                 | None => raise TypeError
                 | Some true =>
                     log WARNING "Container expired" ;;
                     (if audit_logger u then
                        Audit.log_return_invalid (Store.id c)
                          ("Offline validation failed - expired - QR: " ++ qr_code
                           ++ ", Due: " ++ isoformat due) true
                      else ret tt) ;;
                     ret false
                 | Some false => accept
                 end
             end
       end)
    (fun _ => log ERROR "Error in offline fallback validation" ;; ret false).

Definition option_text (s : option string) : string :=
  match s with Some v => v | None => "None" end.

(** [_validate_container_qr] *)
Definition validate_container_qr (qr_code : string) : M bool :=
  try_except
    (u <- gets uart ;;
     match qr_processor u with
     | None => log ERROR "QR processor not available" ;; ret false
     | Some private_key =>
         let qr_result := QR.process_qr_code private_key qr_code in
         if QR.is_fraud_attempt qr_result
            || String.eqb (QR.validation_value (QR.validation qr_result)) "fraud_attempt"
         then
           log WARNING "Fraud attempt detected" ;;
           (if audit_logger u then
              Audit.log_security_event "fraud_attempt"
                ("QR fraud attempt detected: " ++ option_text (QR.error_message qr_result))
                (Some ("{'qr_code': '" ++ qr_code ++ "', 'validation_result': '"
                       ++ QR.validation_value (QR.validation qr_result) ++ "', 'error': '"
                       ++ option_text (QR.error_message qr_result) ++ "'}"))
            else ret tt) ;;
           ret false
         else if negb (String.eqb (QR.validation_value (QR.validation qr_result)) "valid")
                 || negb (Audit.nonempty (QR.container_id qr_result))
         then
           log WARNING "QR validation failed" ;; ret false
         else
           match QR.container_id qr_result with
           | None => ret false
           | Some container_code =>
               server_response <- validate_with_server container_code ;;
               match server_response with
               | Some r => handle_server_response container_code r
               | None => handle_offline_fallback container_code
               end
           end
     end)
    (fun _ => log ERROR "QR validation error" ;; ret false).

End Decision.

(** ** Sequence engine ([uart/uart.py], class [UART]) *)

Module Engine.
Import Codec Py World Link Decision.
Local Open Scope monad_scope.
Local Open Scope string_scope.

(** The functions that are reached again from inside themselves (a
    sequence waits for an ACK, the wait dispatches a frame, the handler
    starts a sequence) and the bodies of the [while] loops.  A value of
    this record is the engine with a given recursion budget. *)
Record Rec : Type := mkRec {
  r_wait_for_ack_loop : Z -> Z -> M unit;
  r_qr_wait_loop : Z -> M unit;
  r_removals_loop : Z -> Z -> bool -> bool -> M (bool * bool);
  r_execute_sequence_1 : M bool;
  r_execute_sequence_2 : M bool;
  r_execute_sequence_3 : M bool
}.

Section Bodies.
Variable r : Rec.

(** [_handle_button_press] *)
Definition handle_button_press (message : UARTMessage) : M unit :=
  log INFO "Button press received" ;;
  inactive <- is_device_inactive ;;
  if inactive then
    log WARNING "Button press ignored - device is inactive"
  else
    log INFO "Triggering SEQ1" ;;
    _ <- r_execute_sequence_1 r ;;
    ret tt.

(** [_handle_sensor_change] *)
Definition handle_sensor_change (message : UARTMessage) : M unit :=
  match payload message with
  | b0 :: b1 :: _ =>
      let sensor_type := int_of_byte b0 in
      let new_status := int_of_byte b1 in
      log INFO "Sensor change" ;;
      inactive <- is_device_inactive ;;
      if inactive then
        log WARNING "Sensor change ignored - device is inactive"
      else
        upd_uart (fun u =>
          let st := sensor_states u in
          if (sensor_type =? SensorType_COVER)%Z then
            set_sensor_states
              (mkSensors (new_status =? SensorStatus_DETECTION)%Z (container st)) u
          else if (sensor_type =? SensorType_CONTAINER)%Z then
            set_sensor_states
              (mkSensors (cover st) (new_status =? SensorStatus_DETECTION)%Z) u
          else u) ;;
        if (sensor_type =? SensorType_COVER)%Z
           && (new_status =? SensorStatus_DETECTION)%Z then
          log INFO "Cover detected - triggering SEQ2" ;;
          _ <- r_execute_sequence_2 r ;; ret tt
        else if (sensor_type =? SensorType_CONTAINER)%Z
                && (new_status =? SensorStatus_DETECTION)%Z then
          log INFO "Container detected - triggering SEQ3" ;;
          _ <- r_execute_sequence_3 r ;; ret tt
        else ret tt
  | _ => log WARNING "Invalid sensor state change payload"
  end.

(** One frame received inside [wait_for_ack]. *)
Definition wait_for_ack_dispatch (message : UARTMessage) : M unit :=
  if (msg_type message =? ACK)%Z then
    handle_ack message
  else if (msg_type message =? SENSOR_STATE_CHANGE)%Z then
    handle_sensor_change message ;;
    _ <- send_ack message ;; ret tt
  else if (msg_type message =? BUTTON_PUSHED)%Z then
    handle_button_press message ;;
    _ <- send_ack message ;; ret tt
  else if (msg_type message =? ERROR_MSG)%Z then
    handle_error_message message ;;
    _ <- send_ack message ;; ret tt
  else
    _ <- send_ack message ;; ret tt.

(** The [while] loop of [wait_for_ack]. *)
Definition wait_for_ack_loop (start_time timeout : Z) : M unit :=
  u <- gets uart ;;
  now <- time_time ;;
  if waiting_for_ack u && (now - start_time <? timeout)%Z then
    messages <- receive_messages ;;
    for_each messages wait_for_ack_dispatch ;;
    sleep 100000 ;;
    r_wait_for_ack_loop r start_time timeout
  else ret tt.

(** [wait_for_ack(timeout)], the timeout in microseconds. *)
Definition wait_for_ack (timeout : Z) : M bool :=
  upd_uart (set_ack_state None true) ;;
  start_time <- time_time ;;
  wait_for_ack_loop start_time timeout ;;
  u <- gets uart ;;
  ret (negb (waiting_for_ack u)).

Definition five_seconds : Z := seconds 5.

Definition clear_seq1_lights : M unit :=
  u <- gets uart ;;
  if seq1_lights_active u then upd_uart (set_seq1_lights false None) else ret tt.

(** [_execute_sequence_1] *)
Definition execute_sequence_1 : M bool :=
  try_except
    (log INFO "Starting SEQ1: Button Press Activation" ;;
     sent <- unblock_doors ;;
     if negb sent then log ERROR "Failed to send unblock doors command" ;; ret false else
     acked <- wait_for_ack five_seconds ;;
     if negb acked then
       log ERROR "Timeout waiting for ACK for unblock doors command" ;; ret false else
     sleep (seconds 1) ;;
     sent <- block_doors ;;
     if negb sent then log ERROR "Failed to send block doors command" ;; ret false else
     acked <- wait_for_ack five_seconds ;;
     if negb acked then
       log ERROR "Timeout waiting for ACK for block doors command" ;; ret false else
     sent <- set_cover_light_white ;;
     if negb sent then log ERROR "Failed to send COVER white light command" ;; ret false else
     acked <- wait_for_ack five_seconds ;;
     if negb acked then
       log ERROR "Timeout waiting for ACK for COVER light command" ;; ret false else
     sent <- set_container_light_white ;;
     if negb sent then
       log ERROR "Failed to send CONTAINER white light command" ;; ret false else
     acked <- wait_for_ack five_seconds ;;
     if negb acked then
       log ERROR "Timeout waiting for ACK for CONTAINER light command" ;; ret false else
     now <- time_time ;;
     upd_uart (set_seq1_lights true (Some now)) ;;
     log INFO "SEQ1 completed successfully - system now waiting for cover/container detection" ;;
     ret true)
    (fun _ => log ERROR "SEQ1 failed" ;; _ <- set_error_state ;; ret false).

(** [_execute_sequence_2] *)
Definition execute_sequence_2 : M bool :=
  try_except
    (log INFO "Starting SEQ2: Cover Detection and Storage" ;;
     clear_seq1_lights ;;
     sent <- set_cover_light_green ;;
     if negb sent then log ERROR "Failed to send COVER green light command" ;; ret false else
     acked <- wait_for_ack five_seconds ;;
     if negb acked then
       log ERROR "Timeout waiting for ACK for COVER green light command" ;; ret false else
     now <- time_time ;;
     upd_uart (set_seq2 true (Some now)) ;;
     log INFO "SEQ2 completed successfully" ;;
     ret true)
    (fun _ => log ERROR "SEQ2 failed" ;; _ <- set_error_state ;; ret false).

(** [_handle_seq3_valid_qr] *)
Definition handle_seq3_valid_qr : M bool :=
  try_except
    (sent <- set_container_light_green ;;
     if negb sent then log ERROR "Failed to set container light to green" ;; ret false else
     acked <- wait_for_ack five_seconds ;;
     if negb acked then log ERROR "Timeout waiting for ACK for green light" ;; ret false else
     now <- time_time ;;
     upd_uart (set_seq3 true (Some now)) ;;
     log INFO "SEQ3 completed successfully" ;;
     ret true)
    (fun _ => log ERROR "SEQ3 valid QR handling failed" ;; ret false).

(** [_handle_seq3_invalid_qr] *)
Definition handle_seq3_invalid_qr (reason : string) : M bool :=
  try_except
    (log WARNING ("QR validation failed: " ++ reason) ;;
     sent <- set_container_light_red ;;
     if negb sent then log ERROR "Failed to set container light to red" ;; ret false else
     acked <- wait_for_ack five_seconds ;;
     if negb acked then log ERROR "Timeout waiting for ACK for red light" ;; ret false else
     now <- time_time ;;
     upd_uart (set_seq3 true (Some now)) ;;
     log INFO "SEQ3 completed successfully" ;;
     ret true)
    (fun _ => log ERROR "SEQ3 invalid QR handling failed" ;; ret false).

(** The [while] loop of the QR wait in [_execute_sequence_3]. *)
Definition qr_wait_loop (qr_timeout : Z) : M unit :=
  u <- gets uart ;;
  now <- time_time ;;
  match qr_timeout_start u with
  | None => raise TypeError
  | Some start =>
      if waiting_for_qr u && (now - start <? qr_timeout)%Z then
        sleep 100000 ;;
        r_qr_wait_loop r qr_timeout
      else ret tt
  end.

(** [_execute_sequence_3] *)
Definition execute_sequence_3 : M bool :=
  try_except
    (log INFO "Starting SEQ3: Container Detection and QR Validation" ;;
     clear_seq1_lights ;;
     now <- time_time ;;
     upd_uart (set_qr_state true (Some now) None) ;;
     qr_wait_loop (seconds 30) ;;
     u <- gets uart ;;
     if negb (Audit.nonempty (container_qr_code u)) then
       log ERROR "QR scan timeout - no QR code received" ;;
       handle_seq3_invalid_qr "QR scan timeout"
     else
       validation_result <-
         validate_container_qr
           (match container_qr_code u with Some q => q | None => "" end) ;;
       if validation_result then handle_seq3_valid_qr
       else handle_seq3_invalid_qr "QR validation failed")
    (fun _ => log ERROR "SEQ3 failed" ;; _ <- set_error_state ;; ret false).

(** One frame received inside [_wait_for_both_removals]; the result is
    the pair of removal flags. *)
Definition removals_dispatch (flags : bool * bool) (message : UARTMessage)
    : M (bool * bool) :=
  match payload message with
  | b0 :: b1 :: _ =>
      if (msg_type message =? SENSOR_STATE_CHANGE)%Z then
        let sensor_type := int_of_byte b0 in
        let new_status := int_of_byte b1 in
        flags' <-
          (if (sensor_type =? SensorType_COVER)%Z
              && (new_status =? SensorStatus_NO_DETECTION)%Z then
             log INFO "Cover removal detected - Pi acknowledges" ;;
             upd_uart (fun u =>
               set_sensor_states (mkSensors false (container (sensor_states u))) u) ;;
             ret (true, snd flags)
           else if (sensor_type =? SensorType_CONTAINER)%Z
                   && (new_status =? SensorStatus_NO_DETECTION)%Z then
             log INFO "Container removal detected - Pi acknowledges" ;;
             upd_uart (fun u =>
               set_sensor_states (mkSensors (cover (sensor_states u)) false) u) ;;
             ret (fst flags, true)
           else ret flags) ;;
        _ <- send_ack message ;;
        ret flags'
      else if negb (msg_type message =? ACK)%Z then
        _ <- send_ack message ;; ret flags
      else ret flags
  | _ =>
      if negb (msg_type message =? ACK)%Z then
        _ <- send_ack message ;; ret flags
      else ret flags
  end.

Fixpoint removals_for (messages : list UARTMessage) (flags : bool * bool)
    : M (bool * bool) :=
  match messages with
  | [] => ret flags
  | message :: tl =>
      flags' <- removals_dispatch flags message ;;
      removals_for tl flags'
  end.

(** The [while] loop of [_wait_for_both_removals]. *)
Definition removals_loop (start_time timeout : Z) (cover_removed container_removed : bool)
    : M (bool * bool) :=
  now <- time_time ;;
  if (negb cover_removed || negb container_removed) && (now - start_time <? timeout)%Z then
    messages <- receive_messages ;;
    flags <- removals_for messages (cover_removed, container_removed) ;;
    sleep 100000 ;;
    r_removals_loop r start_time timeout (fst flags) (snd flags)
  else ret (cover_removed, container_removed).

(** [_wait_for_both_removals] *)
Definition wait_for_both_removals : M bool :=
  try_except
    (start_time <- time_time ;;
     flags <- removals_loop start_time (seconds 120) false false ;;
     if negb (fst flags) || negb (snd flags) then
       log ERROR "Timeout waiting for complete removal - some items may be stuck" ;;
       ret false
     else
       log INFO "Both items removed successfully" ;; ret true)
    (fun _ => log ERROR "Error waiting for removals" ;; ret false).

(** [_execute_sequence_4] *)
Definition execute_sequence_4 : M bool :=
  upd_uart (set_seq4_in_progress true) ;;
  try_finally
    (try_except
       (log INFO "Starting SEQ4: Combined Cover and Container Storage" ;;
        sent <- store_container ;;
        if negb sent then log ERROR "Failed to send container store command" ;; ret false else
        acked <- wait_for_ack five_seconds ;;
        if negb acked then
          log ERROR "Timeout waiting for ACK for container store command" ;; ret false else
        sent <- store_cover ;;
        if negb sent then log ERROR "Failed to send cover store command" ;; ret false else
        acked <- wait_for_ack five_seconds ;;
        if negb acked then
          log ERROR "Timeout waiting for ACK for cover store command" ;; ret false else
        removed <- wait_for_both_removals ;;
        if negb removed then log ERROR "Failed waiting for item removals" ;; ret false else
        sent <- turn_all_lights_off ;;
        if negb sent then log ERROR "Failed to turn off all lights" ;; ret false else
        acked <- wait_for_ack five_seconds ;;
        if negb acked then log ERROR "Timeout waiting for ACK for lights off" ;; ret false else
        upd_uart (set_seq2 false None) ;;
        upd_uart (set_seq3 false None) ;;
        log INFO "SEQ4 completed successfully" ;;
        ret true)
       (fun _ => log ERROR "SEQ4 failed" ;; _ <- set_error_state ;; ret false))
    (upd_uart (set_seq4_in_progress false)).

(** [_execute_sequence_5] *)
Definition execute_sequence_5 : M bool :=
  try_except
    (log INFO "Starting SEQ5: Error Recovery" ;;
     sent <- open_container ;;
     if negb sent then log ERROR "Failed to open container actuator" ;; ret false else
     acked <- wait_for_ack five_seconds ;;
     if negb acked then log ERROR "Timeout waiting for ACK for container open" ;; ret false else
     sent <- open_cover ;;
     if negb sent then log ERROR "Failed to open cover actuator" ;; ret false else
     acked <- wait_for_ack five_seconds ;;
     if negb acked then log ERROR "Timeout waiting for ACK for cover open" ;; ret false else
     sleep (seconds 2) ;;
     u <- gets uart ;;
     warning1 <-
       (if cover (sensor_states u) then
          log ERROR "Cover still detected after retry - activating red warning light" ;;
          sent <- set_cover_light_red ;;
          if negb sent then log ERROR "Failed to set cover red warning light" ;; ret false
          else
            log ERROR "MAINTENANCE REQUIRED: Cover actuator appears to be jammed" ;;
            ret true
        else ret false) ;;
     u <- gets uart ;;
     warning2 <-
       (if container (sensor_states u) then
          log ERROR "Container still detected after retry - activating red warning light" ;;
          sent <- set_container_light_red ;;
          if negb sent then
            log ERROR "Failed to set container red warning light" ;; ret warning1
          else
            log ERROR "MAINTENANCE REQUIRED: Container actuator appears to be jammed" ;;
            ret true
        else ret warning1) ;;
     (if warning2 then
        acked <- wait_for_ack five_seconds ;;
        if negb acked then
          log ERROR "Timeout waiting for ACK for warning lights" ;; ret false
        else log INFO "SEQ5 completed successfully" ;; ret true
      else log INFO "SEQ5 completed successfully" ;; ret true))
    (fun _ => log ERROR "SEQ5 failed" ;; _ <- set_error_state ;; ret false).

(** [check_sequence_4_trigger] *)
Definition check_sequence_4_trigger : M bool :=
  u <- gets uart ;;
  if seq4_in_progress u then ret false
  else
    current_time <- time_time ;;
    let ready (done : bool) (t : option Z) : bool :=
      done && truthy_time t
      && match t with
         | Some v => (current_time - v >? seconds 180)%Z
         | None => false
         end in
    let seq2_ready := ready (seq2_completed u) (seq2_completion_time u) in
    let seq3_ready := ready (seq3_completed u) (seq3_completion_time u) in
    if seq2_ready || seq3_ready then
      log INFO "SEQ4 trigger conditions met" ;; ret true
    else ret false.

(** [_check_automatic_sequences] *)
Definition check_automatic_sequences : M unit :=
  try_except
    (current_time <- time_time ;;
     u <- gets uart ;;
     (if seq1_lights_active u && truthy_time (seq1_activation_time u)
         && match seq1_activation_time u with
            | Some v => (current_time - v >? seconds 60)%Z
            | None => false
            end
      then
        log INFO "SEQ1 timeout - turning off all lights" ;;
        _ <- turn_all_lights_off ;;
        upd_uart (set_seq1_lights false None)
      else ret tt) ;;
     trigger <- check_sequence_4_trigger ;;
     if trigger then
       log INFO "Triggering SEQ4: Combined Storage" ;;
       success <- execute_sequence_4 ;;
       if success then
         sleep (seconds 1) ;;
         u <- gets uart ;;
         if cover (sensor_states u) || container (sensor_states u) then
           log INFO "Triggering SEQ5: Error Recovery" ;;
           _ <- execute_sequence_5 ;; ret tt
         else ret tt
       else ret tt
     else ret tt)
    (fun _ => log ERROR "Error in automatic sequence checking").

(** [_process_message]: the top-level dispatcher. *)
Definition process_message (message : UARTMessage) : M unit :=
  try_except
    ((if negb (msg_type message =? ACK)%Z then
        success <- send_ack message ;;
        if negb success then log ERROR "Failed to send ACK" else ret tt
      else ret tt) ;;
     if (msg_type message =? BUTTON_PUSHED)%Z then handle_button_press message
     else if (msg_type message =? SENSOR_STATE_CHANGE)%Z then handle_sensor_change message
     else if (msg_type message =? ERROR_MSG)%Z then handle_error_message message
     else if (msg_type message =? ACK)%Z then handle_ack message
     else log WARNING "No handler for message type")
    (fun _ => log ERROR "Error processing message").

(** [process_messages]: one tick of the engine. *)
Definition process_messages : M unit :=
  messages <- receive_messages ;;
  for_each messages process_message ;;
  check_automatic_sequences.

End Bodies.

(** The engine with a recursion budget: each level may call the level
    below. *)
Fixpoint engine (fuel : nat) : Rec :=
  match fuel with
  | O =>
      mkRec (fun _ _ => out_of_fuel) (fun _ => out_of_fuel)
            (fun _ _ _ _ => out_of_fuel) out_of_fuel out_of_fuel out_of_fuel
  | S fuel' =>
      let r := engine fuel' in
      mkRec (wait_for_ack_loop r) (qr_wait_loop r) (removals_loop r)
            (execute_sequence_1 r) (execute_sequence_2 r) (execute_sequence_3 r)
  end.

End Engine.

(** ** Mode changes of the application ([main.py]) *)

Module Main.
Import Py World Link.
Local Open Scope monad_scope.
Local Open Scope string_scope.

Definition set_device_inactive (v : bool) (a : App) : App :=
  mkApp v (device_secure_mode a) (qr_scanner a) (scan_enabled a).
Definition set_device_secure_mode (v : bool) (a : App) : App :=
  mkApp (device_inactive a) v (qr_scanner a) (scan_enabled a).
Definition set_scan_enabled (v : bool) (a : App) : App :=
  mkApp (device_inactive a) (device_secure_mode a) (qr_scanner a) v.

Definition red_lights_and_block (failure : string) : M unit :=
  try_except
    (_ <- set_cover_light_red ;;
     _ <- set_container_light_red ;;
     _ <- block_doors ;;
     ret tt)
    (fun _ => log ERROR failure).

Definition lights_off_and_unblock (failure : string) : M unit :=
  try_except
    (_ <- turn_all_lights_off ;;
     _ <- unblock_doors ;;
     ret tt)
    (fun _ => log ERROR failure).

Definition switch_scanning (v : bool) : M unit :=
  a <- gets app ;;
  if qr_scanner a then upd_app (set_scan_enabled v) else ret tt.

(** [_enter_secure_mode] *)
Definition enter_secure_mode : M unit :=
  log WARNING "Entering secure mode - server disconnected for 2+ days" ;;
  upd_app (set_device_secure_mode true) ;;
  red_lights_and_block "Failed to set red lights and block doors in secure mode" ;;
  switch_scanning false ;;
  Audit.log_info "Device entered secure mode - server disconnected for 2+ days".

(** [_exit_secure_mode] *)
Definition exit_secure_mode : M unit :=
  log INFO "Exiting secure mode - server connection restored" ;;
  upd_app (set_device_secure_mode false) ;;
  a <- gets app ;;
  (if negb (device_inactive a) then
     lights_off_and_unblock
       "Failed to turn off lights and unblock doors when exiting secure mode" ;;
     switch_scanning true
   else log INFO "Device still in inactive mode - keeping restrictions in place") ;;
  Audit.log_info "Device exited secure mode - server connection restored".

(** [_on_secure_mode_change] *)
Definition on_secure_mode_change (secure_mode : bool) : M unit :=
  log INFO ("Secure mode status change: secure_mode=" ++ Audit.bool_repr secure_mode) ;;
  if secure_mode then enter_secure_mode else exit_secure_mode.

(** [_enter_inactive_mode] *)
Definition enter_inactive_mode : M unit :=
  log WARNING "Entering inactive mode - device is not active" ;;
  upd_app (set_device_inactive true) ;;
  red_lights_and_block "Failed to set red lights and block doors" ;;
  switch_scanning false ;;
  Audit.log_info "Device entered inactive mode - all operations suspended".

(** [_exit_inactive_mode] *)
Definition exit_inactive_mode : M unit :=
  log INFO "Exiting inactive mode - device is now active" ;;
  upd_app (set_device_inactive false) ;;
  lights_off_and_unblock "Failed to turn off lights and unblock doors" ;;
  switch_scanning true ;;
  Audit.log_info "Device exited inactive mode - normal operations resumed".

(** [_on_device_status_change] *)
Definition on_device_status_change (active : bool) : M unit :=
  log INFO ("Device status change: active=" ++ Audit.bool_repr active) ;;
  if negb active then enter_inactive_mode else exit_inactive_mode.

End Main.

(** ** Sync service ([api/service.py]) *)

Module Service.
Import Py World.
Local Open Scope monad_scope.
Local Open Scope string_scope.

Definition SECURE_MODE_THRESHOLD : Z := days 2.

Definition set_last_active_status (v : option bool) (s : APIService) : APIService :=
  mkAPIService v (last_secure_mode_status s) (device_status_callback s)
    (secure_mode_callback s).
Definition set_last_secure_mode_status (v : option bool) (s : APIService) : APIService :=
  mkAPIService (last_active_status s) v (device_status_callback s)
    (secure_mode_callback s).

(** [_check_secure_mode]: the secure-mode watchdog. *)
Definition check_secure_mode : M unit :=
  try_except
    (device_status <- db_query Store.get_status ;;
     should_be_secure <-
       match device_status with
       | None => ret false
       | Some ds =>
           now <- now_utc ;;
           let last_seen := Store.last_seen_at ds in
           let last_seen :=
             if negb (tz_aware last_seen) then mkDatetime (instant last_seen) true
             else last_seen in
           let time_since_last_seen := (instant now - instant last_seen)%Z in
           let should_be_secure := (time_since_last_seen >? SECURE_MODE_THRESHOLD)%Z in
           (if should_be_secure
            then log WARNING "Server disconnected - entering secure mode"
            else ret tt) ;;
           ret should_be_secure
       end ;;
     let current_secure_status :=
       match device_status with
       | Some ds => Store.is_in_safe_mode ds
       | None => false
       end in
     (if negb (Bool.eqb current_secure_status should_be_secure) then
        _ <- db_call (Store.update_status
                        (Store.mkDeviceStatusUpdate None None None None None
                           (Some should_be_secure))) ;;
        log INFO ("Updated secure mode status in database: "
                  ++ Audit.bool_repr should_be_secure)
      else ret tt) ;;
     s <- gets svc ;;
     (match last_secure_mode_status s with
      | Some last =>
          if negb (Bool.eqb last should_be_secure) then
            if secure_mode_callback s then
              try_except (Main.on_secure_mode_change should_be_secure)
                (fun _ => log ERROR "Error in secure mode callback")
            else ret tt
          else ret tt
      | None => ret tt
      end) ;;
     upd_svc (set_last_secure_mode_status (Some should_be_secure)))
    (fun _ => log ERROR "Error checking secure mode").

(** [_do_healthcheck] *)
Definition do_healthcheck : M unit :=
  device_status <- db_query Store.get_status ;;
  device_status <-
    match device_status with
    | Some ds => ret (Some ds)
    | None =>
        now <- now_utc ;;
        db_call (Store.update_status
                   (Store.mkDeviceStatusUpdate None (Some now) (Some "1.0.0") (Some 0%Z)
                      None None))
    end ;;
  try_except
    (match device_status with
     | None => raise AttributeError
     | Some ds =>
         emit (PostHealthcheck (Store.version ds) (Store.update_failures ds)) ;;
         w <- get ;;
         match healthcheck_reply (env w) (Store.version ds) (Store.update_failures ds) with
         | RequestException => raise RequestFailed
         | Response success active =>
             if success then
               now <- now_utc ;;
               (match active with
                | Some active_bool =>
                    log INFO "Device active status updated from server" ;;
                    s <- gets svc ;;
                    (match last_active_status s with
                     | Some last =>
                         if negb (Bool.eqb last active_bool) then
                           if device_status_callback s then
                             try_except (Main.on_device_status_change active_bool)
                               (fun _ => log ERROR "Error in device status callback")
                           else ret tt
                         else ret tt
                     | None => ret tt
                     end) ;;
                    upd_svc (set_last_active_status (Some active_bool))
                | None => ret tt
                end) ;;
               _ <- db_call (Store.update_status
                               (Store.mkDeviceStatusUpdate None (Some now) None None
                                  active (Some false))) ;;
               ret tt
             else log WARNING "Healthcheck failed"
         end
     end)
    (fun _ =>
       log ERROR "Healthcheck request failed" ;;
       match device_status with
       | Some ds =>
           _ <- db_call (Store.update_status
                           (Store.mkDeviceStatusUpdate None None None
                              (Some (Store.update_failures ds + 1)%Z) None None)) ;;
           ret tt
       | None => ret tt
       end) ;;
  check_secure_mode.

Definition container_to_dict (c : Store.Container) : ContainerDict :=
  mkContainerDict (Store.id c) (Store.is_returnable c)
    (server_timestamp (Store.updated_at c)).

Definition log_to_dict (l : Store.AuditLog) : LogDict :=
  mkLogDict (Store.log_type l) (Store.description l) (Store.is_offline_action l)
    (Store.container_id l) (server_timestamp (Store.created_at l)).

Definition is_not_none {A} (o : option A) : bool :=
  match o with Some _ => true | None => false end.

(** [_update_containers]: all containers are replaced with the data of
    the server; a failure is logged and raised again. *)
Definition update_containers (containers_data : list ServerContainer) : M unit :=
  try_except
    (_ <- db_call Store.delete_all_containers ;;
     for_each containers_data (fun container_data =>
       if negb (String.eqb (sc_id container_data) "")
          && negb (String.eqb (sc_qrCode container_data) "") then
         now <- utcnow ;;
         _ <- db_call (Store.create_with_id now (sc_id container_data)
                         (Store.mkContainerCreate (sc_qrCode container_data)
                            (match sc_isReturnable container_data with
                             | Some b => b
                             | None => true
                             end)
                            (sc_dueTime container_data))) ;;
         ret tt
       else ret tt) ;;
     log INFO "Replaced containers with new records from server")
    (fun e => log ERROR "Failed to replace containers" ;; raise e).

(** [_do_sync]: the regular sync. *)
Definition do_sync : M unit :=
  device_status <- db_query Store.get_status ;;
  old_last_sync_at <-
    match device_status with
    | Some ds => ret (Store.last_sync_at ds)
    | None =>
        log INFO "No device status found - fetching all existing audit logs (first run)" ;;
        ret epoch_utc
    end ;;
  new_sync_time <- now_utc ;;
  containers <- db_query (Store.get_since old_last_sync_at) ;;
  logs <- db_query (Store.get_logs_since old_last_sync_at) ;;
  let containers_data := map container_to_dict containers in
  let filtered_logs := filter (fun l => is_not_none (Store.container_id l)) logs in
  let logs_data := map log_to_dict filtered_logs in
  try_except
    (emit (PostSync logs_data containers_data) ;;
     w <- get ;;
     match sync_reply (env w) logs_data containers_data with
     | RequestException => raise RequestFailed
     | Response success containers_response =>
         if success then
           for_each logs (fun l => _ <- db_call (Store.delete_log (Store.log_id l)) ;; ret tt) ;;
           update_containers containers_response ;;
           _ <- db_call (Store.update_status
                           (Store.mkDeviceStatusUpdate (Some new_sync_time) None None None
                              None None)) ;;
           log INFO "Sync complete"
         else log WARNING "Sync failed"
     end)
    (fun _ => log ERROR "Sync request failed").

(** [_do_initial_sync]: the sync done once at start-up. *)
Definition do_initial_sync : M unit :=
  log INFO "Performing initial sync - deleting local data and fetching from server" ;;
  try_except
    (_ <- db_call Store.delete_all_logs ;;
     _ <- db_call Store.delete_all_containers ;;
     log INFO "Deleted all local containers and audit logs" ;;
     emit (PostSync [] []) ;;
     w <- get ;;
     match sync_reply (env w) [] [] with
     | RequestException => raise RequestFailed
     | Response success containers_response =>
         if success then
           update_containers containers_response ;;
           last_sync_at <- now_utc ;;
           _ <- db_call (Store.update_status
                           (Store.mkDeviceStatusUpdate (Some last_sync_at) None None None
                              None None)) ;;
           log INFO "Initial sync complete"
         else log ERROR "Initial sync failed"
     end)
    (fun _ => log ERROR "Initial sync error").

End Service.

(** ** Worlds used in the scenarios *)

Module Scenario.
Import Codec Py World.
Local Open Scope string_scope.

(** The [UART] object after [__init__], [connect] and the wiring of
    [initialize_components]. *)
Definition uart0 : UART :=
  mkUART true 0 true true true (Some "default_key") (mkSensors false false)
    None false false None None false None false None false None false true.

Definition app0 : App := mkApp false false true true.

Definition svc0 : APIService := mkAPIService None None true true.

(** The database after [initialize_database] at time [t]. *)
Definition db0 (t : Z) : Store.DB :=
  Store.mkDB []
    (Some (Store.mkDeviceStatus (mkDatetime t false) (mkDatetime t false) "1.0.0" 0 true false))
    [] 0.

(** A backend that cannot be reached. *)
Definition offline (t : Z) (rx : list (list byte)) : Env :=
  mkEnv t rx (fun _ => RequestException) (fun _ _ => RequestException)
    (fun _ _ => RequestException).

Definition world0 (t : Z) (rx : list (list byte)) : World :=
  mkWorld uart0 app0 svc0 (db0 t) (offline t rx) [].

(** The frame the microcontroller sends for a message. *)
Definition frame_of (m : UARTMessage) : list byte :=
  match encode_message m with Some f => f | None => [] end.

Definition ack_frame : list byte := frame_of (mkMsg ACK 0 [x00; x00]).
Definition button_frame (i : Z) : list byte := frame_of (mkMsg BUTTON_PUSHED i []).
Definition error_frame (i : Z) : list byte := frame_of (mkMsg ERROR_MSG i []).
Definition sensor_frame (i : Z) (sensor status : byte) : list byte :=
  frame_of (mkMsg SENSOR_STATE_CHANGE i [sensor; status]).

(** A store holding one container, and the entries a validation reply
    turns into. *)
Definition container_c1 (due : option datetime) : Store.Container :=
  Store.mkContainer "c1" "ABCDEF" true due (mkDatetime 5 false).

Definition db_c1 (due : option datetime) : Store.DB :=
  Store.mkDB [container_c1 due] None [] 0.

Definition server_updates : dict :=
  [("is_returnable", VBool false); ("updatedAt", VDatetime (mkDatetime 7 true))].

(** The idle kiosk at time [t] with the container [c1] in its store and
    no backend. *)
Definition world_c1 (t : Z) (due : option datetime) : World :=
  mkWorld uart0 app0 svc0 (db_c1 due) (offline t []) [].

(** The kiosk at time [t] when the backend was last seen three days
    before, the watchdog has not run yet and both callbacks are
    registered. *)
Definition stale_status (t : Z) : Store.DeviceStatus :=
  Store.mkDeviceStatus (mkDatetime (t - days 3) false) (mkDatetime (t - days 3) false)
    "1.0.0" 0 true false.

Definition world_stale (t : Z) : World :=
  mkWorld uart0 app0 svc0 (Store.mkDB [] (Some (stale_status t)) [] 0) (offline t []) [].

(** A store with one container, one audit entry without a container
    reference and one with, all newer than the last sync; and a backend
    that accepts every sync and sends the container back. *)
Definition system_log : Store.AuditLog :=
  Store.mkAuditLog "log-1" Store.INFO "Container Return System started" false None
    (mkDatetime 1500 false).

Definition return_log : Store.AuditLog :=
  Store.mkAuditLog "log-2" Store.RETURN_VALID "Server acceptance - QR: ABCDEF" false
    (Some "c1") (mkDatetime 1600 false).

Definition db_sync : Store.DB :=
  Store.mkDB [Store.mkContainer "c1" "ABCDEF" true None (mkDatetime 1700 false)]
    (Some (Store.mkDeviceStatus (mkDatetime 1000 true) (mkDatetime 1000 true) "1.0.0" 0
             true false))
    [system_log; return_log] 0.

Definition backend_sync : Env :=
  mkEnv 2000 [] (fun _ => RequestException)
    (fun _ _ => Response true [mkServerContainer "c1" "ABCDEF" (Some true) None])
    (fun _ _ => RequestException).

Definition world_sync : World := mkWorld uart0 app0 svc0 db_sync backend_sync [].

(** The written frames of a trace, decoded. *)
Definition written (t : list event) : list UARTMessage :=
  flat_map (fun e => match e with
                     | Write f => match decode_frame f with Some m => [m] | None => [] end
                     | _ => []
                     end) t.

(** The frame of the specification's round-trip scenario. *)
Definition scenario_message : UARTMessage := mkMsg LIGHT_MANAGEMENT 42 [x01; x02; x00].
Definition scenario_frame : list byte := [x7b; x05; x2a; x03; x01; x02; x00; x7d].

(** The acknowledgement the microcontroller sends, decoded. *)
Definition ack_message : UARTMessage := mkMsg ACK 0 [x00; x00].

(** The kiosk of [world0] once the watchdog has put the application in
    secure mode. *)
Definition world_gated (t : Z) (rx : list (list byte)) : World :=
  mkWorld uart0 (mkApp false true true true) svc0 (db0 t) (offline t rx) [].

(** The kiosk of [world0] with the serial port closed. *)
Definition world_unplugged : World :=
  mkWorld (mkUART false 0 true true true (Some "default_key"%string) (mkSensors false false)
             None false false None None false None false None false None false true)
    app0 svc0 (db0 0) (offline 0 []) [].

(** The kiosk while both the inactive and the secure mode are set and
    scanning is switched off. *)
Definition world_restricted (t : Z) : World :=
  mkWorld uart0 (mkApp true true true false) svc0 (db0 t) (offline t []) [].

(** A backend that answers every request: validations with
    [isReturnable], syncs with no container, healthchecks with [active]. *)
Definition answering (t : Z) (returnable : bool) (active : option bool) : Env :=
  mkEnv t []
    (fun _ => Response true (Some (mkValidateData (Some (mkContainerData (Some returnable) None)))))
    (fun _ _ => Response true [])
    (fun _ _ => Response true active).

(** The idle kiosk in front of that backend, with an empty store and
    with the container [c1] in its store. *)
Definition world_online (t : Z) (active : option bool) : World :=
  mkWorld uart0 app0 svc0 (db0 t) (answering t true active) [].

Definition world_online_c1 (t : Z) (returnable : bool) : World :=
  mkWorld uart0 app0 svc0 (db_c1 None) (answering t returnable None) [].

End Scenario.

(** ** What the properties observe of a run *)

Module Observe.
Import Codec Py World Link.

(** The line [_on_secure_mode_change] logs first: one per call of the
    secure-mode callback. *)
Definition callback_line (e : event) : bool :=
  match e with
  | Log INFO msg => String.prefix "Secure mode status change: secure_mode=" msg
  | _ => false
  end.

Definition callback_calls (t : list event) : nat := length (filter callback_line t).

(** The mode the watchdog asks for at time [now]. *)
Definition secure_requested (now : Z) (ds : Store.DeviceStatus) : bool :=
  (now - instant (Store.last_seen_at ds) >? days 2)%Z.

(** The callback is called when one is registered and the request
    differs from the one of the evaluation before; never on the first
    evaluation. *)
Definition callback_fires (s : APIService) (requested : bool) : bool :=
  match last_secure_mode_status s with
  | Some last => negb (Bool.eqb last requested) && secure_mode_callback s
  | None => false
  end.

Definition with_safe_mode (b : bool) (ds : Store.DeviceStatus) : Store.DeviceStatus :=
  Store.mkDeviceStatus (Store.last_sync_at ds) (Store.last_seen_at ds) (Store.version ds)
    (Store.update_failures ds) (Store.active ds) b.

(** The alphabets the QR property quantifies over: codes over
    A-HJ-NP-Z2-9, hashes over A-Z0-9. *)
Definition code_alphabet (c : ascii) : bool :=
  QR.in_range "A" "H" c || QR.in_range "J" "N" c || QR.in_range "P" "Z" c
  || QR.in_range "2" "9" c.

Definition hash_alphabet (c : ascii) : bool := QR.is_upper c || QR.is_digit c.

Definition chars (s : string) : list ascii := list_ascii_of_string s.

(** The URL printed on a container for [code] with check string [hash]. *)
Definition qr_url (code hash : string) : string :=
  ("https://paka.eco/QR/" ++ code ++ "/" ++ hash)%string.

Definition url_prefix : list ascii := chars "https://paka.eco/QR/".

(** The UTF-8 encoding of a text of characters below U+0100: one byte
    below U+0080, otherwise [110000xx 10xxxxxx]. *)
Definition utf8_bytes (s : string) : list byte :=
  flat_map (fun c =>
              let n := N_of_ascii c in
              let b (v : N) := match Byte.of_N v with Some x => x | None => x00 end in
              if (n <? 128)%N then [b n] else [b (192 + n / 64)%N; b (128 + n mod 64)%N])
           (chars s).

(** The check string of an authentic URL, in the words of the
    specification: the first six characters of the upper-cased Base32
    encoding of HMAC-SHA256(private key, code). *)
Definition authentic_hash (private_key code : string) : string :=
  String.substring 0 6
    (QR.upper
       (string_of_list_ascii
          (Hash.b32encode (Hash.hmac_sha256 (utf8_bytes private_key) (utf8_bytes code))))).

(** The state after the audit logger stored one more entry. *)
Definition audited (t : Store.LogType) (desc : string) (cid : option string)
    (off : bool) (w : World) : World :=
  set_db (Store.set_audit_logs
            (Store.audit_logs (db w)
             ++ [Store.mkAuditLog (Store.uuid_of (Store.uuid_counter (db w))) t desc off
                   cid (mkDatetime (clock (env w)) false)])%list
            (Store.bump_uuid (db w))) w.

(** What the offline fallback accepts at time [now]: a due date without
    time zone cannot be compared with the current time. *)
Definition offline_accepts (now : Z) (c : Store.Container) : bool :=
  Store.is_returnable c
  && match Store.due_date c with
     | None => true
     | Some due => tz_aware due && (now <=? instant due)%Z
     end.

(** The outcomes the offline fallback audits: every one but that of a
    returnable container whose due date carries no time zone. *)
Definition offline_audited (c : Store.Container) : bool :=
  negb (Store.is_returnable c)
  || match Store.due_date c with
     | None => true
     | Some due => tz_aware due
     end.

(** What a mode switch leaves alone once the mode flag is set: the state
    of the sync service, the device status row, the flag, and the number
    of callback lines in the trace. *)
Definition quiet (w w' : World) : Prop :=
  svc w' = svc w /\
  Store.device_status (db w') = Store.device_status (db w) /\
  device_secure_mode (app w') = device_secure_mode (app w) /\
  callback_calls (trace w') = callback_calls (trace w).

(** The mode gate as the engine sees it: the callback of [main.py] is
    registered and one of the two mode flags is set. *)
Definition gate_set (w : World) : bool :=
  device_inactive_callback (uart w)
  && (device_inactive (app w) || device_secure_mode (app w)).

(** The ACK frame for a received frame of type [t] and id [i]. *)
Definition ack_for (t i : byte) : list byte := [x7b; x00; x00; x02; t; i; x7d].

(** State changes the properties name: events appended to the trace,
    the clock moved on, the ACK bookkeeping, the input queue and the
    sensor tracking replaced. *)
Definition appended (es : list event) (w : World) : World :=
  set_trace (trace w ++ es) w.

Definition advance (d : Z) (w : World) : World :=
  set_env (set_clock (clock (env w) + d) (env w)) w.

Definition with_ack_state (ack : option Z) (waiting : bool) (w : World) : World :=
  set_uart (set_ack_state ack waiting (uart w)) w.

Definition with_rx (r : list (list byte)) (w : World) : World :=
  set_env (set_rx r (env w)) w.

Definition with_sensors (st : SensorStates) (w : World) : World :=
  set_uart (set_sensor_states st (uart w)) w.

(** The frame of a command of type [ty] sent under the id [id]. *)
Definition id_byte (id : Z) : byte :=
  match byte_of_int id with Some b => b | None => x00 end.

Definition command_frame (ty : byte) (id : Z) (payload : list byte) : list byte :=
  [x7b; ty; id_byte id; id_byte (Z.of_nat (length payload))] ++ payload ++ [x7d].

Definition next_id (w : World) : Z := (message_id_counter (uart w) + 1) mod 100.

(** The state after a command went out. *)
Definition sent (ty : byte) (payload : list byte) (w : World) : World :=
  appended [Write (command_frame ty (next_id w) payload)]
    (set_uart (set_message_id_counter (next_id w) (uart w)) w).

(** The four commands of SEQ1 (unblock doors, block doors, cover light
    white, container light white) and the line logged when the ACK of
    each one does not arrive. *)
Definition seq1_commands : list (byte * list byte) :=
  [(x08, [x01]); (x08, [x00]); (x05, [x01; x00; x00]); (x05, [x00; x00; x00])].

Definition seq1_timeouts : list string :=
  ["Timeout waiting for ACK for unblock doors command";
   "Timeout waiting for ACK for block doors command";
   "Timeout waiting for ACK for COVER light command";
   "Timeout waiting for ACK for CONTAINER light command"]%string.

(** The frames of commands sent one after the other when the id counter
    stands at [c]. *)
Fixpoint command_frames (c : Z) (cmds : list (byte * list byte)) : list event :=
  match cmds with
  | [] => []
  | (ty, p) :: tl =>
      let id := (c + 1) mod 100 in
      Write (command_frame ty id p) :: command_frames id tl
  end.

(** A written frame that switches a light to red. *)
Definition red_light_command (e : event) : bool :=
  match e with
  | Write f =>
      match decode_frame f with
      | Some m =>
          (msg_type m =? LIGHT_MANAGEMENT)
          && match payload m with
             | [_; c; _] => int_of_byte c =? LightColor_RED_ON
             | _ => false
             end
      | None => false
      end
  | _ => false
  end.

(** The lines [_check_automatic_sequences], SEQ4 and SEQ5 log when they
    act: the marks of an automatic sequence in a trace. *)
Definition automatic_lines : list string :=
  ["SEQ1 timeout - turning off all lights";
   "SEQ4 trigger conditions met";
   "Triggering SEQ4: Combined Storage";
   "Starting SEQ4: Combined Cover and Container Storage";
   "Triggering SEQ5: Error Recovery";
   "Starting SEQ5: Error Recovery"]%string.

Definition automatic_line (e : event) : bool :=
  match e with
  | Log _ msg => existsb (String.eqb msg) automatic_lines
  | _ => false
  end.

(** [w'] is reached from [w] without any automatic sequence acting. *)
Definition calm (w w' : World) : Prop :=
  exists es, trace w' = trace w ++ es /\ existsb automatic_line es = false.

(** The entry points of an engine that keep the automatic sequences
    out. *)
Definition calm_rec (r : Engine.Rec) : Prop :=
  (forall s t, respects calm (Engine.r_wait_for_ack_loop r s t)) /\
  (forall t, respects calm (Engine.r_qr_wait_loop r t)) /\
  respects calm (Engine.r_execute_sequence_1 r) /\
  respects calm (Engine.r_execute_sequence_2 r) /\
  respects calm (Engine.r_execute_sequence_3 r).

(** What the microcontroller puts on the line: before each frame some
    bytes that are no frame start, and some more after the last frame. *)
Definition wire (segments : list (list byte * UARTMessage)) (tail : list byte) : list byte :=
  flat_map (fun s => fst s ++ Scenario.frame_of (snd s)) segments ++ tail.

Definition no_start (junk : list byte) : bool :=
  forallb (fun b => negb (Byte.eqb b START_BYTE)) junk.

(** The sensor frames that report the cover and the container gone. *)
Definition cover_removed_message (i : Z) : UARTMessage :=
  mkMsg SENSOR_STATE_CHANGE i [x00; x00].
Definition container_removed_message (i : Z) : UARTMessage :=
  mkMsg SENSOR_STATE_CHANGE i [x01; x00].

(** The state after [if self._seq1_lights_active: ...] of SEQ2 and SEQ3
    dropped the record of the SEQ1 lights. *)
Definition seq1_cleared (w : World) : World :=
  set_uart (set_seq1_lights false
              (if seq1_lights_active (uart w) then None else seq1_activation_time (uart w))
              (uart w)) w.

(** A scan: what the scanner put before the URL, the scheme, the code
    and the check string. *)
Definition scanned (prefix scheme code hash : string) : string :=
  (prefix ++ scheme ++ "://paka.eco/QR/" ++ code ++ "/" ++ hash)%string.

(** The characters of the Base32 alphabet, A-Z and 2-7. *)
Definition base32_letter (c : ascii) : bool := QR.is_upper c || QR.in_range "2" "7" c.

Definition invalid_hash : string :=
  "Invalid hash. The QR code may be corrupted or fraudulent".

(** Rows in the order [ORDER BY ... DESC] gives them. *)
Definition descending {A} (key : A -> Z) (l : list A) : Prop :=
  StronglySorted (fun a b => key a >= key b) l.

(** Whether a container with the identifier is in the store, and the
    description of an audit entry stored without its container
    reference. *)
Definition known_container (cid : string) (w : World) : bool :=
  existsb (fun c => String.eqb (Store.id c) cid) (Store.containers (db w)).

Definition not_found_note (desc cid : string) : string :=
  (desc ++ " (Container ID: " ++ cid ++ " - not found in DB)")%string.

(** The commands that lift the restrictions of a mode: container light
    off, cover light off, doors unblocked. *)
Definition release_commands : list (byte * list byte) :=
  [(x05, [x00; x03; x00]); (x05, [x01; x03; x00]); (x08, [x01])].

(** The requests to the backend in a trace. *)
Definition request (e : event) : bool :=
  match e with
  | PostValidate _ | PostSync _ _ | PostHealthcheck _ _ => true
  | _ => false
  end.

Definition requests (t : list event) : list event := filter request t.

(** What a mode callback leaves alone: the state of the sync service,
    the device status row, the environment, and the requests sent. *)
Definition settled (w w' : World) : Prop :=
  svc w' = svc w /\
  Store.device_status (db w') = Store.device_status (db w) /\
  env w' = env w /\
  requests (trace w') = requests (trace w).

(** What the regular sync sends: the audit entries with a container
    reference and the containers changed since the last sync. *)
Definition sync_since (d : Store.DB) : datetime :=
  match Store.get_status d with
  | Some ds => Store.last_sync_at ds
  | None => epoch_utc
  end.

Definition pending_logs (d : Store.DB) : list LogDict :=
  map Service.log_to_dict
    (filter (fun l => Service.is_not_none (Store.container_id l))
       (Store.get_logs_since (sync_since d) d)).

Definition pending_containers (d : Store.DB) : list ContainerDict :=
  map Service.container_to_dict (Store.get_since (sync_since d) d).

(** A request that raised or was answered with [success] false. *)
Definition unsuccessful {A} (r : reply A) : bool :=
  match r with
  | RequestException => true
  | Response success _ => negb success
  end.

(** What replacing the containers leaves alone: the audit entries and
    the requests sent. *)
Definition logs_kept (w w' : World) : Prop :=
  Store.audit_logs (db w') = Store.audit_logs (db w)
  /\ requests (trace w') = requests (trace w).

(** What a tick of the engine leaves alone: the store, and the requests
    sent to the backend. *)
Definition idle (w w' : World) : Prop :=
  db w' = db w /\ requests (trace w') = requests (trace w).

(** What the QR wait leaves alone: everything but the clock. *)
Definition paused (w w' : World) : Prop :=
  uart w' = uart w /\ db w' = db w /\ trace w' = trace w.

Definition idle_rec (r : Engine.Rec) : Prop :=
  (forall s t, respects idle (Engine.r_wait_for_ack_loop r s t)) /\
  (forall t, respects paused (Engine.r_qr_wait_loop r t)) /\
  (forall s t a b, respects idle (Engine.r_removals_loop r s t a b)) /\
  respects idle (Engine.r_execute_sequence_1 r) /\
  respects idle (Engine.r_execute_sequence_2 r) /\
  respects idle (Engine.r_execute_sequence_3 r).

(** SEQ3 with the branch that validates a scan taken out. *)
Definition seq3_without_validation (r : Engine.Rec) : M bool :=
  try_except
    (bind (log INFO "Starting SEQ3: Container Detection and QR Validation") (fun _ =>
     bind Engine.clear_seq1_lights (fun _ =>
     bind time_time (fun now =>
     bind (upd_uart (set_qr_state true (Some now) None)) (fun _ =>
     bind (Engine.qr_wait_loop r (seconds 30)) (fun _ =>
     bind (log ERROR "QR scan timeout - no QR code received") (fun _ =>
     Engine.handle_seq3_invalid_qr r "QR scan timeout")))))))
    (fun _ => bind (log ERROR "SEQ3 failed") (fun _ => bind set_error_state (fun _ => ret false))).

End Observe.

(* ===================================================================== *)
(** * Part II. Properties                                                 *)
(* ===================================================================== *)

Module CodecFacts.
Import Codec Scenario.

Lemma byte_of_int_of_byte (b : byte) : byte_of_int (int_of_byte b) = Some b.
Proof.
  unfold byte_of_int, int_of_byte.
  pose proof (Byte.to_N_bounded b) as Hb.
  replace ((0 <=? Z.of_N (to_N b)) && (Z.of_N (to_N b) <? 256)) with true.
  - rewrite N2Z.id. apply Byte.of_to_N.
  - symmetry. apply andb_true_intro. split.
    + apply Z.leb_le. lia.
    + apply Z.ltb_lt. lia.
Qed.

Lemma int_of_byte_of_int (v : Z) (b : byte) :
  byte_of_int v = Some b -> int_of_byte b = v.
Proof.
  unfold byte_of_int, int_of_byte.
  destruct ((0 <=? v) && (v <? 256)) eqn:E; [|discriminate].
  apply andb_true_iff in E. destruct E as [E1 E2].
  apply Z.leb_le in E1. intros H.
  apply Byte.to_of_N in H. rewrite H. lia.
Qed.

Lemma byte_of_int_some (v : Z) :
  0 <= v < 256 -> exists b, byte_of_int v = Some b.
Proof.
  intros [H1 H2]. unfold byte_of_int.
  replace ((0 <=? v) && (v <? 256)) with true.
  - destruct (Byte.of_N (Z.to_N v)) eqn:E; [eauto|].
    apply Byte.of_N_None_iff in E. lia.
  - symmetry. apply andb_true_intro. split; [apply Z.leb_le|apply Z.ltb_lt]; lia.
Qed.

Lemma validate_message_inv (m : UARTMessage) :
  validate_message m = true ->
  0 <= msg_id m <= 99 /\ payload_length m <= 255 /\ 0 <= msg_type m <= 8.
Proof.
  unfold validate_message, is_message_type.
  destruct ((0 <=? msg_id m) && (msg_id m <=? 99)) eqn:E1; simpl; [|discriminate].
  destruct (payload_length m >? 255) eqn:E2; [discriminate|].
  destruct ((0 <=? msg_type m) && (msg_type m <=? 8)) eqn:E3; simpl; [|discriminate].
  intros _.
  apply andb_true_iff in E1, E3.
  rewrite !Z.leb_le in E1, E3.
  rewrite Z.gtb_ltb in E2. apply Z.ltb_ge in E2. lia.
Qed.

Lemma last_app_single {A} (l : list A) (x d : A) : last (l ++ [x]) d = x.
Proof. apply last_last. Qed.

Lemma encode_shape (m : UARTMessage) :
  validate_message m = true ->
  exists t i l,
    byte_of_int (msg_type m) = Some t /\
    byte_of_int (msg_id m) = Some i /\
    byte_of_int (payload_length m) = Some l /\
    encode_message m = Some ([START_BYTE; t; i; l] ++ payload m ++ [END_BYTE]).
Proof.
  intros Hv. pose proof (validate_message_inv m Hv) as (Hid & Hlen & Hty).
  assert (Hpl : 0 <= payload_length m) by (unfold payload_length; lia).
  destruct (byte_of_int_some (msg_type m)) as [t Ht]; [lia|].
  destruct (byte_of_int_some (msg_id m)) as [i Hi]; [lia|].
  destruct (byte_of_int_some (payload_length m)) as [l Hl]; [lia|].
  exists t, i, l. repeat split; auto.
  unfold encode_message. rewrite Hv, Ht, Hi, Hl. reflexivity.
Qed.

Lemma encoded_length (t i l : byte) (p : list byte) :
  Z.of_nat (length ([START_BYTE; t; i; l] ++ p ++ [END_BYTE]))
  = 5 + Z.of_nat (length p).
Proof. rewrite !length_app. cbn [length]. lia. Qed.

Lemma validate_frame_encoded (t i l : byte) (p : list byte) :
  int_of_byte l = Z.of_nat (length p) ->
  validate_frame ([START_BYTE; t; i; l] ++ p ++ [END_BYTE]) = true.
Proof.
  intros Hl. unfold validate_frame.
  rewrite encoded_length.
  replace (5 + Z.of_nat (length p) <? 5) with false
    by (symmetry; apply Z.ltb_ge; lia).
  rewrite (app_assoc _ p [END_BYTE]), last_app_single.
  cbn [app nth_error].
  change (Byte.eqb START_BYTE START_BYTE) with true.
  change (Byte.eqb END_BYTE END_BYTE) with true.
  cbn [negb]. rewrite Hl, Z.eqb_refl. reflexivity.
Qed.

Lemma payload_slice (t i l : byte) (p : list byte) :
  firstn (length p) (skipn 4 ([START_BYTE; t; i; l] ++ p ++ [END_BYTE])) = p.
Proof.
  cbn [app skipn].
  rewrite firstn_app, Nat.sub_diag, firstn_all. cbn [firstn]. apply app_nil_r.
Qed.

Lemma decode_encoded (m : UARTMessage) (t i l : byte) :
  int_of_byte t = msg_type m ->
  int_of_byte i = msg_id m ->
  int_of_byte l = payload_length m ->
  0 <= msg_type m <= 8 ->
  decode_frame ([START_BYTE; t; i; l] ++ payload m ++ [END_BYTE]) = Some m.
Proof.
  intros Ht Hi Hl Hty.
  unfold decode_frame.
  rewrite validate_frame_encoded by exact Hl.
  cbn [negb].
  change (nth_error ([START_BYTE; t; i; l] ++ payload m ++ [END_BYTE]) 1) with (Some t).
  change (nth_error ([START_BYTE; t; i; l] ++ payload m ++ [END_BYTE]) 2) with (Some i).
  change (nth_error ([START_BYTE; t; i; l] ++ payload m ++ [END_BYTE]) 3) with (Some l).
  cbv beta iota.
  rewrite Ht, Hi, Hl.
  unfold is_message_type.
  replace ((0 <=? msg_type m) && (msg_type m <=? 8)) with true
    by (symmetry; apply andb_true_intro; split; apply Z.leb_le; lia).
  destruct m as [ty id pl]. cbn [Codec.msg_type Codec.msg_id Codec.payload] in *.
  unfold payload_length. cbn [Codec.payload].
  destruct (Z.of_nat (length pl) >? 0) eqn:E.
  - rewrite Nat2Z.id, payload_slice. reflexivity.
  - rewrite Z.gtb_ltb in E. apply Z.ltb_ge in E.
    destruct pl; [reflexivity|]. cbn [length] in E. lia.
Qed.

(** C3. Every message the encoder accepts (declared type, id within
    0..99, at most 255 payload bytes) is encoded to a frame of length
    5 + payload length that starts with 0x7B, ends with 0x7D and decodes
    back to the same message.  The message type 0x05, id 42, payload
    01 02 00 is encoded as 7B 05 2A 03 01 02 00 7D, that frame decodes to
    an equal message, and with byte 0 replaced by 0x7A the decoder
    returns nothing. *)
Theorem frame_round_trip :
  (forall m : UARTMessage,
      validate_message m = true ->
      exists frame,
        encode_message m = Some frame /\
        decode_frame frame = Some m /\
        Z.of_nat (length frame) = 5 + payload_length m /\
        nth_error frame 0 = Some x7b /\
        last frame x00 = x7d) /\
  encode_message scenario_message = Some scenario_frame /\
  decode_frame scenario_frame = Some scenario_message /\
  decode_frame (x7a :: tl scenario_frame) = None.
Proof.
  split; [|repeat split; reflexivity].
  intros m Hv.
  destruct (encode_shape m Hv) as (t & i & l & Ht & Hi & Hl & He).
  pose proof (validate_message_inv m Hv) as (_ & _ & Hty).
  exists ([START_BYTE; t; i; l] ++ payload m ++ [END_BYTE]).
  split; [exact He|]. split.
  - apply decode_encoded; auto using int_of_byte_of_int.
  - split; [|split].
    + rewrite !length_app. cbn [length]. unfold payload_length. lia.
    + reflexivity.
    + rewrite app_assoc. apply last_app_single.
Qed.

Lemma frame_round_trip_witness :
  validate_message scenario_message = true /\
  exists frame,
    encode_message scenario_message = Some frame /\
    decode_frame frame = Some scenario_message /\
    Z.of_nat (length frame) = 5 + payload_length scenario_message /\
    nth_error frame 0 = Some x7b /\
    last frame x00 = x7d.
Proof.
  split; [reflexivity|].
  apply (proj1 frame_round_trip scenario_message). reflexivity.
Defined.

End CodecFacts.

(** ** QR validation *)

Module QRFacts.
Import Codec Hash QR Observe.

Ltac by_cases c :=
  destruct c as [[] [] [] [] [] [] [] []].

Lemma code_alphabet_facts c :
  code_alphabet c = true -> code_class c = true /\ upper_char c = c /\ hash_alphabet c = true.
Proof. by_cases c; intros H; vm_compute in H; try discriminate; vm_compute; auto. Qed.

Lemma hash_alphabet_facts c :
  hash_alphabet c = true ->
  hash_class c = true /\ upper_char c = c /\ is_space c = false /\ Ascii.eqb c newline = false.
Proof. by_cases c; intros H; vm_compute in H; try discriminate; vm_compute; auto. Qed.

Lemma b32_char_facts v : hash_alphabet (b32_char v) = true.
Proof.
  unfold b32_char. generalize (Z.to_nat (Z.land v 31)). intros n.
  do 33 (destruct n as [|n]; [reflexivity|]). reflexivity.
Qed.

Lemma match_literal_length lit : forall cs r,
  match_literal lit cs = Some r -> length cs = (length lit + length r)%nat.
Proof.
  induction lit as [|l lit IH]; intros cs r H; cbn in H.
  - injection H as <-. reflexivity.
  - destruct cs as [|c cs]; [discriminate|].
    destruct (ieq l c); [|discriminate]. apply IH in H. cbn. lia.
Qed.

Lemma match_class_length cls n : forall cs g r,
  match_class cls n cs = Some (g, r) -> length cs = (n + length r)%nat.
Proof.
  induction n as [|n IH]; intros cs g r H; cbn in H.
  - injection H as _ <-. reflexivity.
  - destruct cs as [|c cs]; [discriminate|].
    destruct (cls c); [|discriminate].
    destruct (match_class cls n cs) as [[g' r']|] eqn:E; [|discriminate].
    injection H as _ <-. apply IH in E. cbn. lia.
Qed.

Lemma match_tail_length scheme cs g :
  match_tail scheme cs = Some g ->
  (String.length scheme + 28 <= length cs)%nat.
Proof.
  unfold match_tail. intros H.
  destruct (match_literal _ cs) as [r1|] eqn:E1; [|discriminate].
  destruct (match_class code_class 6 r1) as [[code r2]|] eqn:E2; [|discriminate].
  destruct (match_literal _ r2) as [r3|] eqn:E3; [|discriminate].
  destruct (match_class hash_class 6 r3) as [[hash r4]|] eqn:E4; [|discriminate].
  apply match_literal_length in E1, E3. apply match_class_length in E2, E4.
  rewrite E1, E2, E3, E4.
  assert (Hl : length (list_ascii_of_string (scheme ++ "://paka.eco/QR/"))
               = (String.length scheme + 15)%nat).
  { clear. induction scheme as [|c s IH]; cbn; [reflexivity|]. rewrite IH. reflexivity. }
  rewrite Hl. cbn. lia.
Qed.

Lemma match_from_short cs : (length cs < 32)%nat -> match_from cs = None.
Proof.
  induction cs as [|c cs IH]; intros Hl.
  - cbn -[match_tail].
    destruct (match_tail "https" []) eqn:E1; [apply match_tail_length in E1; cbn in E1; lia|].
    destruct (match_tail "http" []) eqn:E2; [apply match_tail_length in E2; cbn in E2; lia|].
    reflexivity.
  - cbn -[match_tail].
    destruct (match_tail "https" (c :: cs)) eqn:E1;
      [apply match_tail_length in E1; cbn in E1, Hl; lia|].
    destruct (match_tail "http" (c :: cs)) eqn:E2;
      [apply match_tail_length in E2; cbn in E2, Hl; lia|].
    rewrite IH by (cbn in Hl; lia).
    match goal with |- (if ?b then _ else _) = _ => destruct b end; reflexivity.
Qed.

Lemma match_from_cons c cs :
  match_from (c :: cs) =
  (let here := match match_tail "https" (c :: cs) with
               | Some g => Some g
               | None => match_tail "http" (c :: cs)
               end in
   if Ascii.eqb c newline then here
   else match match_from cs with Some g => Some g | None => here end).
Proof. reflexivity. Qed.

Lemma ieq_refl c : ieq c c = true.
Proof. apply Ascii.eqb_refl. Qed.

Lemma match_literal_prefix lit rest : match_literal lit (lit ++ rest) = Some rest.
Proof.
  induction lit as [|l lit IH]; cbn [match_literal app]; [reflexivity|].
  rewrite ieq_refl. exact IH.
Qed.

Lemma match_class_prefix cls g rest :
  forallb cls g = true ->
  match_class cls (length g) (g ++ rest) = Some (g, rest).
Proof.
  induction g as [|c g IH]; intros H; cbn [match_class app length]; [reflexivity|].
  cbn in H. apply andb_true_iff in H. destruct H as [Hc Hg].
  rewrite Hc, (IH Hg). reflexivity.
Qed.

Lemma match_class_exact cls n g rest :
  forallb cls g = true -> length g = n ->
  match_class cls n (g ++ rest) = Some (g, rest).
Proof. intros H <-. apply match_class_prefix, H. Qed.

Lemma chars_app a b : chars (a ++ b) = (chars a ++ chars b)%list.
Proof. unfold chars. induction a as [|c a IH]; cbn; [reflexivity|]. rewrite IH. reflexivity. Qed.

Lemma lstrip_id l : is_space (hd " "%char l) = false -> lstrip l = l.
Proof. destruct l as [|c l]; intros H; cbn in *; [reflexivity|]. rewrite H. reflexivity. Qed.

Lemma hd_rev (l : list ascii) d : hd d (rev l) = last l d.
Proof.
  induction l as [|z l' _] using rev_ind; [reflexivity|].
  rewrite rev_app_distr, last_last. reflexivity.
Qed.

Lemma strip_fixed (l : list ascii) :
  is_space (hd " "%char l) = false -> is_space (last l " "%char) = false ->
  rev (lstrip (rev (lstrip l))) = l.
Proof.
  intros Ha Hz. rewrite (lstrip_id l Ha).
  rewrite lstrip_id by (rewrite hd_rev; exact Hz).
  apply rev_involutive.
Qed.

Lemma last_app_nonempty (a b : list ascii) d : b <> [] -> last (a ++ b) d = last b d.
Proof.
  intros Hb. destruct (exists_last Hb) as [b' [z ->]].
  rewrite app_assoc, !last_last. reflexivity.
Qed.

Lemma last_forallb (P : ascii -> bool) l d :
  l <> [] -> forallb P l = true -> P (last l d) = true.
Proof.
  intros Hl H. rewrite forallb_forall in H. apply H.
  destruct l as [|x l]; [congruence|].
  clear. revert x. induction l as [|y l IH]; intros x; [left; reflexivity|].
  right. apply IH.
Qed.

Lemma match_tail_t scheme cs :
  scheme = "https"%string \/ scheme = "http"%string ->
  match_tail scheme ("t"%char :: cs) = None.
Proof. intros [->| ->]; reflexivity. Qed.

Lemma chars_qr_url code h :
  chars (qr_url code h) = (url_prefix ++ chars code ++ ["/"%char] ++ chars h)%list.
Proof. unfold qr_url. rewrite !chars_app. reflexivity. Qed.

Lemma length_chars s : length (chars s) = String.length s.
Proof. unfold chars. induction s; cbn; auto. Qed.

Lemma forallb_impl (P Q : ascii -> bool) l :
  (forall c, P c = true -> Q c = true) -> forallb P l = true -> forallb Q l = true.
Proof. intros H. rewrite !forallb_forall. auto. Qed.

Lemma upper_fixed s :
  forallb hash_alphabet (chars s) = true -> upper s = s.
Proof.
  intros H. unfold upper. fold (chars s).
  replace (map upper_char (chars s)) with (chars s).
  - apply string_of_list_ascii_of_string.
  - symmetry. rewrite <- (map_id (chars s)) at 2. apply map_ext_in.
    intros c Hc. rewrite forallb_forall in H. apply hash_alphabet_facts. auto.
Qed.

Lemma match_tail_https cs hs :
  forallb code_class cs = true -> length cs = 6%nat ->
  forallb hash_class hs = true -> length hs = 6%nat ->
  match_tail "https" (url_prefix ++ cs ++ ["/"%char] ++ hs) =
  Some (string_of_list_ascii cs, string_of_list_ascii hs).
Proof.
  intros Hc Hcl Hh Hhl. unfold match_tail.
  change (list_ascii_of_string ("https" ++ "://paka.eco/QR/")) with url_prefix.
  rewrite match_literal_prefix, (match_class_exact _ _ _ _ Hc Hcl).
  rewrite (match_literal_prefix ["/"%char]), <- (app_nil_r hs).
  rewrite (match_class_exact _ _ _ _ Hh Hhl), app_nil_r. reflexivity.
Qed.

Lemma hash_class_facts c :
  hash_class c = true -> is_space c = false /\ hash_alphabet (upper_char c) = true.
Proof. by_cases c; intros H; vm_compute in H; try discriminate; vm_compute; auto. Qed.

Lemma url_shape code h :
  String.length code = 6%nat -> forallb code_alphabet (chars code) = true ->
  String.length h = 6%nat -> forallb hash_class (chars h) = true ->
  strip (qr_url code h) = qr_url code h /\
  url_pattern_match (qr_url code h) = Some (code, h).
Proof.
  intros Hc1 Hc2 Hh1 Hh2.
  assert (Hhne : chars h <> []).
  { intros E. apply (f_equal (@length ascii)) in E. rewrite length_chars in E.
    cbn in E. lia. }
  split.
  - unfold strip. fold (chars (qr_url code h)).
    rewrite strip_fixed.
    + apply string_of_list_ascii_of_string.
    + rewrite chars_qr_url. reflexivity.
    + rewrite chars_qr_url.
      rewrite app_assoc, (app_assoc _ ["/"%char]), last_app_nonempty by exact Hhne.
      apply hash_class_facts. apply last_forallb; assumption.
  - unfold url_pattern_match. fold (chars (qr_url code h)). rewrite chars_qr_url.
    change url_prefix with ("h"%char :: "t"%char :: chars "tps://paka.eco/QR/").
    cbn [app]. rewrite match_from_cons, (match_from_cons "t").
    rewrite match_from_short
      by (repeat (rewrite length_app || cbn [length]); rewrite !length_chars, Hc1, Hh1; cbn; lia).
    cbv zeta. rewrite !match_tail_t by auto.
    change (Ascii.eqb "h" newline) with false. change (Ascii.eqb "t" newline) with false.
    cbv iota.
    change ("h"%char :: "t"%char :: (chars "tps://paka.eco/QR/" ++ chars code ++ "/"%char :: chars h)%list)
      with (url_prefix ++ chars code ++ ["/"%char] ++ chars h)%list.
    rewrite match_tail_https.
    + unfold chars. rewrite !string_of_list_ascii_of_string. reflexivity.
    + eapply forallb_impl; [|exact Hc2]. intros c Hc. apply code_alphabet_facts, Hc.
    + rewrite length_chars. exact Hc1.
    + exact Hh2.
    + rewrite length_chars. exact Hh1.
Qed.

Lemma digest_length r : length (digest_of r) = 32%nat.
Proof. reflexivity. Qed.

Lemma hmac_sha256_length key msg : length (hmac_sha256 key msg) = 32%nat.
Proof. unfold hmac_sha256, sha256. apply digest_length. Qed.

Lemma upper_b32_char v : upper_char (b32_char v) = b32_char v.
Proof. apply hash_alphabet_facts, b32_char_facts. Qed.

Lemma generate_hmac_hash_shape key code :
  String.length (generate_hmac_hash key code) = 6%nat /\
  forallb hash_alphabet (chars (generate_hmac_hash key code)) = true.
Proof.
  unfold generate_hmac_hash.
  pose proof (hmac_sha256_length (utf8_encode key) (utf8_encode code)) as Hlen.
  destruct (hmac_sha256 (utf8_encode key) (utf8_encode code))
    as [|b0 [|b1 [|b2 [|b3 [|b4 tl]]]]]; try discriminate Hlen.
  cbv zeta. cbn [b32encode b32_group app firstn hash_length].
  unfold upper. rewrite list_ascii_of_string_of_list_ascii.
  cbn [map]. rewrite !upper_b32_char. unfold chars.
  rewrite list_ascii_of_string_of_list_ascii.
  cbn [forallb string_of_list_ascii String.length]. rewrite !b32_char_facts.
  split; reflexivity.
Qed.

Lemma qr_url_not_empty code h : String.eqb (qr_url code h) "" = false.
Proof. reflexivity. Qed.

Lemma parse_qr_url code h :
  String.length code = 6%nat -> forallb code_alphabet (chars code) = true ->
  String.length h = 6%nat -> forallb hash_class (chars h) = true ->
  parse_scanned_url (strip (qr_url code h)) = Some (code, upper h).
Proof.
  intros Hc1 Hc2 Hh1 Hh2.
  destruct (url_shape code h Hc1 Hc2 Hh1 Hh2) as [Hs Hm].
  unfold parse_scanned_url. rewrite !Hs, qr_url_not_empty, Hm.
  rewrite (upper_fixed code); [reflexivity|].
  eapply forallb_impl; [|exact Hc2]. intros c Hc. apply code_alphabet_facts, Hc.
Qed.

Lemma hash_alphabet_class l :
  forallb hash_alphabet l = true -> forallb hash_class l = true.
Proof. apply forallb_impl. intros c Hc. apply hash_alphabet_facts, Hc. Qed.

Lemma utf8_bytes_encode s : utf8_bytes s = utf8_encode s.
Proof.
  unfold utf8_bytes, utf8_encode, chars.
  induction (list_ascii_of_string s) as [|c l IH]; [reflexivity|].
  cbn [flat_map]. rewrite IH. f_equal.
  by_cases c; vm_compute; reflexivity.
Qed.

(** The validator computes the check string the specification names. *)
Lemma authentic_hash_generated key code :
  authentic_hash key code = generate_hmac_hash key code.
Proof.
  unfold authentic_hash, generate_hmac_hash. rewrite !utf8_bytes_encode.
  pose proof (hmac_sha256_length (utf8_encode key) (utf8_encode code)) as Hlen.
  destruct (hmac_sha256 (utf8_encode key) (utf8_encode code))
    as [|b0 [|b1 [|b2 [|b3 [|b4 tl]]]]]; try discriminate Hlen.
  cbv zeta. cbn [b32encode b32_group app firstn hash_length].
  unfold upper. rewrite !list_ascii_of_string_of_list_ascii.
  cbn [map string_of_list_ascii String.substring]. reflexivity.
Qed.

(** C4.  For every private key and every 6-character code over
    A-HJ-NP-Z2-9, the URL built from the code and the first six
    characters of the upper-cased Base32 encoding of
    HMAC-SHA256(private key, code) is VALID and returns the code as
    container id; with any other 6-character hash over A-Z, a-z, 0-9
    whose upper-cased form differs from that check string the result is
    a fraud attempt.  The check string is stated from HMAC-SHA256 and
    Base32 themselves, not through the function of the validator. *)
Theorem authentic_url_is_valid key code :
  String.length code = 6%nat -> forallb code_alphabet (chars code) = true ->
  process_qr_code key (qr_url code (authentic_hash key code)) =
    mkQRResult (qr_url code (authentic_hash key code)) VALID (Some code) None false
               (Some (code, authentic_hash key code))
  /\ forall h,
       String.length h = 6%nat -> forallb hash_class (chars h) = true ->
       upper h <> authentic_hash key code ->
       process_qr_code key (qr_url code h) =
         mkQRResult (qr_url code h) FRAUD_ATTEMPT None
           (Some "Invalid hash. The QR code may be corrupted or fraudulent"%string)
           true (Some (code, upper h)).
Proof.
  intros Hc1 Hc2. rewrite authentic_hash_generated. split.
  - destruct (generate_hmac_hash_shape key code) as [Hh1 Hh2].
    pose proof (hash_alphabet_class _ Hh2) as Hh3.
    unfold process_qr_code. cbv zeta.
    rewrite (parse_qr_url _ _ Hc1 Hc2 Hh1 Hh3), (upper_fixed _ Hh2), String.eqb_refl.
    destruct (url_shape _ _ Hc1 Hc2 Hh1 Hh3) as [-> _]. reflexivity.
  - intros h Hh1 Hh2 Hne.
    unfold process_qr_code. cbv zeta.
    rewrite (parse_qr_url _ _ Hc1 Hc2 Hh1 Hh2).
    apply String.eqb_neq in Hne. rewrite Hne.
    destruct (url_shape _ _ Hc1 Hc2 Hh1 Hh2) as [-> _]. reflexivity.
Qed.

Lemma authentic_url_is_valid_witness :
  (String.length "ABCDEF" = 6%nat /\
   forallb code_alphabet (chars "ABCDEF") = true /\
   String.length "Z7RHIG" = 6%nat /\
   forallb hash_class (chars "Z7RHIG") = true /\
   upper "Z7RHIG" <> authentic_hash "default_key" "ABCDEF") /\
  authentic_hash "default_key" "ABCDEF" = "Z7RHIF"%string /\
  validation (process_qr_code "default_key" (qr_url "ABCDEF" "Z7RHIF")) = VALID /\
  container_id (process_qr_code "default_key" (qr_url "ABCDEF" "Z7RHIF")) = Some "ABCDEF"%string /\
  validation (process_qr_code "default_key" (qr_url "ABCDEF" "Z7RHIG")) = FRAUD_ATTEMPT.
Proof.
  assert (E : authentic_hash "default_key" "ABCDEF" = "Z7RHIF"%string)
    by (vm_compute; reflexivity).
  assert (Hne : upper "Z7RHIG" <> authentic_hash "default_key" "ABCDEF")
    by (rewrite E; vm_compute; discriminate).
  destruct (authentic_url_is_valid "default_key" "ABCDEF" eq_refl eq_refl) as [H1 H2].
  specialize (H2 "Z7RHIG"%string eq_refl eq_refl Hne).
  rewrite E in H1. rewrite H1, H2.
  repeat split; try reflexivity; assumption.
Defined.

End QRFacts.

(** ** Store adapter *)

Module StoreFacts.
Import Py Store.

Local Abbreviation updatedAt_key := "updatedAt"%string.

Lemma dict_get_set (k : string) (v : pyval) (d : dict) :
  dict_get k (dict_set k v d) = Some v.
Proof.
  induction d as [|[k' v'] tl IH]; cbn.
  - rewrite String.eqb_refl. reflexivity.
  - destruct (String.eqb k k') eqn:E; cbn; rewrite E; auto.
Qed.

Lemma dict_set_keys (k : string) (v : pyval) (d : dict) :
  map fst (dict_set k v d) = map fst d \/
  (~ In k (map fst d) /\ map fst (dict_set k v d) = map fst d ++ [k]).
Proof.
  induction d as [|[k' v'] tl IH]; cbn.
  - right. split; [tauto|reflexivity].
  - destruct (String.eqb k k') eqn:E; cbn.
    + left. reflexivity.
    + apply String.eqb_neq in E.
      destruct IH as [IH|[Hn IH]]; rewrite IH.
      * left. reflexivity.
      * right. split; [|reflexivity]. intros [H|H]; [congruence|tauto].
Qed.

Lemma dict_set_nodup (k : string) (v : pyval) (d : dict) :
  NoDup (map fst d) -> NoDup (map fst (dict_set k v d)).
Proof.
  intros Hd. destruct (dict_set_keys k v d) as [H|[Hn H]]; rewrite H; auto.
  apply NoDup_app; auto.
  - constructor; [tauto|constructor].
  - intros x Hx [Hk|[]]. subst. tauto.
Qed.

Lemma dict_set_not_empty (k : string) (v : pyval) (d : dict) :
  dict_is_empty (dict_set k v d) = false.
Proof. destruct d as [|[k' v'] tl]; cbn; [reflexivity|]. destruct (String.eqb k k'); reflexivity. Qed.

(** Entries under other keys leave the [updatedAt] clause alone. *)
Lemma build_clauses_other (d : dict) :
  forall acc s,
    ~ In updatedAt_key (map fst d) ->
    build_clauses d acc = Some s ->
    set_updatedAt s = set_updatedAt acc.
Proof.
  induction d as [|[k v] tl IH]; intros acc s Hn Hb; cbn [build_clauses dict_get map fst In] in *.
  - congruence.
  - assert (Hk : String.eqb k updatedAt_key = false)
      by (apply String.eqb_neq; intros ->; apply Hn; left; reflexivity).
    assert (Htl : ~ In updatedAt_key (map fst tl)) by tauto.
    rewrite Hk in Hb.
    destruct (String.eqb k "due_date" && truthy v).
    { destruct v; try discriminate. apply (IH _ _ Htl) in Hb. exact Hb. }
    destruct (String.eqb k "is_returnable").
    { apply (IH _ _ Htl) in Hb. exact Hb. }
    destruct (String.eqb k "qr_code").
    { destruct v; try discriminate. apply (IH _ _ Htl) in Hb. exact Hb. }
    apply (IH _ _ Htl) in Hb. exact Hb.
Qed.

(** The value stored under [updatedAt] is the one the statement
    assigns. *)
Lemma build_clauses_updatedAt (now : datetime) (d : dict) :
  forall acc s,
    NoDup (map fst d) ->
    dict_get updatedAt_key d = Some (VDatetime now) ->
    build_clauses d acc = Some s ->
    set_updatedAt s = Some now.
Proof.
  induction d as [|[k v] tl IH]; intros acc s Hd Hg Hb; cbn [build_clauses dict_get map fst In] in *.
  - discriminate.
  - inversion Hd as [|? ? Hnk Hd']; subst.
    destruct (String.eqb updatedAt_key k) eqn:E.
    + apply String.eqb_eq in E. subst k. injection Hg as ->.
      cbn in Hb. apply build_clauses_other in Hb; [|exact Hnk].
      rewrite Hb. reflexivity.
    + assert (Hk : String.eqb k updatedAt_key = false)
        by (rewrite String.eqb_sym; exact E).
      rewrite Hk in Hb.
      destruct (String.eqb k "due_date" && truthy v).
      { destruct v; try discriminate. eapply IH; eauto. }
      destruct (String.eqb k "is_returnable"); [eapply IH; eauto|].
      destruct (String.eqb k "qr_code").
      { destruct v; try discriminate. eapply IH; eauto. }
      eapply IH; eauto.
Qed.

Lemma apply_clauses_id (s : set_clauses) (c : Container) : id (apply_clauses s c) = id c.
Proof. reflexivity. Qed.

Lemma find_updated (cid : string) (s : set_clauses) (l : list Container) :
  find (fun c => String.eqb (id c) cid)
       (map (fun c => if String.eqb (id c) cid then apply_clauses s c else c) l)
  = option_map (apply_clauses s) (find (fun c => String.eqb (id c) cid) l).
Proof.
  induction l as [|c tl IH]; cbn; [reflexivity|].
  destruct (String.eqb (id c) cid) eqn:E; cbn; rewrite E; auto.
Qed.

Lemma exec_update_found (cid : string) (s : set_clauses) (db : DB) (c0 : Container) :
  get_by_id cid db = Some c0 ->
  forall n db',
    exec_update cid s db = Ok n db' ->
    n = 1 /\ get_by_id cid db' = Some (apply_clauses s c0).
Proof.
  intros Hc n db' H. unfold exec_update in H. rewrite Hc in H.
  match type of H with (if ?b then _ else _) = _ => destruct b end; [discriminate|].
  injection H as <- <-. split; [reflexivity|].
  unfold get_by_id in *. cbn. rewrite find_updated, Hc. reflexivity.
Qed.

Lemma exec_update_missing (cid : string) (s : set_clauses) (db : DB) :
  get_by_id cid db = None -> exec_update cid s db = Ok 0 db.
Proof. intros H. unfold exec_update. rewrite H. reflexivity. Qed.

(** What a successful non-empty [update] leaves behind. *)
Lemma update_sets_updatedAt (now : datetime) (cid : string) (updates : dict) (db : DB)
    (r : option Container) (db' : DB) :
  updates <> [] ->
  NoDup (map fst updates) ->
  update now cid updates db = Ok r db' ->
  match get_by_id cid db with
  | None => r = None /\ db' = db
  | Some _ => exists c', r = Some c' /\ get_by_id cid db' = Some c' /\ updated_at c' = now
  end.
Proof.
  intros Hne Hd H. unfold update in H.
  destruct updates as [|kv tl]; [congruence|]. cbn [dict_is_empty] in H.
  destruct (build_clauses (dict_set updatedAt_key (VDatetime now) (kv :: tl)) no_clauses)
    as [s|] eqn:Eb; [|discriminate].
  pose proof (build_clauses_updatedAt now _ _ _
                (dict_set_nodup updatedAt_key (VDatetime now) _ Hd)
                (dict_get_set _ _ _) Eb) as Hs.
  assert (Hce : clauses_empty s = false).
  { unfold clauses_empty. rewrite Hs.
    destruct (set_dueDate s), (set_isReturnable s), (set_qrCode s); reflexivity. }
  rewrite Hce in H.
  destruct (get_by_id cid db) as [c0|] eqn:Ec.
  - destruct (exec_update cid s db) as [n db1|e] eqn:Ee; [|discriminate].
    destruct (exec_update_found _ _ _ _ Ec _ _ Ee) as [-> Hg].
    cbn in H. injection H as <- <-.
    exists (apply_clauses s c0). repeat split; auto.
    unfold apply_clauses. cbn. rewrite Hs. reflexivity.
  - rewrite (exec_update_missing _ _ _ Ec) in H. cbn in H.
    injection H as <- <-. auto.
Qed.

Lemma get_by_id_updated (cid : string) (s : set_clauses) (db : DB) :
  get_by_id cid
    (set_containers
       (map (fun c => if String.eqb (id c) cid then apply_clauses s c else c)
            (containers db)) db)
  = option_map (apply_clauses s) (get_by_id cid db).
Proof. unfold get_by_id. cbn [containers set_containers]. apply find_updated. Qed.

Lemma exec_update_ok (cid : string) (s : set_clauses) (db : DB) (c0 : Container) :
  get_by_id cid db = Some c0 ->
  set_qrCode s = None ->
  exec_update cid s db
  = Ok 1 (set_containers
            (map (fun c => if String.eqb (id c) cid then apply_clauses s c else c)
                 (containers db)) db).
Proof. intros Hc Hq. unfold exec_update. rewrite Hc, Hq. reflexivity. Qed.

(** A container found by its QR code is found by its identifier. *)
Lemma get_by_qr_code_id (qr : string) (db : DB) (c : Container) :
  get_by_qr_code qr db = Some c ->
  exists c0, get_by_id (id c) db = Some c0.
Proof.
  unfold get_by_qr_code, get_by_id. intros H.
  apply find_some in H. destruct H as [Hin _].
  destruct (find (fun c1 => String.eqb (id c1) (id c)) (containers db)) eqn:E; eauto.
  exfalso. eapply find_none in E; eauto. cbn in E.
  rewrite String.eqb_refl in E. discriminate.
Qed.

End StoreFacts.

(** ** QR decision policy *)

Module DecisionFacts.
Import Py World Decision StoreFacts Observe.
Local Open Scope string_scope.

Ltac run_monad :=
  unfold try_except, bind, gets, db_query, utcnow, now_utc, log, emit, modify,
    db_call, ret, raise, upd_uart, upd_env, upd_app, upd_svc, time_time.

(** C10. A non-empty update of a container through the store adapter
    that goes through leaves the current time in the record's
    [updatedAt] column, whatever [updatedAt] the caller supplied; so when
    the reply of a validation is applied to an existing container, the
    [updatedAt] the server sent is not what is stored: the column holds
    the time of the update. *)
Theorem update_stamps_current_time :
  (forall (now : datetime) (cid : string) (updates : dict) (d : Store.DB)
          (r : option Store.Container) (d' : Store.DB),
      updates <> [] ->
      NoDup (map fst updates) ->
      Store.update now cid updates d = Store.Ok r d' ->
      match Store.get_by_id cid d with
      | None => r = None /\ d' = d
      | Some _ =>
          exists c', r = Some c' /\ Store.get_by_id cid d' = Some c'
                     /\ Store.updated_at c' = now
      end) /\
  (forall (w : World) (qr cid : string) (cd : ContainerData) (existing : Store.Container),
      db_manager (uart w) = true ->
      cid <> "" ->
      Store.get_by_qr_code qr (db w) = Some existing ->
      cd_isReturnable cd <> None \/ cd_updatedAt cd <> None ->
      exists c',
        Store.get_by_id (Store.id existing)
          (db (snd (update_local_container qr cid cd w))) = Some c'
        /\ Store.updated_at c' = mkDatetime (clock (env w)) false).
Proof.
  split; [exact update_sets_updatedAt|].
  intros w qr cid cd existing Hdb Hcid Hq Hcd.
  destruct (get_by_qr_code_id _ _ _ Hq) as [c0 Hc0].
  unfold update_local_container. run_monad.
  cbn. rewrite Hdb. cbn.
  apply String.eqb_neq in Hcid. rewrite Hcid, Hq.
  destruct cd as [[b|] [ts|]]; cbn [cd_isReturnable cd_updatedAt] in *;
    try (destruct Hcd as [H|H]; congruence);
    cbn -[Store.update];
    unfold Store.update;
    cbn -[Store.exec_update Store.get_by_id];
    (erewrite exec_update_ok by (try exact Hc0; reflexivity));
    cbn -[Store.get_by_id Store.set_containers];
    rewrite get_by_id_updated, Hc0; cbn [option_map];
    eexists; split; reflexivity.
Qed.

Lemma update_stamps_current_time_witness :
  exists c',
    Store.get_by_id "c1"
      (match Store.update (mkDatetime 9 false) "c1" Scenario.server_updates
               (Scenario.db_c1 None) with
       | Store.Ok _ d' => d'
       | Store.DatabaseError _ => Scenario.db_c1 None
       end) = Some c'
    /\ Store.updated_at c' = mkDatetime 9 false.
Proof.
  pose proof (proj1 update_stamps_current_time (mkDatetime 9 false) "c1"
                Scenario.server_updates (Scenario.db_c1 None)
                (Some (Store.mkContainer "c1" "ABCDEF" false None (mkDatetime 9 false)))
                (Store.set_containers
                   [Store.mkContainer "c1" "ABCDEF" false None (mkDatetime 9 false)]
                   (Scenario.db_c1 None))) as H.
  assert (Hne : Scenario.server_updates <> []) by discriminate.
  assert (Hnd : NoDup (map fst Scenario.server_updates)).
  { repeat constructor; cbn; intuition discriminate. }
  specialize (H Hne Hnd eq_refl).
  destruct H as (c' & _ & Hg & Hu).
  exists c'. split; [exact Hg|exact Hu].
Defined.

(** *** Offline fallback *)

Lemma has_id_of_qr (qr : string) (d : Store.DB) (c : Store.Container) :
  Store.get_by_qr_code qr d = Some c ->
  existsb (fun c' => String.eqb (Store.id c') (Store.id c)) (Store.containers d) = true.
Proof.
  unfold Store.get_by_qr_code. intros H. apply find_some in H. destruct H as [Hin _].
  apply existsb_exists. exists c. split; [exact Hin|apply String.eqb_refl].
Qed.

(** An audit entry that refers to an existing container is written. *)
Lemma log_to_database_existing (w : World) (t : Store.LogType) (desc cid : string)
    (off : bool) :
  existsb (fun c => String.eqb (Store.id c) cid) (Store.containers (db w)) = true ->
  exists line,
    Audit.log_to_database t desc (Some cid) off w
    = (Ret tt, set_trace (trace w ++ [line])%list (audited t desc (Some cid) off w)).
Proof.
  intros H. unfold Audit.log_to_database, Audit.create_log, Audit.app_log_line. run_monad.
  cbn -[Store.create_log]. unfold Store.create_log.
  cbn [Store.alc_container_id Store.containers Store.bump_uuid]. rewrite H. cbn.
  eexists. reflexivity.
Qed.

Lemma offline_fallback_found (w : World) (qr : string) (c : Store.Container) :
  db_manager (uart w) = true ->
  audit_logger (uart w) = true ->
  Store.get_by_qr_code qr (db w) = Some c ->
  exists w',
    handle_offline_fallback qr w = (Ret (offline_accepts (clock (env w)) c), w') /\
    if offline_audited c then
      exists l,
        Store.audit_logs (db w') = (Store.audit_logs (db w) ++ [l])%list /\
        Store.is_offline_action l = true /\
        Store.container_id l = Some (Store.id c) /\
        Store.log_type l = (if offline_accepts (clock (env w)) c
                            then Store.RETURN_VALID else Store.RETURN_INVALID)
    else db w' = db w.
Proof.
  intros Hdb Haud Hq.
  pose proof (has_id_of_qr _ _ _ Hq) as Hid.
  unfold handle_offline_fallback, offline_accepts, offline_audited,
    Audit.log_return_invalid, Audit.log_return_valid.
  run_monad. cbn -[Audit.log_to_database]. rewrite Hdb. cbn -[Audit.log_to_database].
  rewrite Hq.
  destruct (Store.is_returnable c) eqn:Hr; cbn -[Audit.log_to_database]; rewrite ?Haud.
  - destruct (Store.due_date c) as [due|] eqn:Hdue; cbn -[Audit.log_to_database].
    + unfold datetime_lt. cbn -[Audit.log_to_database].
      destruct (tz_aware due) eqn:Haware; cbn -[Audit.log_to_database].
      * rewrite Z.leb_antisym.
        destruct (instant due <? clock (env w))%Z eqn:Hlt; cbn -[Audit.log_to_database];
          rewrite ?Haud;
          match goal with
          | |- context [Audit.log_to_database ?t ?d (Some ?i) ?o ?w0] =>
              destruct (log_to_database_existing w0 t d i o Hid) as [line Hl]; rewrite Hl
          end;
          (eexists; split; [reflexivity|]); cbn; eexists; repeat split; reflexivity.
      * eexists. split; reflexivity.
    + match goal with
      | |- context [Audit.log_to_database ?t ?d (Some ?i) ?o ?w0] =>
          destruct (log_to_database_existing w0 t d i o Hid) as [line Hl]; rewrite Hl
      end.
      eexists. split; [reflexivity|]. cbn. eexists. repeat split; reflexivity.
  - match goal with
    | |- context [Audit.log_to_database ?t ?d (Some ?i) ?o ?w0] =>
        destruct (log_to_database_existing w0 t d i o Hid) as [line Hl]; rewrite Hl
    end.
    eexists. split; [reflexivity|]. cbn. eexists. repeat split; reflexivity.
Qed.

Lemma offline_fallback_missing (w : World) (qr : string) :
  db_manager (uart w) = true ->
  Store.get_by_qr_code qr (db w) = None ->
  exists w',
    handle_offline_fallback qr w = (Ret false, w') /\ db w' = db w.
Proof.
  intros Hdb Hq. unfold handle_offline_fallback. run_monad.
  cbn. rewrite Hdb. cbn. rewrite Hq. eexists. split; reflexivity.
Qed.



(** A returnable container whose stored due date has no time zone is
    rejected offline, and nothing is audited, although the date lies in
    the future. *)
Lemma offline_fallback_naive_due_date :
  let run := handle_offline_fallback "ABCDEF"
               (Scenario.world_c1 1000 (Some (mkDatetime 2000 false))) in
  fst run = Ret false
  /\ Store.audit_logs (db (snd run)) = []
  /\ trace (snd run)
     = [Log INFO "Using offline fallback validation";
        Log ERROR "Error in offline fallback validation"].
Proof. vm_compute. repeat split. Qed.


End DecisionFacts.

(** ** Reasoning about computations *)

Module MonadFacts.
Import World.
Local Open Scope monad_scope.

(** *** Relations every step of a computation keeps

    [R] relates a state to the states reachable from it.  When [R] is
    reflexive and transitive it passes through sequencing, exception
    handlers and loops, whatever the outcome of each part. *)
Section Respects.
Variable R : World -> World -> Prop.
Hypothesis R_refl : forall w, R w w.
Hypothesis R_trans : forall a b c, R a b -> R b c -> R a c.

Local Abbreviation respects := (World.respects R).

Lemma respects_ret {A} (a : A) : respects (ret a).
Proof. intros w. apply R_refl. Qed.

Lemma respects_raise {A} (e : exn) : respects (@raise A e).
Proof. intros w. apply R_refl. Qed.

Lemma respects_out_of_fuel {A} : respects (@out_of_fuel A).
Proof. intros w. apply R_refl. Qed.

Lemma respects_get : respects get.
Proof. intros w. apply R_refl. Qed.

Lemma respects_gets {A} (f : World -> A) : respects (gets f).
Proof. intros w. apply R_refl. Qed.

Lemma respects_db_query {A} (f : Store.DB -> A) : respects (db_query f).
Proof. intros w. apply R_refl. Qed.

Lemma respects_time_time : respects time_time.
Proof. intros w. apply R_refl. Qed.

Lemma respects_now_utc : respects now_utc.
Proof. intros w. apply R_refl. Qed.

Lemma respects_utcnow : respects utcnow.
Proof. intros w. apply R_refl. Qed.

Lemma respects_bind {A B} (m : M A) (k : A -> M B) :
  respects m -> (forall a, respects (k a)) -> respects (bind m k).
Proof.
  intros Hm Hk w. unfold bind. specialize (Hm w).
  destruct (m w) as [[a|e|] w']; cbn in *; auto.
  eapply R_trans; [exact Hm|apply Hk].
Qed.

Lemma respects_try_except {A} (m : M A) (h : exn -> M A) :
  respects m -> (forall e, respects (h e)) -> respects (try_except m h).
Proof.
  intros Hm Hh w. unfold try_except. specialize (Hm w).
  destruct (m w) as [[a|e|] w']; cbn in *; auto.
  eapply R_trans; [exact Hm|apply Hh].
Qed.

Lemma respects_try_finally {A} (m : M A) (f : M unit) :
  respects m -> respects f -> respects (try_finally m f).
Proof.
  intros Hm Hf w. unfold try_finally. specialize (Hm w).
  destruct (m w) as [o w']. specialize (Hf w').
  destruct (f w') as [[u|e|] w'']; cbn in *; eapply R_trans; eauto.
Qed.

Lemma respects_for_each {A} (xs : list A) (body : A -> M unit) :
  (forall x, respects (body x)) -> respects (for_each xs body).
Proof.
  intros Hb. induction xs as [|x tl IH]; cbn [for_each].
  - apply respects_ret.
  - apply respects_bind; auto.
Qed.

Lemma respects_modify (f : World -> World) :
  (forall w, R w (f w)) -> respects (modify f).
Proof. intros H w. apply H. Qed.

Lemma respects_db_call {A} (f : Store.DB -> Store.db_result A) :
  (forall w a d, f (db w) = Store.Ok a d -> R w (set_db d w)) ->
  respects (db_call f).
Proof.
  intros H w. unfold db_call. destruct (f (db w)) as [a d|e] eqn:E; cbn.
  - eapply H; eauto.
  - apply R_refl.
Qed.
End Respects.

(** *** Computations that end with a value *)

Lemma returns_unfuelled {A} (m : M A) : returns m -> unfuelled m.
Proof. intros H w. destruct (H w) as [a Ha]. rewrite Ha. discriminate. Qed.

Lemma returns_ret {A} (a : A) : returns (ret a).
Proof. intros w. eexists. reflexivity. Qed.

Lemma returns_gets {A} (f : World -> A) : returns (gets f).
Proof. intros w. eexists. reflexivity. Qed.

Lemma returns_modify (f : World -> World) : returns (modify f).
Proof. intros w. eexists. reflexivity. Qed.

Lemma returns_bind {A B} (m : M A) (k : A -> M B) :
  returns m -> (forall a, returns (k a)) -> returns (bind m k).
Proof.
  intros Hm Hk w. unfold bind. destruct (Hm w) as [a Ha].
  destruct (m w) as [o w']. cbn in Ha. subst o. apply Hk.
Qed.

Lemma returns_try_except {A} (m : M A) (h : exn -> M A) :
  unfuelled m -> (forall e, returns (h e)) -> returns (try_except m h).
Proof.
  intros Hm Hh w. unfold try_except. specialize (Hm w).
  destruct (m w) as [[a|e|] w']; cbn in *.
  - eexists. reflexivity.
  - apply Hh.
  - congruence.
Qed.

Lemma returns_for_each {A} (xs : list A) (body : A -> M unit) :
  (forall x, returns (body x)) -> returns (for_each xs body).
Proof.
  intros Hb. induction xs as [|x tl IH]; cbn [for_each].
  - apply returns_ret.
  - apply returns_bind; auto.
Qed.

Lemma unfuelled_raise {A} (e : exn) : unfuelled (@raise A e).
Proof. intros w. discriminate. Qed.

Lemma unfuelled_db_call {A} (f : Store.DB -> Store.db_result A) : unfuelled (db_call f).
Proof. intros w. unfold db_call. destruct (f (db w)); discriminate. Qed.

Lemma unfuelled_bind {A B} (m : M A) (k : A -> M B) :
  unfuelled m -> (forall a, unfuelled (k a)) -> unfuelled (bind m k).
Proof.
  intros Hm Hk w. unfold bind. specialize (Hm w).
  destruct (m w) as [[a|e|] w']; cbn in *; [apply Hk|discriminate|congruence].
Qed.

Lemma unfuelled_try_except {A} (m : M A) (h : exn -> M A) :
  unfuelled m -> (forall e, unfuelled (h e)) -> unfuelled (try_except m h).
Proof.
  intros Hm Hh w. unfold try_except. specialize (Hm w).
  destruct (m w) as [[a|e|] w']; cbn in *; [discriminate|apply Hh|congruence].
Qed.

Lemma unfuelled_for_each {A} (xs : list A) (body : A -> M unit) :
  (forall x, unfuelled (body x)) -> unfuelled (for_each xs body).
Proof.
  intros Hb. induction xs as [|x tl IH]; cbn [for_each].
  - apply returns_unfuelled, returns_ret.
  - apply unfuelled_bind; auto.
Qed.

(** The value and the state a computation ends with, once the first
    part is known. *)
Lemma bind_eq {A B} (m : M A) (k : A -> M B) (w w' : World) (a : A) :
  m w = (Ret a, w') -> bind m k w = k a w'.
Proof. intros H. unfold bind. rewrite H. reflexivity. Qed.

Lemma try_except_eq {A} (m : M A) (h : exn -> M A) (w w' : World) (a : A) :
  m w = (Ret a, w') -> try_except m h w = (Ret a, w').
Proof. intros H. unfold try_except. rewrite H. reflexivity. Qed.

(** Goals of the form [respects R m], by the structure of [m]; [leaf]
    closes the primitive steps. *)
Ltac respects_tac R Hrefl Htrans leaf :=
  repeat (intros; first
    [ apply (respects_ret R Hrefl)
    | apply (respects_raise R Hrefl)
    | apply (respects_out_of_fuel R Hrefl)
    | apply (respects_get R Hrefl)
    | apply (respects_gets R Hrefl)
    | apply (respects_db_query R Hrefl)
    | apply (respects_time_time R Hrefl)
    | apply (respects_now_utc R Hrefl)
    | apply (respects_utcnow R Hrefl)
    | apply (respects_bind R Htrans)
    | apply (respects_try_except R Htrans)
    | apply (respects_try_finally R Htrans)
    | apply (respects_for_each R Hrefl Htrans)
    | leaf
    | match goal with
      | |- respects _ (if ?b then _ else _) => destruct b
      | |- respects _ (match ?x with _ => _ end) => destruct x
      | |- respects _ (let _ := _ in _) => cbv zeta
      end ]).

(** Goals of the form [returns m] and [unfuelled m]. *)
Ltac total_tac leaf :=
  repeat (intros; first
    [ apply returns_ret | apply returns_gets | apply returns_modify
    | apply returns_bind | apply returns_for_each | apply returns_try_except
    | apply unfuelled_raise | apply unfuelled_db_call
    | apply unfuelled_bind | apply unfuelled_try_except | apply unfuelled_for_each
    | leaf
    | match goal with
      | |- returns (if ?b then _ else _) => destruct b
      | |- unfuelled (if ?b then _ else _) => destruct b
      | |- returns (match ?x with _ => _ end) => destruct x
      | |- unfuelled (match ?x with _ => _ end) => destruct x
      | |- unfuelled _ => apply returns_unfuelled
      end ]).

Lemma returns_log lvl msg : returns (log lvl msg).
Proof. apply returns_modify. Qed.

Lemma returns_emit e : returns (emit e).
Proof. apply returns_modify. Qed.

Lemma returns_upd_uart f : returns (upd_uart f).
Proof. apply returns_modify. Qed.

Lemma returns_upd_app f : returns (upd_app f).
Proof. apply returns_modify. Qed.

Lemma returns_upd_svc f : returns (upd_svc f).
Proof. apply returns_modify. Qed.

Lemma returns_upd_env f : returns (upd_env f).
Proof. apply returns_modify. Qed.

Lemma returns_utcnow : returns utcnow.
Proof. apply returns_gets. Qed.

Lemma returns_now_utc : returns now_utc.
Proof. apply returns_gets. Qed.

Lemma returns_time_time : returns time_time.
Proof. apply returns_gets. Qed.

Lemma returns_db_query {A} (f : Store.DB -> A) : returns (db_query f).
Proof. apply returns_gets. Qed.

Lemma returns_get : returns get.
Proof. intros w. eexists. reflexivity. Qed.

Create HintDb total.
#[export] Hint Resolve returns_log returns_emit returns_upd_uart returns_upd_app
  returns_upd_svc returns_upd_env returns_utcnow returns_now_utc returns_time_time
  returns_db_query returns_get : total.

Ltac total := total_tac ltac:(solve [auto with total]).

Lemma bind_log_eq {A} lvl msg (k : unit -> M A) w :
  bind (log lvl msg) k w = k tt (set_trace (trace w ++ [Log lvl msg]) w).
Proof. reflexivity. Qed.

Lemma bind_upd_app_eq {A} f (k : unit -> M A) w :
  bind (upd_app f) k w = k tt (set_app (f (app w)) w).
Proof. reflexivity. Qed.

End MonadFacts.

(** ** Link layer: every command ends with a value *)

Module LinkFacts.
Import Codec Py World Link Scenario Observe MonadFacts.

Lemma pack_eq vs bs : pack_bytes vs = Some bs -> pack vs = ret bs.
Proof. intros H. unfold pack. rewrite H. reflexivity. Qed.

Lemma respects_pack R (Hrefl : forall w, R w w) vs : respects R (pack vs).
Proof.
  unfold pack. destruct (pack_bytes vs);
    [apply (respects_ret R Hrefl)|apply (respects_raise R Hrefl)].
Qed.

Lemma returns_send_message t p : returns (send_message t p).
Proof. unfold send_message, get_next_message_id, serial_write. total. Qed.

Lemma returns_send_ack m : returns (send_ack m).
Proof. unfold send_ack, serial_write. total. Qed.

#[export] Hint Resolve returns_send_message returns_send_ack : total.

Lemma returns_control_light p c t bs :
  pack_bytes [p; c; t] = Some bs -> returns (control_light p c t).
Proof. intros H. unfold control_light. rewrite (pack_eq _ _ H). total. Qed.

Lemma returns_control_door a bs :
  pack_bytes [a] = Some bs -> returns (control_door a).
Proof. intros H. unfold control_door. rewrite (pack_eq _ _ H). total. Qed.

Lemma returns_log_to_database t d c o : returns (Audit.log_to_database t d c o).
Proof. unfold Audit.log_to_database, Audit.create_log, Audit.app_log_line. total. Qed.

#[export] Hint Resolve returns_log_to_database : total.

(** *** What sending and receiving do to the state *)

Lemma create_ack_received (t i : byte) p :
  create_ack (mkMsg (int_of_byte t) (int_of_byte i) p) = Some (mkMsg ACK 0 [t; i]).
Proof.
  unfold create_ack. cbn [pack_bytes msg_type msg_id].
  rewrite !CodecFacts.byte_of_int_of_byte. reflexivity.
Qed.

Lemma encode_ack (t i : byte) :
  encode_message (mkMsg ACK 0 [t; i]) = Some (ack_for t i).
Proof. reflexivity. Qed.

Lemma appended_app es1 es2 w : appended es2 (appended es1 w) = appended (es1 ++ es2) w.
Proof. unfold appended, set_trace. cbn. rewrite <- app_assoc. reflexivity. Qed.

Lemma send_ack_eq (t i : byte) ty p w :
  int_of_byte t = ty ->
  serial_connection (uart w) = true ->
  send_ack (mkMsg ty (int_of_byte i) p) w
  = (Ret true, appended [Write (ack_for t i)] w).
Proof.
  intros <- Hc. unfold send_ack, bind, gets. rewrite Hc. cbn [negb].
  rewrite create_ack_received, encode_ack. reflexivity.
Qed.

Lemma log_eq lvl msg w : log lvl msg w = (Ret tt, appended [Log lvl msg] w).
Proof. reflexivity. Qed.

Lemma sleep_eq d w : sleep d w = (Ret tt, advance d w).
Proof. reflexivity. Qed.

Lemma byte_of_int_small v : 0 <= v < 256 -> byte_of_int v = Some (id_byte v).
Proof.
  intros H. unfold id_byte. destruct (byte_of_int v) as [b|] eqn:E; [reflexivity|].
  unfold byte_of_int in E.
  replace ((0 <=? v) && (v <? 256)) with true in E by (symmetry; apply andb_true_iff; split; lia).
  exfalso. destruct (Byte.of_N (Z.to_N v)) eqn:E2; [discriminate|].
  pose proof (Byte.of_N_None_iff (Z.to_N v)) as Hn. rewrite E2 in Hn.
  assert (255 < Z.to_N v)%N by (apply Hn; reflexivity). lia.
Qed.

Lemma encode_command (t : byte) id payload :
  is_message_type (int_of_byte t) = true -> 0 <= id < 100 ->
  (length payload <= 255)%nat ->
  encode_message (mkMsg (int_of_byte t) id payload) = Some (command_frame t id payload).
Proof.
  intros Ht Hid Hl. unfold encode_message, validate_message, payload_length.
  cbn [msg_type msg_id Codec.payload].
  replace ((0 <=? id) && (id <=? 99)) with true by (symmetry; apply andb_true_iff; split; lia).
  replace (Z.of_nat (length payload) >? 255) with false by (symmetry; rewrite Z.gtb_ltb; apply Z.ltb_ge; lia).
  rewrite Ht. cbn [negb].
  rewrite CodecFacts.byte_of_int_of_byte, (byte_of_int_small id) by lia.
  rewrite (byte_of_int_small (Z.of_nat (length payload))) by lia.
  reflexivity.
Qed.

Lemma send_message_eq (t : byte) ty payload w :
  int_of_byte t = ty ->
  is_message_type ty = true -> (length payload <= 255)%nat ->
  serial_connection (uart w) = true ->
  send_message ty payload w = (Ret true, sent t payload w).
Proof.
  intros <- Ht Hl Hc. unfold send_message, bind, gets. rewrite Hc. cbn [negb].
  unfold get_next_message_id, bind, upd_uart, modify, gets.
  cbn [uart set_uart message_id_counter set_message_id_counter].
  rewrite encode_command; [|exact Ht|apply Z.mod_pos_bound; lia|exact Hl].
  reflexivity.
Qed.

Lemma control_door_eq action (b : byte) w :
  byte_of_int action = Some b ->
  serial_connection (uart w) = true ->
  control_door action w = (Ret true, sent x08 [b] w).
Proof.
  intros Hb Hc. unfold control_door, pack, bind. cbn [pack_bytes]. rewrite Hb.
  unfold ret at 1. apply (send_message_eq x08); [reflexivity|reflexivity|cbn; lia|exact Hc].
Qed.

Lemma control_light_eq p c t (bp bc bt : byte) w :
  byte_of_int p = Some bp -> byte_of_int c = Some bc -> byte_of_int t = Some bt ->
  serial_connection (uart w) = true ->
  control_light p c t w = (Ret true, sent x05 [bp; bc; bt] w).
Proof.
  intros Hp Hcc Ht Hc. unfold control_light, pack, bind. cbn [pack_bytes].
  rewrite Hp, Hcc, Ht.
  unfold ret at 1. apply (send_message_eq x05); [reflexivity|reflexivity|cbn; lia|exact Hc].
Qed.

Lemma advance_0 w : advance 0 w = w.
Proof.
  destruct w as [u a s d e t]. destruct e. unfold advance, set_env, set_clock. cbn.
  rewrite Z.add_0_r. reflexivity.
Qed.

Lemma advance_advance a b w : advance b (advance a w) = advance (a + b) w.
Proof.
  unfold advance, set_env, set_clock. cbn. rewrite Z.add_assoc. reflexivity.
Qed.

Lemma receive_messages_silent w :
  serial_connection (uart w) = true -> rx (env w) = [] ->
  receive_messages w = (Ret [], w).
Proof.
  intros Hc Hrx. unfold receive_messages, serial_read, bind, gets, get. cbv beta iota.
  rewrite Hc. cbn [negb]. cbv beta iota. rewrite Hrx. reflexivity.
Qed.

Lemma receive_messages_ack w rest :
  serial_connection (uart w) = true -> rx (env w) = ack_frame :: rest ->
  receive_messages w = (Ret [ack_message], with_rx rest w).
Proof.
  intros Hc Hrx. unfold receive_messages, serial_read, bind, gets, get. cbv beta iota.
  rewrite Hc. cbn [negb]. cbv beta iota. rewrite Hrx. reflexivity.
Qed.

End LinkFacts.

(** ** Sync service: the secure-mode watchdog *)

Module ServiceFacts.
Import Codec Py World Link MonadFacts LinkFacts Service Observe.

Lemma quiet_refl w : quiet w w.
Proof. repeat split. Qed.

Lemma quiet_trans a b c : quiet a b -> quiet b c -> quiet a c.
Proof. unfold quiet. intuition congruence. Qed.

Lemma callback_calls_snoc t e :
  callback_line e = false -> callback_calls (t ++ [e]) = callback_calls t.
Proof.
  intros H. unfold callback_calls. rewrite filter_app. cbn. rewrite H.
  rewrite app_nil_r. reflexivity.
Qed.

Lemma quiet_emit e : callback_line e = false -> respects quiet (emit e).
Proof. intros H w. repeat split. cbn. apply callback_calls_snoc, H. Qed.

Lemma quiet_log lvl msg : callback_line (Log lvl msg) = false -> respects quiet (log lvl msg).
Proof. apply quiet_emit. Qed.

Lemma quiet_upd_uart f : respects quiet (upd_uart f).
Proof. intros w. repeat split. Qed.

Lemma quiet_upd_env f : respects quiet (upd_env f).
Proof. intros w. repeat split. Qed.

Lemma quiet_create_log now a : respects quiet (db_call (Store.create_log now a)).
Proof.
  apply (respects_db_call quiet quiet_refl). intros w r d H.
  unfold Store.create_log in H.
  destruct (negb _) in H; [discriminate|]. injection H as _ <-. repeat split.
Qed.

Lemma quiet_pack vs : respects quiet (pack vs).
Proof. apply respects_pack, quiet_refl. Qed.

Create HintDb quiet.
#[local] Hint Resolve quiet_upd_uart quiet_upd_env quiet_create_log quiet_pack : quiet.

Ltac quiet_leaf :=
  first [ solve [auto with quiet]
        | apply quiet_log; reflexivity
        | apply quiet_emit; reflexivity ].

Ltac quiet_tac := respects_tac quiet quiet_refl quiet_trans quiet_leaf.

Lemma quiet_send_message t p : respects quiet (send_message t p).
Proof. unfold send_message, get_next_message_id, serial_write. quiet_tac. Qed.

#[local] Hint Resolve quiet_send_message : quiet.

Lemma quiet_control_light p c t : respects quiet (control_light p c t).
Proof. unfold control_light. quiet_tac. Qed.

Lemma quiet_control_door a : respects quiet (control_door a).
Proof. unfold control_door. quiet_tac. Qed.

Lemma quiet_app_log_line t d c o : respects quiet (Audit.app_log_line t d c o).
Proof. unfold Audit.app_log_line. destruct t; apply quiet_log; reflexivity. Qed.

#[local] Hint Resolve quiet_control_light quiet_control_door quiet_app_log_line : quiet.

Lemma quiet_log_to_database t d c o : respects quiet (Audit.log_to_database t d c o).
Proof. unfold Audit.log_to_database, Audit.create_log. quiet_tac. Qed.

#[local] Hint Resolve quiet_log_to_database : quiet.

Lemma quiet_red_lights_and_block f : respects quiet (Main.red_lights_and_block f).
Proof.
  unfold Main.red_lights_and_block, set_cover_light_red, set_container_light_red,
    block_doors.
  quiet_tac.
Qed.

Lemma quiet_lights_off_and_unblock f : respects quiet (Main.lights_off_and_unblock f).
Proof.
  unfold Main.lights_off_and_unblock, turn_all_lights_off, unblock_doors. quiet_tac.
Qed.

Lemma quiet_switch_scanning v : respects quiet (Main.switch_scanning v).
Proof. unfold Main.switch_scanning. quiet_tac. Qed.

#[local] Hint Resolve quiet_red_lights_and_block quiet_lights_off_and_unblock
  quiet_switch_scanning : quiet.

Ltac split_off_quiet :=
  match goal with
  | |- context [snd (?m ?w0)] =>
      let Hq := fresh "Hq" in
      assert (Hq : respects quiet m) by (unfold Audit.log_info; quiet_tac);
      destruct (Hq w0) as (?H1 & ?H2 & ?H3 & ?H4)
  end.

Lemma enter_secure_mode_effect w :
  svc (snd (Main.enter_secure_mode w)) = svc w /\
  Store.device_status (db (snd (Main.enter_secure_mode w))) = Store.device_status (db w) /\
  device_secure_mode (app (snd (Main.enter_secure_mode w))) = true /\
  callback_calls (trace (snd (Main.enter_secure_mode w))) = callback_calls (trace w).
Proof.
  unfold Main.enter_secure_mode. rewrite bind_log_eq, bind_upd_app_eq.
  split_off_quiet. rewrite H1, H2, H3, H4. cbn.
  repeat split; try reflexivity. apply callback_calls_snoc. reflexivity.
Qed.

Lemma exit_secure_mode_effect w :
  svc (snd (Main.exit_secure_mode w)) = svc w /\
  Store.device_status (db (snd (Main.exit_secure_mode w))) = Store.device_status (db w) /\
  device_secure_mode (app (snd (Main.exit_secure_mode w))) = false /\
  callback_calls (trace (snd (Main.exit_secure_mode w))) = callback_calls (trace w).
Proof.
  unfold Main.exit_secure_mode. rewrite bind_log_eq, bind_upd_app_eq.
  split_off_quiet. rewrite H1, H2, H3, H4. cbn.
  repeat split; try reflexivity. apply callback_calls_snoc. reflexivity.
Qed.

(** One call of the callback: the mode flag of the application is set
    and the trace holds one more callback line. *)
Lemma on_secure_mode_change_effect b w :
  svc (snd (Main.on_secure_mode_change b w)) = svc w /\
  Store.device_status (db (snd (Main.on_secure_mode_change b w)))
  = Store.device_status (db w) /\
  device_secure_mode (app (snd (Main.on_secure_mode_change b w))) = b /\
  callback_calls (trace (snd (Main.on_secure_mode_change b w)))
  = S (callback_calls (trace w)).
Proof.
  unfold Main.on_secure_mode_change. rewrite bind_log_eq.
  destruct b.
  - match goal with |- context [Main.enter_secure_mode ?w0] =>
      destruct (enter_secure_mode_effect w0) as (H1 & H2 & H3 & H4) end.
    rewrite H1, H2, H3, H4. cbn. repeat split.
    unfold callback_calls. rewrite filter_app, length_app. cbn. lia.
  - match goal with |- context [Main.exit_secure_mode ?w0] =>
      destruct (exit_secure_mode_effect w0) as (H1 & H2 & H3 & H4) end.
    rewrite H1, H2, H3, H4. cbn. repeat split.
    unfold callback_calls. rewrite filter_app, length_app. cbn. lia.
Qed.

Lemma returns_red_lights_and_block f : returns (Main.red_lights_and_block f).
Proof.
  unfold Main.red_lights_and_block, set_cover_light_red, set_container_light_red,
    block_doors.
  total; (eapply returns_control_light || eapply returns_control_door); reflexivity.
Qed.

Lemma returns_lights_off_and_unblock f : returns (Main.lights_off_and_unblock f).
Proof.
  unfold Main.lights_off_and_unblock, turn_all_lights_off, unblock_doors.
  total; (eapply returns_control_light || eapply returns_control_door); reflexivity.
Qed.

Lemma returns_switch_scanning v : returns (Main.switch_scanning v).
Proof. unfold Main.switch_scanning. total. Qed.

#[local] Hint Resolve returns_red_lights_and_block returns_lights_off_and_unblock
  returns_switch_scanning : total.

Lemma returns_on_secure_mode_change b : returns (Main.on_secure_mode_change b).
Proof.
  unfold Main.on_secure_mode_change, Main.enter_secure_mode, Main.exit_secure_mode,
    Audit.log_info.
  total.
Qed.

Lemma with_safe_mode_same ds : with_safe_mode (Store.is_in_safe_mode ds) ds = ds.
Proof. destruct ds; reflexivity. Qed.

Ltac run_callback :=
  match goal with
  | |- context [Main.on_secure_mode_change ?b ?w3] =>
      let Hr := fresh "Hr" in
      let o := fresh "o" in
      let w4 := fresh "w4" in
      destruct (returns_on_secure_mode_change b w3) as [[] Hr];
      destruct (on_secure_mode_change_effect b w3) as (?E1 & ?E2 & ?E3 & ?E4);
      destruct (Main.on_secure_mode_change b w3) as [o w4];
      cbn [fst snd] in Hr, E1, E2, E3, E4; subst o
  end.

(** The secure-mode watchdog in general.  On each evaluation with a
    device status in the store, secure mode is requested exactly when
    [now - last_seen_at] exceeds two days and normal mode otherwise; the
    flag in the store ends up equal to the request (it is written when it
    differed); and the secure-mode callback is called, once, exactly when
    a callback is registered and the request differs from the request of
    the evaluation before.  On the first evaluation there is no earlier
    request and the callback is not called: with [last_seen_at] three days
    in the past the flag is persisted as true and the application is left
    as it was. *)
Theorem secure_mode_watchdog :
  forall (w : World) (ds : Store.DeviceStatus),
    Store.get_status (db w) = Some ds ->
    exists w',
      check_secure_mode w = (Ret tt, w') /\
      Store.get_status (db w')
      = Some (with_safe_mode (secure_requested (clock (env w)) ds) ds) /\
      last_secure_mode_status (svc w') = Some (secure_requested (clock (env w)) ds) /\
      (callback_fires (svc w) (secure_requested (clock (env w)) ds) = true ->
       callback_calls (trace w') = S (callback_calls (trace w)) /\
       device_secure_mode (app w') = secure_requested (clock (env w)) ds) /\
      (callback_fires (svc w) (secure_requested (clock (env w)) ds) = false ->
       callback_calls (trace w') = callback_calls (trace w) /\ app w' = app w).
Proof.
  intros w ds H. unfold check_secure_mode, callback_fires.
  assert (Hi : forall d : datetime,
             instant (if negb (tz_aware d) then mkDatetime (instant d) true else d)
             = instant d)
    by (intros [i []]; reflexivity).
  unfold try_except, bind, gets, db_query, now_utc, log, emit, modify, db_call, ret,
    upd_svc, Store.update_status.
  cbn -[Main.on_secure_mode_change Z.gtb Z.sub days SECURE_MODE_THRESHOLD]. rewrite H.
  cbn -[Main.on_secure_mode_change Z.gtb Z.sub days SECURE_MODE_THRESHOLD].
  rewrite Hi. unfold Store.get_status in H. unfold SECURE_MODE_THRESHOLD.
  fold (secure_requested (clock (env w)) ds).
  destruct (secure_requested (clock (env w)) ds) eqn:Hs;
    destruct (Store.is_in_safe_mode ds) eqn:Hst;
    cbn -[Main.on_secure_mode_change];
    destruct (last_secure_mode_status (svc w)) as [[|]|] eqn:Hl;
    destruct (secure_mode_callback (svc w)) eqn:Hc;
    cbn -[Main.on_secure_mode_change];
    try run_callback;
    cbn -[callback_calls]; eexists; (split; [reflexivity|]);
    cbn -[callback_calls]; unfold Store.get_status;
    rewrite ?E1, ?E2, ?E3, ?E4; cbn -[callback_calls]; rewrite ?H;
    rewrite ?callback_calls_snoc by reflexivity;
    (split; [try (rewrite <- Hst at 1; rewrite with_safe_mode_same); reflexivity|]);
    (split; [reflexivity|]);
    split; intros; try discriminate; split; reflexivity.
Qed.

Lemma secure_mode_watchdog_witness :
  exists w',
    check_secure_mode (Scenario.world_stale 1000) = (Ret tt, w') /\
    Store.get_status (db w')
    = Some (with_safe_mode
              (secure_requested (clock (env (Scenario.world_stale 1000)))
                 (Scenario.stale_status 1000))
              (Scenario.stale_status 1000)) /\
    last_secure_mode_status (svc w')
    = Some (secure_requested (clock (env (Scenario.world_stale 1000)))
              (Scenario.stale_status 1000)) /\
    (callback_fires (svc (Scenario.world_stale 1000))
       (secure_requested (clock (env (Scenario.world_stale 1000)))
          (Scenario.stale_status 1000)) = true ->
     callback_calls (trace w') = S (callback_calls (trace (Scenario.world_stale 1000))) /\
     device_secure_mode (app w')
     = secure_requested (clock (env (Scenario.world_stale 1000)))
         (Scenario.stale_status 1000)) /\
    (callback_fires (svc (Scenario.world_stale 1000))
       (secure_requested (clock (env (Scenario.world_stale 1000)))
          (Scenario.stale_status 1000)) = false ->
     callback_calls (trace w') = callback_calls (trace (Scenario.world_stale 1000)) /\
     app w' = app (Scenario.world_stale 1000)).
Proof.
  apply (secure_mode_watchdog (Scenario.world_stale 1000) (Scenario.stale_status 1000)).
  reflexivity.
Defined.

(** C9, at the failing input.  The backend was last seen three days
    ago, the secure-mode callback is registered and the watchdog has not
    run yet.  Its first evaluation logs that secure mode is entered and
    persists [is_in_safe_mode = true], but the callback is not called and
    the application stays out of secure mode; the evaluation after it
    finds the request unchanged and does not call the callback either. *)
Theorem first_evaluation_skips_callback :
  let start := Scenario.world_stale 1000 in
  let first := snd (check_secure_mode start) in
  let second := snd (check_secure_mode first) in
  secure_mode_callback (svc start) = true
  /\ last_secure_mode_status (svc start) = None
  /\ option_map Store.is_in_safe_mode (Store.get_status (db start)) = Some false
  /\ fst (check_secure_mode start) = Ret tt
  /\ trace first
     = [Log WARNING "Server disconnected - entering secure mode";
        Log INFO "Updated secure mode status in database: True"]
  /\ option_map Store.is_in_safe_mode (Store.get_status (db first)) = Some true
  /\ callback_calls (trace first) = 0%nat
  /\ device_secure_mode (app first) = false
  /\ last_secure_mode_status (svc first) = Some true
  /\ fst (check_secure_mode first) = Ret tt
  /\ callback_calls (trace second) = 0%nat
  /\ device_secure_mode (app second) = false.
Proof. vm_compute. repeat split; reflexivity. Qed.

(** C8, at the failing input.  The store holds an audit entry without a
    container reference and one with; the request of the regular sync
    carries only the second, the backend answers with success, and both
    entries are gone from the store afterwards: the first was deleted
    although it was never sent. *)
Theorem sync_deletes_unsent_log :
  In Scenario.system_log (Store.audit_logs (db Scenario.world_sync)) /\
  trace (snd (do_sync Scenario.world_sync))
  = [PostSync [log_to_dict Scenario.return_log]
       [container_to_dict
          (Store.mkContainer "c1" "ABCDEF" true None (mkDatetime 1700 false))];
     Log INFO "Replaced containers with new records from server";
     Log INFO "Sync complete"] /\
  Store.audit_logs (db (snd (do_sync Scenario.world_sync))) = [] /\
  option_map Store.last_sync_at (Store.get_status (db (snd (do_sync Scenario.world_sync))))
  = Some (mkDatetime 2000 true).
Proof. vm_compute. repeat split; try reflexivity. left. reflexivity. Qed.

End ServiceFacts.

(** ** Sequence engine *)

Module EngineFacts.
Import Codec Py World Link Decision Engine Scenario Observe MonadFacts LinkFacts.

(** *** Mode gates *)

Lemma is_device_inactive_gated w :
  gate_set w = true -> is_device_inactive w = (Ret true, w).
Proof.
  unfold gate_set, is_device_inactive, bind, get. intros H.
  apply andb_true_iff in H. destruct H as [-> ->]. reflexivity.
Qed.

Lemma is_device_inactive_open w :
  gate_set w = false -> is_device_inactive w = (Ret false, w).
Proof.
  unfold gate_set, is_device_inactive, bind, get. intros H. cbv beta iota.
  destruct (device_inactive_callback (uart w)); [|reflexivity].
  cbn [andb] in H. rewrite H. reflexivity.
Qed.

Lemma handle_button_press_gated r m w :
  gate_set w = true ->
  handle_button_press r m w =
  (Ret tt, appended [Log INFO "Button press received";
                     Log WARNING "Button press ignored - device is inactive"] w).
Proof.
  intros H. unfold handle_button_press, bind. rewrite log_eq.
  rewrite is_device_inactive_gated by exact H.
  rewrite log_eq, appended_app. reflexivity.
Qed.

Lemma handle_sensor_change_gated r i s st rest w :
  gate_set w = true ->
  handle_sensor_change r (mkMsg SENSOR_STATE_CHANGE i (s :: st :: rest)) w =
  (Ret tt, appended [Log INFO "Sensor change";
                     Log WARNING "Sensor change ignored - device is inactive"] w).
Proof.
  intros H. unfold handle_sensor_change, bind. cbn [payload]. rewrite log_eq.
  rewrite is_device_inactive_gated by exact H.
  rewrite log_eq, appended_app. reflexivity.
Qed.

(** C6.  With the callback of the application registered and one of the
    two mode flags set, a received BUTTON_PUSHED frame and a received
    SENSOR_STATE_CHANGE frame (whatever it reports) do not reach any
    sequence: whatever the sequences of the engine [r] would do, the
    top-level dispatcher writes the ACK for the frame, logs the event and
    the warning that it is ignored, and changes nothing else; inside
    [wait_for_ack] the same two lines are logged and the ACK is written
    after them. *)
Theorem gated_events_are_dropped (r : Rec) (w : World) (i s st : byte) (p rest : list byte) :
  serial_connection (uart w) = true ->
  gate_set w = true ->
  let button := mkMsg BUTTON_PUSHED (int_of_byte i) p in
  let sensor := mkMsg SENSOR_STATE_CHANGE (int_of_byte i) (s :: st :: rest) in
  process_message r button w =
    (Ret tt, appended [Write (ack_for x06 i);
                       Log INFO "Button press received";
                       Log WARNING "Button press ignored - device is inactive"] w)
  /\ process_message r sensor w =
    (Ret tt, appended [Write (ack_for x02 i);
                       Log INFO "Sensor change";
                       Log WARNING "Sensor change ignored - device is inactive"] w)
  /\ wait_for_ack_dispatch r button w =
    (Ret tt, appended [Log INFO "Button press received";
                       Log WARNING "Button press ignored - device is inactive";
                       Write (ack_for x06 i)] w)
  /\ wait_for_ack_dispatch r sensor w =
    (Ret tt, appended [Log INFO "Sensor change";
                       Log WARNING "Sensor change ignored - device is inactive";
                       Write (ack_for x02 i)] w).
Proof.
  intros Hc Hg button sensor. subst button sensor.
  repeat split.
  - unfold process_message, try_except, bind. cbn [msg_type].
    change (BUTTON_PUSHED =? ACK) with false.
    change (BUTTON_PUSHED =? BUTTON_PUSHED) with true. cbn [negb].
    rewrite (send_ack_eq x06 i BUTTON_PUSHED p w eq_refl Hc). cbn [negb]. unfold ret at 1.
    rewrite handle_button_press_gated by exact Hg.
    rewrite appended_app. reflexivity.
  - unfold process_message, try_except, bind. cbn [msg_type].
    change (SENSOR_STATE_CHANGE =? ACK) with false.
    change (SENSOR_STATE_CHANGE =? BUTTON_PUSHED) with false.
    change (SENSOR_STATE_CHANGE =? SENSOR_STATE_CHANGE) with true. cbn [negb].
    rewrite (send_ack_eq x02 i SENSOR_STATE_CHANGE _ w eq_refl Hc). cbn [negb]. unfold ret at 1.
    rewrite handle_sensor_change_gated by exact Hg.
    rewrite appended_app. reflexivity.
  - unfold wait_for_ack_dispatch, bind. cbn [msg_type].
    change (BUTTON_PUSHED =? ACK) with false.
    change (BUTTON_PUSHED =? SENSOR_STATE_CHANGE) with false.
    change (BUTTON_PUSHED =? BUTTON_PUSHED) with true. cbv beta iota.
    rewrite handle_button_press_gated by exact Hg.
    rewrite (send_ack_eq x06 i BUTTON_PUSHED) by (reflexivity || exact Hc). rewrite appended_app. reflexivity.
  - unfold wait_for_ack_dispatch, bind. cbn [msg_type].
    change (SENSOR_STATE_CHANGE =? ACK) with false.
    change (SENSOR_STATE_CHANGE =? SENSOR_STATE_CHANGE) with true. cbv beta iota.
    rewrite handle_sensor_change_gated by exact Hg.
    rewrite (send_ack_eq x02 i SENSOR_STATE_CHANGE) by (reflexivity || exact Hc). rewrite appended_app. reflexivity.
Qed.

Lemma gated_events_are_dropped_witness :
  (serial_connection (uart (world_gated 0 [])) = true /\ gate_set (world_gated 0 []) = true)
  /\ process_message (engine 3) (mkMsg BUTTON_PUSHED 5 []) (world_gated 0 []) =
     (Ret tt, appended [Write (ack_for x06 x05);
                        Log INFO "Button press received";
                        Log WARNING "Button press ignored - device is inactive"]
                (world_gated 0 [])).
Proof.
  split; [split; reflexivity|].
  exact (proj1 (gated_events_are_dropped (engine 3) (world_gated 0 []) x05 x00 x01 [] []
                  eq_refl eq_refl)).
Defined.

(** *** Waiting for an ACK *)

Lemma wait_for_ack_loop_silent n : forall fuel w start timeout,
  (n <= fuel)%nat ->
  serial_connection (uart w) = true -> waiting_for_ack (uart w) = true ->
  rx (env w) = [] ->
  clock (env w) - start = timeout - Z.of_nat n * 100000 ->
  wait_for_ack_loop (engine fuel) start timeout w
  = (Ret tt, advance (Z.of_nat n * 100000) w).
Proof.
  induction n as [|n IH]; intros fuel w start timeout Hf Hc Hw Hrx Ht.
  - unfold wait_for_ack_loop, time_time, bind, gets. cbv beta iota. rewrite Hw.
    replace (clock (env w) - start <? timeout) with false
      by (symmetry; apply Z.ltb_ge; lia).
    cbn [andb Z.of_nat Z.mul]. rewrite advance_0. reflexivity.
  - destruct fuel as [|fuel]; [lia|].
    unfold wait_for_ack_loop at 1. unfold time_time, bind, gets. cbv beta iota. rewrite Hw.
    replace (clock (env w) - start <? timeout) with true
      by (symmetry; apply Z.ltb_lt; lia).
    cbn [andb]. rewrite receive_messages_silent by assumption.
    cbn [for_each]. unfold ret at 1.
    change (sleep 100000 w) with (Ret tt, advance 100000 w).
    cbn [engine r_wait_for_ack_loop].
    rewrite IH; [|lia|exact Hc|exact Hw|exact Hrx|].
    + rewrite advance_advance. do 2 f_equal. lia.
    + cbn [advance env set_env clock set_clock]. lia.
Qed.

Lemma wait_for_ack_silent fuel w :
  (50 <= fuel)%nat ->
  serial_connection (uart w) = true -> rx (env w) = [] ->
  wait_for_ack (engine fuel) five_seconds w
  = (Ret false, advance five_seconds (with_ack_state None true w)).
Proof.
  intros Hf Hc Hrx. unfold wait_for_ack, bind.
  change (upd_uart (set_ack_state None true) w) with (Ret tt, with_ack_state None true w).
  cbv beta iota. unfold time_time at 1, gets at 1.
  rewrite (wait_for_ack_loop_silent 50); [reflexivity|exact Hf|exact Hc|reflexivity|exact Hrx|].
  unfold five_seconds, seconds. lia.
Qed.

Lemma wait_for_ack_acked fuel timeout w rest :
  (1 <= fuel)%nat -> 0 < timeout ->
  serial_connection (uart w) = true -> rx (env w) = ack_frame :: rest ->
  wait_for_ack (engine fuel) timeout w
  = (Ret true, advance 100000 (with_rx rest (with_ack_state (Some 0) false w))).
Proof.
  intros Hf Ht Hc Hrx. destruct fuel as [|fuel]; [lia|].
  unfold wait_for_ack, bind.
  change (upd_uart (set_ack_state None true) w) with (Ret tt, with_ack_state None true w).
  cbv beta iota. unfold time_time at 1, gets at 1.
  unfold wait_for_ack_loop at 1. unfold time_time, bind, gets. cbv beta iota.
  cbn [with_ack_state uart set_uart waiting_for_ack set_ack_state env andb].
  rewrite Z.sub_diag. replace (0 <? timeout) with true by (symmetry; apply Z.ltb_lt; lia).
  rewrite (receive_messages_ack _ rest) by assumption.
  reflexivity.
Qed.

(** One step of SEQ1 on a connected link. *)
Ltac seq1_step :=
  first
    [ rewrite log_eq
    | rewrite sleep_eq
    | rewrite (control_door_eq DoorAction_UNBLOCK x01) by reflexivity
    | rewrite (control_door_eq DoorAction_BLOCK x00) by reflexivity
    | rewrite (control_light_eq LightPosition_COVER LightColor_WHITE_ON LightType_STEADY
                 x01 x00 x00) by reflexivity
    | rewrite (control_light_eq LightPosition_CONTAINER LightColor_WHITE_ON LightType_STEADY
                 x00 x00 x00) by reflexivity
    | erewrite wait_for_ack_acked
        by first [lia | reflexivity ]
    | rewrite wait_for_ack_silent by first [lia | reflexivity] ];
  cbv beta iota; cbn [negb].

(** SEQ1 in front of a microcontroller that acknowledges the first [k]
    commands (k < 4) and then stays silent. *)
Lemma seq1_silence_after_acks (k fuel : nat) (w : World) :
  (k < 4)%nat -> (50 <= fuel)%nat ->
  serial_connection (uart w) = true ->
  rx (env w) = repeat ack_frame k ->
  let run := execute_sequence_1 (engine fuel) w in
  let appended_events :=
    Log INFO "Starting SEQ1: Button Press Activation"
    :: command_frames (message_id_counter (uart w)) (firstn (S k) seq1_commands)
    ++ [Log ERROR (nth k seq1_timeouts ""%string)] in
  fst run = Ret false
  /\ trace (snd run) = trace w ++ appended_events
  /\ existsb red_light_command appended_events = false
  /\ seq1_lights_active (uart (snd run)) = seq1_lights_active (uart w)
  /\ clock (env (snd run))
     = clock (env w) + Z.of_nat k * 100000 + (if Nat.eqb k 0 then 0 else seconds 1)
       + five_seconds.
Proof.
  intros Hk Hf Hc Hrx.
  destruct w as [u a s d e t]. destruct e as [clk rxs v1 v2 v3].
  destruct u. cbn in Hc, Hrx. subst.
  unfold execute_sequence_1, unblock_doors, block_doors, set_cover_light_white,
    set_container_light_white, try_except, bind.
  destruct k as [|[|[|[|k]]]]; [| | | |lia]; cbn [repeat];
    repeat seq1_step; unfold ret; cbn [fst snd];
    (split; [reflexivity|]); (split; [|split; [reflexivity|split; [reflexivity|]]]).
  all: cbn [trace appended sent advance with_ack_state with_rx set_trace set_uart set_env
            set_clock clock env uart message_id_counter set_message_id_counter
            set_ack_state next_id firstn seq1_commands seq1_timeouts nth command_frames
            Nat.eqb Z.of_nat Pos.of_succ_nat Pos.succ Z.mul Pos.mul Pos.add app].
  all: rewrite <- ?app_assoc; try reflexivity.
  all: unfold five_seconds, seconds; cbn [clock set_rx set_clock]; lia.
Qed.

(** How SEQ1 goes through its command steps, whatever the engine [r]
    does while it waits. *)
Ltac seq1_go :=
  first
    [ rewrite log_eq
    | rewrite sleep_eq
    | rewrite (control_door_eq DoorAction_UNBLOCK x01) by (reflexivity || assumption)
    | rewrite (control_door_eq DoorAction_BLOCK x00) by (reflexivity || assumption)
    | rewrite (control_light_eq LightPosition_COVER LightColor_WHITE_ON LightType_STEADY
                 x01 x00 x00) by (reflexivity || assumption)
    | rewrite (control_light_eq LightPosition_CONTAINER LightColor_WHITE_ON LightType_STEADY
                 x00 x00 x00) by (reflexivity || assumption)
    | match goal with H : wait_for_ack _ _ _ = _ |- _ => rewrite H end ];
  cbv beta iota; cbn [negb].

(** C7, amended.  Each of the four command steps of SEQ1 sends its
    command and waits for an ACK with the 5-second timeout, and a wait
    that ends without an ACK aborts the sequence at that step, whatever
    arrived and was handled during the waits: SEQ1 logs the timeout line
    of the step and returns failure, and the state is otherwise the one
    the wait left, so that after the timeout no command is sent, no
    red-light command in particular, and the record of the SEQ1 lights
    is not touched.  A wait during which nothing arrives ends without an
    ACK after exactly five seconds; so when the microcontroller
    acknowledges the first [k] commands (k < 4) and then stays silent,
    exactly the first [k + 1] commands are written, then the timeout
    line, and no red-light command. *)
Theorem seq1_timeout_aborts (r : Rec) (w : World) :
  let started := appended [Log INFO "Starting SEQ1: Button Press Activation"] w in
  let step (ty : byte) (p : list byte) (before after : World) (acked : bool) : Prop :=
    serial_connection (uart before) = true
    /\ wait_for_ack r five_seconds (sent ty p before) = (Ret acked, after) in
  let aborted (line : string) (after : World) : Prop :=
    execute_sequence_1 r w = (Ret false, appended [Log ERROR line] after) in
  (forall w1,
     step x08 [x01] started w1 false ->
     aborted "Timeout waiting for ACK for unblock doors command"%string w1)
  /\ (forall w1 w2,
        step x08 [x01] started w1 true ->
        step x08 [x00] (advance (seconds 1) w1) w2 false ->
        aborted "Timeout waiting for ACK for block doors command"%string w2)
  /\ (forall w1 w2 w3,
        step x08 [x01] started w1 true ->
        step x08 [x00] (advance (seconds 1) w1) w2 true ->
        step x05 [x01; x00; x00] w2 w3 false ->
        aborted "Timeout waiting for ACK for COVER light command"%string w3)
  /\ (forall w1 w2 w3 w4,
        step x08 [x01] started w1 true ->
        step x08 [x00] (advance (seconds 1) w1) w2 true ->
        step x05 [x01; x00; x00] w2 w3 true ->
        step x05 [x00; x00; x00] w3 w4 false ->
        aborted "Timeout waiting for ACK for CONTAINER light command"%string w4)
  /\ (forall (fuel : nat) (w0 : World),
        (50 <= fuel)%nat ->
        serial_connection (uart w0) = true -> rx (env w0) = [] ->
        wait_for_ack (engine fuel) five_seconds w0
        = (Ret false, advance five_seconds (with_ack_state None true w0)))
  /\ (forall (k fuel : nat) (w0 : World),
        (k < 4)%nat -> (50 <= fuel)%nat ->
        serial_connection (uart w0) = true ->
        rx (env w0) = repeat ack_frame k ->
        let run := execute_sequence_1 (engine fuel) w0 in
        let appended_events :=
          Log INFO "Starting SEQ1: Button Press Activation"
          :: command_frames (message_id_counter (uart w0)) (firstn (S k) seq1_commands)
          ++ [Log ERROR (nth k seq1_timeouts ""%string)] in
        fst run = Ret false
        /\ trace (snd run) = trace w0 ++ appended_events
        /\ existsb red_light_command appended_events = false
        /\ seq1_lights_active (uart (snd run)) = seq1_lights_active (uart w0)
        /\ clock (env (snd run))
           = clock (env w0) + Z.of_nat k * 100000 + (if Nat.eqb k 0 then 0 else seconds 1)
             + five_seconds).
Proof.
  intros started step aborted. subst started step aborted. cbv beta.
  split; [|split; [|split; [|split; [|split]]]].
  - intros w1 [Hc1 H1].
    unfold execute_sequence_1, unblock_doors, block_doors, set_cover_light_white,
      set_container_light_white, try_except, bind.
    repeat seq1_go. reflexivity.
  - intros w1 w2 [Hc1 H1] [Hc2 H2].
    unfold execute_sequence_1, unblock_doors, block_doors, set_cover_light_white,
      set_container_light_white, try_except, bind.
    repeat seq1_go. reflexivity.
  - intros w1 w2 w3 [Hc1 H1] [Hc2 H2] [Hc3 H3].
    unfold execute_sequence_1, unblock_doors, block_doors, set_cover_light_white,
      set_container_light_white, try_except, bind.
    repeat seq1_go. reflexivity.
  - intros w1 w2 w3 w4 [Hc1 H1] [Hc2 H2] [Hc3 H3] [Hc4 H4].
    unfold execute_sequence_1, unblock_doors, block_doors, set_cover_light_white,
      set_container_light_white, try_except, bind.
    repeat seq1_go. reflexivity.
  - intros fuel w0 Hf Hc Hrx. apply wait_for_ack_silent; assumption.
  - intros k fuel w0 Hk Hf Hc Hrx. exact (seq1_silence_after_acks k fuel w0 Hk Hf Hc Hrx).
Qed.

Lemma seq1_timeout_aborts_witness :
  let w := world0 0 [ack_frame] in
  let started := appended [Log INFO "Starting SEQ1: Button Press Activation"] w in
  let w1 := advance 100000 (with_rx [] (with_ack_state (Some 0) false (sent x08 [x01] started))) in
  let w2 := advance five_seconds
              (with_ack_state None true (sent x08 [x00] (advance (seconds 1) w1))) in
  (serial_connection (uart started) = true
   /\ wait_for_ack (engine 60) five_seconds (sent x08 [x01] started) = (Ret true, w1)
   /\ serial_connection (uart (advance (seconds 1) w1)) = true
   /\ wait_for_ack (engine 60) five_seconds (sent x08 [x00] (advance (seconds 1) w1))
      = (Ret false, w2))
  /\ execute_sequence_1 (engine 60) w
     = (Ret false,
        appended [Log ERROR "Timeout waiting for ACK for block doors command"] w2)
  /\ clock (env w2) = 100000 + seconds 1 + five_seconds.
Proof.
  intros w started w1 w2.
  assert (Hf : (1 <= 60)%nat) by lia.
  assert (Ht : 0 < five_seconds) by reflexivity.
  assert (Hg : (50 <= 60)%nat) by lia.
  assert (S1 : wait_for_ack (engine 60) five_seconds (sent x08 [x01] started) = (Ret true, w1))
    by (apply (wait_for_ack_acked 60 five_seconds _ [] Hf Ht); reflexivity).
  assert (S2 : wait_for_ack (engine 60) five_seconds (sent x08 [x00] (advance (seconds 1) w1))
               = (Ret false, w2))
    by (apply (wait_for_ack_silent 60 _ Hg); reflexivity).
  split; [repeat split; (exact S1 || exact S2 || reflexivity)|].
  split; [|reflexivity].
  exact (proj1 (proj2 (seq1_timeout_aborts (engine 60) w)) w1 w2
           (conj eq_refl S1) (conj eq_refl S2)).
Defined.

(** C7 as stated fails: when the first command of SEQ1 is never
    acknowledged, the sequence ends after five seconds with the door
    command as the only frame written; the container light is not set
    red. *)
Lemma seq1_timeout_counterexample :
  let run := execute_sequence_1 (engine 60) (world0 0 []) in
  fst run = Ret false
  /\ trace (snd run) =
     [Log INFO "Starting SEQ1: Button Press Activation";
      Write (command_frame x08 1 [x01]);
      Log ERROR "Timeout waiting for ACK for unblock doors command"]
  /\ existsb red_light_command (trace (snd run)) = false
  /\ clock (env (snd run)) = five_seconds.
Proof. vm_compute. repeat split. Qed.

(** *** Automatic sequences stay out of the ACK wait *)

Lemma calm_refl w : calm w w.
Proof. exists []. split; [symmetry; apply app_nil_r|reflexivity]. Qed.

Lemma calm_trans a b c : calm a b -> calm b c -> calm a c.
Proof.
  intros [es1 [H1 F1]] [es2 [H2 F2]]. exists (es1 ++ es2). split.
  - rewrite H2, H1, app_assoc. reflexivity.
  - rewrite existsb_app, F1, F2. reflexivity.
Qed.

Lemma calm_same_trace w w' : trace w' = trace w -> calm w w'.
Proof. intros H. exists []. split; [rewrite app_nil_r; exact H|reflexivity]. Qed.

Lemma calm_emit e : automatic_line e = false -> respects calm (emit e).
Proof. intros H w. exists [e]. split; [reflexivity|]. cbn. rewrite H. reflexivity. Qed.

Lemma calm_log lvl msg : automatic_line (Log lvl msg) = false -> respects calm (log lvl msg).
Proof. apply calm_emit. Qed.

Lemma calm_upd_uart f : respects calm (upd_uart f).
Proof. intros w. apply calm_same_trace. reflexivity. Qed.

Lemma calm_upd_env f : respects calm (upd_env f).
Proof. intros w. apply calm_same_trace. reflexivity. Qed.

Lemma calm_sleep d : respects calm (sleep d).
Proof. apply calm_upd_env. Qed.

Lemma calm_db_call {A} (f : Store.DB -> Store.db_result A) : respects calm (db_call f).
Proof.
  apply (respects_db_call calm calm_refl). intros w a d _.
  apply calm_same_trace. reflexivity.
Qed.

Lemma calm_pack vs : respects calm (pack vs).
Proof. apply respects_pack, calm_refl. Qed.

Create HintDb calm.
#[local] Hint Resolve calm_upd_uart calm_upd_env calm_sleep calm_db_call calm_pack : calm.

Ltac calm_leaf :=
  first [ solve [auto with calm]
        | apply calm_log; reflexivity
        | apply calm_emit; reflexivity ].

Ltac calm_tac := respects_tac calm calm_refl calm_trans calm_leaf.

Lemma calm_send_message t p : respects calm (send_message t p).
Proof. unfold send_message, get_next_message_id, serial_write. calm_tac. Qed.

Lemma calm_send_ack m : respects calm (send_ack m).
Proof. unfold send_ack, serial_write. calm_tac. Qed.

Lemma calm_receive_messages : respects calm receive_messages.
Proof. unfold receive_messages, serial_read. calm_tac. Qed.

#[local] Hint Resolve calm_send_message calm_send_ack calm_receive_messages : calm.

Lemma calm_control_light p c t : respects calm (control_light p c t).
Proof. unfold control_light. calm_tac. Qed.

Lemma calm_control_door a : respects calm (control_door a).
Proof. unfold control_door. calm_tac. Qed.

#[local] Hint Resolve calm_control_light calm_control_door : calm.

Lemma calm_set_error_state : respects calm set_error_state.
Proof. unfold set_error_state, set_container_light_red. calm_tac. Qed.

Lemma calm_is_device_inactive : respects calm is_device_inactive.
Proof. unfold is_device_inactive. calm_tac. Qed.

Lemma calm_handle_ack m : respects calm (handle_ack m).
Proof. unfold handle_ack. calm_tac. Qed.

Lemma calm_handle_qr_scan q : respects calm (handle_qr_scan q).
Proof. unfold handle_qr_scan. calm_tac. Qed.

#[local] Hint Resolve calm_set_error_state calm_is_device_inactive calm_handle_ack
  calm_handle_qr_scan : calm.

Lemma calm_handle_error_message m : respects calm (handle_error_message m).
Proof. unfold handle_error_message. calm_tac. Qed.

Lemma calm_app_log_line t d c o : respects calm (Audit.app_log_line t d c o).
Proof. unfold Audit.app_log_line. apply calm_log. reflexivity. Qed.

#[local] Hint Resolve calm_handle_error_message calm_app_log_line : calm.

Lemma calm_log_to_database t d c o : respects calm (Audit.log_to_database t d c o).
Proof. unfold Audit.log_to_database, Audit.create_log. calm_tac. Qed.

#[local] Hint Resolve calm_log_to_database : calm.

Lemma calm_validate_with_server q : respects calm (validate_with_server q).
Proof. unfold validate_with_server, api_validate_container. calm_tac. Qed.

Lemma calm_update_local_container q c d : respects calm (update_local_container q c d).
Proof. unfold update_local_container. calm_tac. Qed.

#[local] Hint Resolve calm_validate_with_server calm_update_local_container : calm.

Lemma calm_handle_server_response q r : respects calm (handle_server_response q r).
Proof.
  unfold handle_server_response, Audit.log_return_invalid, Audit.log_return_valid.
  calm_tac.
Qed.

Lemma calm_handle_offline_fallback q : respects calm (handle_offline_fallback q).
Proof.
  unfold handle_offline_fallback, Audit.log_return_invalid, Audit.log_return_valid.
  calm_tac.
Qed.

#[local] Hint Resolve calm_handle_server_response calm_handle_offline_fallback : calm.

Lemma calm_validate_container_qr q : respects calm (validate_container_qr q).
Proof.
  unfold validate_container_qr, Audit.log_security_event, Audit.log_error.
  calm_tac.
Qed.

#[local] Hint Resolve calm_validate_container_qr : calm.

Section CalmBodies.
Variable r : Rec.
Hypothesis Hr : calm_rec r.

Lemma calm_r_wait_for_ack_loop s t : respects calm (r_wait_for_ack_loop r s t).
Proof. apply Hr. Qed.

Lemma calm_r_qr_wait_loop t : respects calm (r_qr_wait_loop r t).
Proof. apply Hr. Qed.

Lemma calm_r_execute_sequence_1 : respects calm (r_execute_sequence_1 r).
Proof. apply Hr. Qed.

Lemma calm_r_execute_sequence_2 : respects calm (r_execute_sequence_2 r).
Proof. apply Hr. Qed.

Lemma calm_r_execute_sequence_3 : respects calm (r_execute_sequence_3 r).
Proof. apply Hr. Qed.

#[local] Hint Resolve calm_r_wait_for_ack_loop calm_r_qr_wait_loop calm_r_execute_sequence_1
  calm_r_execute_sequence_2 calm_r_execute_sequence_3 : calm.

Lemma calm_handle_button_press m : respects calm (handle_button_press r m).
Proof. unfold handle_button_press. calm_tac. Qed.

Lemma calm_handle_sensor_change m : respects calm (handle_sensor_change r m).
Proof. unfold handle_sensor_change. calm_tac. Qed.

#[local] Hint Resolve calm_handle_button_press calm_handle_sensor_change : calm.

Lemma calm_wait_for_ack_dispatch m : respects calm (wait_for_ack_dispatch r m).
Proof. unfold wait_for_ack_dispatch. calm_tac. Qed.

#[local] Hint Resolve calm_wait_for_ack_dispatch : calm.

Lemma calm_wait_for_ack_loop s t : respects calm (wait_for_ack_loop r s t).
Proof. unfold wait_for_ack_loop. calm_tac. Qed.

#[local] Hint Resolve calm_wait_for_ack_loop : calm.

Lemma calm_wait_for_ack t : respects calm (wait_for_ack r t).
Proof. unfold wait_for_ack. calm_tac. Qed.

#[local] Hint Resolve calm_wait_for_ack : calm.

Lemma calm_execute_sequence_1 : respects calm (execute_sequence_1 r).
Proof.
  unfold execute_sequence_1, unblock_doors, block_doors, set_cover_light_white,
    set_container_light_white.
  calm_tac.
Qed.

Lemma calm_clear_seq1_lights : respects calm clear_seq1_lights.
Proof. unfold clear_seq1_lights. calm_tac. Qed.

#[local] Hint Resolve calm_clear_seq1_lights : calm.

Lemma calm_execute_sequence_2 : respects calm (execute_sequence_2 r).
Proof. unfold execute_sequence_2, set_cover_light_green. calm_tac. Qed.

Lemma calm_handle_seq3_valid_qr : respects calm (handle_seq3_valid_qr r).
Proof. unfold handle_seq3_valid_qr, set_container_light_green. calm_tac. Qed.

Lemma calm_handle_seq3_invalid_qr reason : respects calm (handle_seq3_invalid_qr r reason).
Proof. unfold handle_seq3_invalid_qr, set_container_light_red. calm_tac. Qed.

#[local] Hint Resolve calm_handle_seq3_valid_qr calm_handle_seq3_invalid_qr : calm.

Lemma calm_qr_wait_loop t : respects calm (qr_wait_loop r t).
Proof. unfold qr_wait_loop. calm_tac. Qed.

#[local] Hint Resolve calm_qr_wait_loop : calm.

Lemma calm_execute_sequence_3 : respects calm (execute_sequence_3 r).
Proof. unfold execute_sequence_3. calm_tac. Qed.

End CalmBodies.

Lemma calm_engine fuel : calm_rec (engine fuel).
Proof.
  induction fuel as [|fuel IH].
  - repeat split; intros; apply (respects_out_of_fuel calm calm_refl).
  - cbn [engine]. repeat split; intros; cbn.
    + apply calm_wait_for_ack_loop, IH.
    + apply calm_qr_wait_loop, IH.
    + apply calm_execute_sequence_1, IH.
    + apply calm_execute_sequence_2, IH.
    + apply calm_execute_sequence_3, IH.
Qed.




(** C1, at the failing input.  An ERROR_MSG frame (id 5) that arrives
    during [wait_for_ack] is acknowledged after its handler has written
    the red-light command, where the top-level dispatcher acknowledges
    the same frame first; and a BUTTON_PUSHED frame that arrives during
    [wait_for_ack] is acknowledged after the whole run of SEQ1. *)
Theorem ack_follows_handling_in_wait :
  let inside := wait_for_ack (engine 60) five_seconds (world0 0 [error_frame 5; ack_frame]) in
  let top := process_messages (engine 60) (world0 0 [error_frame 5]) in
  let nested := wait_for_ack (engine 60) five_seconds (world0 0 [button_frame 5]) in
  fst inside = Ret true
  /\ trace (snd inside) =
     [Log ERROR "Hardware error from micro";
      Write (command_frame x05 1 [x00; x01; x00]);
      Write (ack_for x07 x05)]
  /\ trace (snd top) =
     [Write (ack_for x07 x05);
      Log ERROR "Hardware error from micro";
      Write (command_frame x05 1 [x00; x01; x00])]
  /\ trace (snd nested) =
     [Log INFO "Button press received";
      Log INFO "Triggering SEQ1";
      Log INFO "Starting SEQ1: Button Press Activation";
      Write (command_frame x08 1 [x01]);
      Log ERROR "Timeout waiting for ACK for unblock doors command";
      Write (ack_for x06 x05)].
Proof. vm_compute. repeat split. Qed.

End EngineFacts.

(** ** Frames on the line: decoding and reading *)

Module FrameFacts.
Import Codec Py World Link Engine Observe Scenario CodecFacts MonadFacts LinkFacts.

Lemma byte_eqb_true (a b : byte) : Byte.eqb a b = true -> a = b.
Proof. apply Byte.byte_dec_bl. Qed.

Lemma int_of_byte_range (b : byte) : 0 <= int_of_byte b < 256.
Proof. unfold int_of_byte. pose proof (Byte.to_N_bounded b). lia. Qed.

(** A frame the decoder accepts has the layout the encoder writes. *)
Lemma decode_frame_shape (f : list byte) (m : UARTMessage) :
  decode_frame f = Some m ->
  exists t i l,
    f = [START_BYTE; t; i; l] ++ payload m ++ [END_BYTE]
    /\ msg_type m = int_of_byte t /\ msg_id m = int_of_byte i
    /\ int_of_byte l = Z.of_nat (length (payload m))
    /\ is_message_type (msg_type m) = true.
Proof.
  unfold decode_frame. destruct (validate_frame f) eqn:V; [|discriminate]. cbn [negb].
  unfold validate_frame in V.
  destruct (Z.of_nat (length f) <? 5) eqn:E5; [discriminate|].
  apply Z.ltb_ge in E5.
  destruct f as [|b0 [|t [|i [|l rest]]]]; cbn [length] in E5; try lia.
  cbn [nth_error] in *.
  destruct (Byte.eqb b0 START_BYTE) eqn:Eb; [|discriminate]. cbn [negb] in V.
  destruct (Byte.eqb (last (b0 :: t :: i :: l :: rest) x00) END_BYTE) eqn:Ee; [|discriminate].
  cbn [negb] in V.
  destruct (Z.of_nat (length (b0 :: t :: i :: l :: rest)) =? 5 + int_of_byte l) eqn:El;
    [|discriminate].
  apply Z.eqb_eq in El. apply byte_eqb_true in Eb, Ee. subst b0.
  destruct (is_message_type (int_of_byte t)) eqn:Et; [|discriminate].
  intros H. cbv zeta in H. injection H as <-. cbn [payload msg_type msg_id].
  cbn [length] in El.
  assert (Hrest : rest <> []) by (intros ->; cbn in *; lia).
  destruct (exists_last Hrest) as [p [e ->]].
  change (START_BYTE :: t :: i :: l :: p ++ [e])
    with (([START_BYTE; t; i; l] ++ p) ++ [e]) in Ee.
  rewrite last_last in Ee. subst e.
  rewrite length_app in El. cbn [length] in El.
  assert (Hl : int_of_byte l = Z.of_nat (length p)) by (rewrite !Nat2Z.inj_succ, Nat2Z.inj_add in El; change (Z.of_nat 1) with 1 in El; lia).
  assert (Hp : (if int_of_byte l >? 0
                then firstn (Z.to_nat (int_of_byte l)) (p ++ [END_BYTE])
                else []) = p).
  { rewrite Hl.
    destruct (Z.of_nat (length p) >? 0) eqn:Eg.
    - rewrite Nat2Z.id, firstn_app, Nat.sub_diag, firstn_all. cbn. apply app_nil_r.
    - destruct p; [reflexivity|]. rewrite Z.gtb_ltb in Eg. apply Z.ltb_ge in Eg. cbn [length] in Eg. lia. }
  rewrite Hp. exists t, i, l. repeat split; auto. 
Qed.

(** X1. A frame the decoder accepts starts with 0x7B, ends with 0x7D,
    is five bytes longer than its payload, carries at most 255 payload
    bytes and a known message type, and an id below 256.  Encoding the
    decoded message gives the frame back exactly when the id is at most
    99: the decoder takes the ids 100 to 255, which the encoder
    refuses. *)
Theorem decode_frame_sound (f : list byte) (m : UARTMessage) :
  decode_frame f = Some m ->
  hd_error f = Some x7b /\ last f x00 = x7d
  /\ Z.of_nat (length f) = 5 + payload_length m
  /\ payload_length m <= 255
  /\ is_message_type (msg_type m) = true
  /\ 0 <= msg_id m < 256
  /\ (encode_message m = Some f <-> msg_id m <= 99).
Proof.
  intros H. destruct (decode_frame_shape f m H) as (t & i & l & -> & Ht & Hi & Hl & Hty).
  pose proof (int_of_byte_range i) as Ri. pose proof (int_of_byte_range l) as Rl.
  split; [reflexivity|].
  split; [rewrite (app_assoc _ (payload m)); apply last_last|].
  split; [rewrite encoded_length; reflexivity|].
  split; [unfold payload_length; lia|].
  split; [exact Hty|]. split; [lia|].
  split.
  - intros He. unfold encode_message in He.
    destruct (validate_message m) eqn:V; [|discriminate].
    apply validate_message_inv in V. lia.
  - intros Hle.
    assert (V : validate_message m = true).
    { unfold validate_message.
      replace ((0 <=? msg_id m) && (msg_id m <=? 99)) with true
        by (symmetry; apply andb_true_iff; split; [apply Z.leb_le|apply Z.leb_le]; lia).
      cbn [negb]. unfold payload_length.
      replace (Z.of_nat (length (payload m)) >? 255) with false
        by (symmetry; rewrite Z.gtb_ltb; apply Z.ltb_ge; lia).
      rewrite Hty. reflexivity. }
    unfold encode_message. rewrite V. cbn [negb].
    unfold payload_length. rewrite Ht, Hi, <- Hl, !byte_of_int_of_byte. reflexivity.
Qed.

Lemma decode_frame_sound_witness :
  decode_frame scenario_frame = Some scenario_message
  /\ encode_message scenario_message = Some scenario_frame.
Proof.
  split; [reflexivity|].
  apply (proj2 (proj2 (proj2 (proj2 (proj2 (proj2
           (decode_frame_sound scenario_frame scenario_message eq_refl))))))).
  vm_compute. discriminate.
Defined.

Lemma extract_frames_nil n : extract_frames n [] = [].
Proof. destruct n; reflexivity. Qed.

Lemma extract_frames_fuel : forall n m data,
  (length data <= n)%nat -> (length data <= m)%nat ->
  extract_frames n data = extract_frames m data.
Proof.
  induction n as [|n IH]; intros m data Hn Hm.
  - destruct data; [|cbn in Hn; lia]. rewrite !extract_frames_nil. reflexivity.
  - destruct m as [|m].
    + destruct data; [|cbn in Hm; lia]. reflexivity.
    + destruct data as [|b rest]; [reflexivity|].
      cbn [extract_frames].
      destruct (Byte.eqb b START_BYTE && Nat.ltb 4 (length (b :: rest))) eqn:E.
      * set (fl := Z.to_nat (5 + int_of_byte (nth 3 (b :: rest) x00))).
        assert (Hfl : (5 <= fl)%nat) by (pose proof (int_of_byte_range (nth 3 (b :: rest) x00)); lia).
        destruct (Nat.leb fl (length (b :: rest))) eqn:El; [|reflexivity].
        apply Nat.leb_le in El.
        assert (Hs : (length (skipn fl (b :: rest)) <= n)%nat /\ (length (skipn fl (b :: rest)) <= m)%nat).
        { rewrite length_skipn. cbn [length] in *. lia. }
        rewrite (IH m _ (proj1 Hs) (proj2 Hs)). reflexivity.
      * apply IH; cbn [length] in *; lia.
Qed.

Lemma extract_frames_frame (f rest : list byte) (m : UARTMessage) (n : nat) :
  decode_frame f = Some m -> (length (f ++ rest) <= n)%nat ->
  extract_frames n (f ++ rest) = Decoded m :: extract_frames (length rest) rest.
Proof.
  intros Hd Hn.
  destruct (decode_frame_shape f m Hd) as (t & i & l & Hf & _ & _ & Hl & _).
  assert (Hlen : length f = Z.to_nat (5 + int_of_byte l)).
  { rewrite Hf, !length_app. cbn [length]. lia. }
  destruct n as [|n]; [rewrite Hf in Hn; cbn in Hn; lia|].
  assert (Hcons : f ++ rest = START_BYTE :: t :: i :: l :: (payload m ++ [END_BYTE]) ++ rest)
    by (rewrite Hf; reflexivity).
  rewrite Hcons at 1. cbn [extract_frames].
  change (Byte.eqb START_BYTE START_BYTE) with true.
  replace (Nat.ltb 4 (length (START_BYTE :: t :: i :: l :: (payload m ++ [END_BYTE]) ++ rest)))
    with true
    by (symmetry; apply Nat.ltb_lt; cbn [length]; rewrite !length_app; cbn [length]; lia).
  cbn [andb nth]. rewrite <- Hlen, <- Hcons.
  replace (Nat.leb (length f) (length (f ++ rest))) with true
    by (symmetry; apply Nat.leb_le; rewrite length_app; lia).
  rewrite firstn_app, Nat.sub_diag, firstn_all. cbn [firstn]. rewrite app_nil_r, Hd.
  rewrite skipn_app, Nat.sub_diag, skipn_all. cbn [skipn List.app].
  f_equal. apply extract_frames_fuel; [|lia].
  rewrite length_app in Hn. lia.
Qed.

Lemma extract_frames_junk (junk data : list byte) (n : nat) :
  no_start junk = true -> (length (junk ++ data) <= n)%nat ->
  extract_frames n (junk ++ data) = extract_frames (length data) data.
Proof.
  revert n. induction junk as [|b junk IH]; intros n Hj Hn.
  - apply extract_frames_fuel; [exact Hn|lia].
  - cbn in Hj. apply andb_true_iff in Hj. destruct Hj as [Hb Hj].
    destruct n as [|n]; [cbn in Hn; lia|].
    cbn [List.app extract_frames]. apply negb_true_iff in Hb. rewrite Hb. cbn [andb].
    apply IH; [exact Hj|cbn in Hn; lia].
Qed.

Lemma extract_frames_tail (junk : list byte) (n : nat) :
  no_start junk = true -> extract_frames n junk = [].
Proof.
  revert n. induction junk as [|b junk IH]; intros n Hj; [apply extract_frames_nil|].
  cbn in Hj. apply andb_true_iff in Hj. destruct Hj as [Hb Hj].
  destruct n as [|n]; [reflexivity|].
  cbn [extract_frames]. apply negb_true_iff in Hb. rewrite Hb. cbn [andb]. apply IH, Hj.
Qed.

Lemma frame_of_decodes (m : UARTMessage) :
  validate_message m = true -> decode_frame (frame_of m) = Some m.
Proof.
  intros V. destruct (encode_shape m V) as (t & i & l & Ht & Hi & Hl & He).
  unfold frame_of. rewrite He.
  apply decode_encoded; try (apply int_of_byte_of_int; assumption).
  apply validate_message_inv in V. lia.
Qed.

Lemma extract_frames_wire segments tail : forall n,
  forallb (fun s => no_start (fst s) && validate_message (snd s)) segments = true ->
  no_start tail = true ->
  (length (wire segments tail) <= n)%nat ->
  extract_frames n (wire segments tail) = map (fun s => Decoded (snd s)) segments.
Proof.
  induction segments as [|[j m] ss IH]; intros n Hs Ht Hn.
  - cbn. apply extract_frames_tail, Ht.
  - cbn [forallb fst snd] in Hs. apply andb_true_iff in Hs. destruct Hs as [Hjm Hss].
    apply andb_true_iff in Hjm. destruct Hjm as [Hj Hm].
    assert (Hw : wire ((j, m) :: ss) tail = j ++ frame_of m ++ wire ss tail).
    { unfold wire. cbn [flat_map fst snd]. rewrite <- !app_assoc. reflexivity. }
    rewrite Hw in *.
    rewrite (extract_frames_junk j _ n Hj Hn).
    rewrite (extract_frames_frame _ _ m _ (frame_of_decodes m Hm) (le_n _)).
    cbn [map snd]. f_equal. apply IH; auto.
Qed.

Lemma for_each_decoded (ms : list UARTMessage) (w : World) :
  for_each (map (fun m => Decoded m) ms)
    (fun x => match x with
              | Decoded _ => ret tt
              | Undecodable well_framed =>
                  bind (if well_framed then log ERROR "Decode error" else ret tt)
                    (fun _ => log ERROR "FAILED TO DECODE FRAME")
              | Incomplete => log WARNING "Incomplete frame"
              end) w = (Ret tt, w).
Proof. induction ms as [|m ms IH]; [reflexivity|]. cbn [map for_each]. unfold bind, ret at 1. exact IH. Qed.

Lemma flat_map_decoded (ms : list UARTMessage) :
  flat_map (fun x => match x with Decoded m => [m] | _ => [] end)
    (map (fun m => Decoded m) ms) = ms.
Proof. induction ms as [|m ms IH]; [reflexivity|]. cbn. rewrite IH. reflexivity. Qed.

Lemma receive_messages_decoded (w : World) (data : list byte) (ms : list UARTMessage)
    (later : list (list byte)) :
  serial_connection (uart w) = true ->
  rx (env w) = data :: later ->
  extract_frames (length data) data = map (fun m => Decoded m) ms ->
  receive_messages w = (Ret ms, with_rx later w).
Proof.
  intros Hc Hrx He.
  unfold receive_messages, serial_read, bind, gets, get. cbv beta iota.
  rewrite Hc. cbn [negb]. cbv beta iota. rewrite Hrx.
  unfold upd_env, modify, ret at 1. cbv beta iota.
  rewrite He, for_each_decoded, flat_map_decoded. reflexivity.
Qed.

Lemma receive_messages_wire (w : World)
    (segments : list (list byte * UARTMessage)) (tail : list byte)
    (later : list (list byte)) :
  serial_connection (uart w) = true ->
  rx (env w) = wire segments tail :: later ->
  forallb (fun s => no_start (fst s) && validate_message (snd s)) segments = true ->
  no_start tail = true ->
  receive_messages w = (Ret (map snd segments), with_rx later w).
Proof.
  intros Hc Hrx Hs Ht.
  apply (receive_messages_decoded w (wire segments tail)); [exact Hc|exact Hrx|].
  rewrite map_map. apply extract_frames_wire; auto.
Qed.

(** X2. On a connected link, one read that holds valid frames, each
    after bytes without a start byte and the last one followed by such
    bytes, gives exactly the messages of the frames, in their order, and
    uses up the read; the bytes between the frames are skipped without a
    log line. *)
Theorem receive_messages_resynchronises (w : World)
    (segments : list (list byte * UARTMessage)) (tail : list byte)
    (later : list (list byte)) :
  serial_connection (uart w) = true ->
  rx (env w) = wire segments tail :: later ->
  forallb (fun s => no_start (fst s) && validate_message (snd s)) segments = true ->
  no_start tail = true ->
  receive_messages w = (Ret (map snd segments), with_rx later w).
Proof.
  intros Hc Hrx Hs Ht.
  pose proof (extract_frames_wire segments tail _ Hs Ht (le_n _)) as He.
  rewrite <- (map_map snd (fun m => Decoded m)) in He.
  exact (receive_messages_decoded w (wire segments tail) (map snd segments) later Hc Hrx He).
Qed.

Lemma receive_messages_resynchronises_witness :
  receive_messages (world0 0 [wire [([x00; x7d], scenario_message); ([], ack_message)] [x01]])
  = (Ret [scenario_message; ack_message], with_rx [] (world0 0 [wire [([x00; x7d], scenario_message); ([], ack_message)] [x01]])).
Proof.
  apply (receive_messages_resynchronises _ [([x00; x7d], scenario_message); ([], ack_message)] [x01] []);
    reflexivity.
Defined.

Lemma extract_frames_short (data : list byte) : forall n,
  (length data <= 4)%nat -> extract_frames n data = [].
Proof.
  induction data as [|b rest IH]; intros n H; [apply extract_frames_nil|].
  destruct n as [|n]; [reflexivity|]. cbn [extract_frames].
  replace (Nat.ltb 4 (length (b :: rest))) with false by (symmetry; apply Nat.ltb_ge; exact H).
  rewrite andb_false_r. apply IH. cbn in H. lia.
Qed.

Lemma extract_frames_truncated (m : UARTMessage) (k n : nat) :
  validate_message m = true ->
  (5 <= k < length (frame_of m))%nat -> (k <= n)%nat ->
  extract_frames n (firstn k (frame_of m)) = [Incomplete].
Proof.
  intros V Hk Hn.
  destruct (encode_shape m V) as (t & i & l & Ht & Hi & Hl & He).
  unfold frame_of in *. rewrite He in *.
  apply int_of_byte_of_int in Hl. unfold payload_length in Hl.
  rewrite !length_app in Hk. cbn [length] in Hk.
  destruct k as [|[|[|[|k]]]]; try lia.
  destruct n as [|n]; [lia|].
  cbn [List.app firstn extract_frames].
  change (Byte.eqb START_BYTE START_BYTE) with true.
  assert (Hlen : length (firstn k (payload m ++ [END_BYTE])) = k)
    by (apply firstn_length_le; rewrite length_app; cbn [length]; lia).
  cbn [length nth]. rewrite Hlen.
  replace (Nat.ltb 4 (S (S (S (S k))))) with true by (symmetry; apply Nat.ltb_lt; lia).
  cbn [andb].
  replace (Nat.leb (Z.to_nat (5 + int_of_byte l)) (S (S (S (S k))))) with false
    by (symmetry; apply Nat.leb_gt; lia).
  reflexivity.
Qed.

(** X3. A read that ends inside a frame gives no message, and nothing
    of it is kept for the next read: with five bytes or more the warning
    [Incomplete frame] is logged, with fewer nothing is logged. *)
Theorem truncated_frame_is_dropped (w : World) (m : UARTMessage) (k : nat)
    (later : list (list byte)) :
  serial_connection (uart w) = true ->
  validate_message m = true ->
  (k < length (frame_of m))%nat ->
  rx (env w) = firstn k (frame_of m) :: later ->
  receive_messages w =
    (Ret [],
     appended (if Nat.leb 5 k then [Log WARNING "Incomplete frame"] else [])
       (with_rx later w)).
Proof.
  intros Hc V Hk Hrx.
  unfold receive_messages, serial_read, bind, gets, get. cbv beta iota.
  rewrite Hc. cbn [negb]. cbv beta iota. rewrite Hrx.
  unfold upd_env, modify, ret at 1. cbv beta iota.
  assert (Hlen : length (firstn k (frame_of m)) = k) by (apply firstn_length_le; lia).
  rewrite Hlen.
  destruct (Nat.leb 5 k) eqn:E5.
  - apply Nat.leb_le in E5.
    rewrite extract_frames_truncated by (auto; lia). reflexivity.
  - apply Nat.leb_gt in E5.
    rewrite extract_frames_short by lia. cbn [for_each flat_map]. unfold ret.
    unfold appended, with_rx, set_trace, set_env. cbn. rewrite app_nil_r. reflexivity.
Qed.

Lemma truncated_frame_is_dropped_witness :
  receive_messages (world0 0 [firstn 6 scenario_frame; skipn 6 scenario_frame])
  = (Ret [], appended [Log WARNING "Incomplete frame"]
               (with_rx [skipn 6 scenario_frame]
                  (world0 0 [firstn 6 scenario_frame; skipn 6 scenario_frame]))).
Proof.
  apply (truncated_frame_is_dropped _ scenario_message 6 [skipn 6 scenario_frame]);
    try reflexivity.
  vm_compute. lia.
Defined.

End FrameFacts.

(** ** Link and sequences *)

Module SequenceFacts.
Import Codec Py World Link Decision Engine Observe Scenario CodecFacts MonadFacts LinkFacts
  EngineFacts FrameFacts.

(** X4. For every frame the decoder accepts, the acknowledgement is an
    ACK with id 0 whose payload is the type byte and the id byte of the
    frame; on a connected link [send_ack] writes exactly that frame of
    seven bytes, and the decoder reads it back as that ACK. *)
Theorem received_frame_is_acknowledged (f : list byte) (m : UARTMessage) (w : World) :
  decode_frame f = Some m ->
  serial_connection (uart w) = true ->
  exists t i,
    msg_type m = int_of_byte t /\ msg_id m = int_of_byte i
    /\ create_ack m = Some (mkMsg ACK 0 [t; i])
    /\ send_ack m w = (Ret true, appended [Write (ack_for t i)] w)
    /\ decode_frame (ack_for t i) = Some (mkMsg ACK 0 [t; i]).
Proof.
  intros Hd Hc.
  destruct (decode_frame_shape f m Hd) as (t & i & l & _ & Ht & Hi & _ & _).
  exists t, i. destruct m as [ty id p]. cbn [msg_type msg_id] in *. subst ty id.
  repeat split.
  - apply create_ack_received.
  - apply send_ack_eq; [reflexivity|exact Hc].
Qed.

Lemma received_frame_is_acknowledged_witness :
  exists t i,
    msg_type scenario_message = int_of_byte t /\ msg_id scenario_message = int_of_byte i
    /\ create_ack scenario_message = Some (mkMsg ACK 0 [t; i])
    /\ send_ack scenario_message (world0 0 []) =
       (Ret true, appended [Write (ack_for t i)] (world0 0 []))
    /\ decode_frame (ack_for t i) = Some (mkMsg ACK 0 [t; i]).
Proof.
  exact (received_frame_is_acknowledged scenario_frame scenario_message (world0 0 [])
           eq_refl eq_refl).
Defined.

(** X5. With the serial port closed [send_message] and [send_ack]
    return false after logging [UART not connected] and write nothing,
    [receive_messages] returns no message and changes nothing, and SEQ1
    fails at its first command. *)
Theorem disconnected_link_is_inert (r : Rec) (w : World) (ty : Z) (p : list byte)
    (m : UARTMessage) :
  serial_connection (uart w) = false ->
  send_message ty p w = (Ret false, appended [Log ERROR "UART not connected"] w)
  /\ send_ack m w = (Ret false, appended [Log ERROR "UART not connected"] w)
  /\ receive_messages w = (Ret [], w)
  /\ execute_sequence_1 r w =
     (Ret false, appended [Log INFO "Starting SEQ1: Button Press Activation";
                           Log ERROR "UART not connected";
                           Log ERROR "Failed to send unblock doors command"] w).
Proof.
  intros Hc. repeat split.
  - unfold send_message, bind, gets. rewrite Hc. reflexivity.
  - unfold send_ack, bind, gets. rewrite Hc. reflexivity.
  - unfold receive_messages, bind, gets. rewrite Hc. reflexivity.
  - unfold execute_sequence_1, unblock_doors, control_door, try_except, bind.
    rewrite log_eq. change (pack [DoorAction_UNBLOCK]) with (@ret (list byte) [x01]).
    unfold ret at 1. unfold send_message, bind, gets.
    cbn [uart appended set_trace]. rewrite Hc. cbn [negb]. rewrite log_eq.
    unfold ret at 1. cbn [negb]. rewrite log_eq. unfold ret.
    rewrite !appended_app. reflexivity.
Qed.

Lemma disconnected_link_is_inert_witness :
  receive_messages world_unplugged = (Ret [], world_unplugged).
Proof.
  exact (proj1 (proj2 (proj2 (disconnected_link_is_inert (engine 0) world_unplugged 0 []
                                ack_message eq_refl)))).
Defined.

(** X6. [wait_for_ack] succeeds on the first valid ACK frame it reads,
    whatever id and payload the ACK carries: the ACK is not matched with
    the command that was sent.  The id of the ACK is recorded and 100 ms
    have passed. *)
Theorem any_ack_ends_the_wait (fuel : nat) (timeout : Z) (w : World) (a : UARTMessage)
    (later : list (list byte)) :
  (1 <= fuel)%nat -> 0 < timeout ->
  serial_connection (uart w) = true ->
  msg_type a = ACK -> validate_message a = true ->
  rx (env w) = frame_of a :: later ->
  wait_for_ack (engine fuel) timeout w
  = (Ret true, advance 100000 (with_rx later (with_ack_state (Some (msg_id a)) false w))).
Proof.
  intros Hf Ht Hc Ha V Hrx. destruct fuel as [|fuel]; [lia|].
  unfold wait_for_ack, bind.
  change (upd_uart (set_ack_state None true) w) with (Ret tt, with_ack_state None true w).
  cbv beta iota. unfold time_time at 1, gets at 1.
  unfold wait_for_ack_loop at 1. unfold time_time, bind, gets. cbv beta iota.
  cbn [with_ack_state uart set_uart waiting_for_ack set_ack_state env andb].
  rewrite Z.sub_diag. replace (0 <? timeout) with true by (symmetry; apply Z.ltb_lt; lia).
  rewrite (receive_messages_wire _ [([], a)] [] later);
    [|exact Hc|cbn [wire flat_map fst snd List.app]; rewrite !app_nil_r; exact Hrx
     |cbn; rewrite V; reflexivity|reflexivity].
  cbn [map snd for_each]. unfold wait_for_ack_dispatch at 1. rewrite Ha.
  change (ACK =? ACK) with true. cbv beta iota.
  reflexivity.
Qed.

Lemma any_ack_ends_the_wait_witness :
  wait_for_ack (engine 1) five_seconds (world0 0 [frame_of (mkMsg ACK 77 [x08; x63])])
  = (Ret true,
     advance 100000
       (with_rx [] (with_ack_state (Some 77) false
                      (world0 0 [frame_of (mkMsg ACK 77 [x08; x63])])))).
Proof.
  apply (any_ack_ends_the_wait 1 five_seconds _ (mkMsg ACK 77 [x08; x63]) []);
    try reflexivity; lia.
Defined.

(** X7. On a connected link whose microcontroller acknowledges each
    command, SEQ1 sends its four commands in order under consecutive ids
    and nothing else, succeeds, records the SEQ1 lights as active since
    the time it ended, and takes 1.4 s: 100 ms for each ACK and the pause
    of one second after the doors are unblocked. *)
Theorem seq1_completes_when_acknowledged (fuel : nat) (w : World) (later : list (list byte)) :
  (1 <= fuel)%nat ->
  serial_connection (uart w) = true ->
  rx (env w) = repeat ack_frame 4 ++ later ->
  let run := execute_sequence_1 (engine fuel) w in
  fst run = Ret true
  /\ trace (snd run) =
     trace w
     ++ Log INFO "Starting SEQ1: Button Press Activation"
        :: command_frames (message_id_counter (uart w)) seq1_commands
     ++ [Log INFO "SEQ1 completed successfully - system now waiting for cover/container detection"]
  /\ seq1_lights_active (uart (snd run)) = true
  /\ seq1_activation_time (uart (snd run)) = Some (clock (env w) + 1400000)
  /\ clock (env (snd run)) = clock (env w) + 1400000
  /\ rx (env (snd run)) = later.
Proof.
  intros Hf Hc Hrx.
  destruct w as [u a s d e t]. destruct e as [clk rxs v1 v2 v3].
  destruct u. cbn in Hc, Hrx. subst.
  unfold execute_sequence_1, unblock_doors, block_doors, set_cover_light_white,
    set_container_light_white, try_except, bind.
  cbn [repeat List.app].
  repeat seq1_step.
  unfold time_time, gets, upd_uart, modify. cbv beta iota.
  rewrite log_eq. unfold ret. cbn [fst snd].
  split; [reflexivity|]. split; [|split; [reflexivity|split; [|split; [|reflexivity]]]].
  all: cbn [trace appended sent advance with_ack_state with_rx set_trace set_uart set_env
            set_clock clock env uart message_id_counter set_message_id_counter
            set_ack_state next_id seq1_commands command_frames set_rx
            seq1_activation_time set_seq1_lights List.app].
  - rewrite <- ?app_assoc. reflexivity.
  - unfold seconds. f_equal. lia.
  - unfold seconds. lia.
Qed.

Lemma seq1_completes_when_acknowledged_witness :
  fst (execute_sequence_1 (engine 1) (world0 0 (repeat ack_frame 4))) = Ret true.
Proof.
  assert (H1 : (1 <= 1)%nat) by lia.
  exact (proj1 (seq1_completes_when_acknowledged 1 (world0 0 (repeat ack_frame 4)) []
                  H1 eq_refl eq_refl)).
Defined.

Lemma qr_wait_loop_silent n : forall fuel w start timeout,
  (n <= fuel)%nat ->
  waiting_for_qr (uart w) = true -> qr_timeout_start (uart w) = Some start ->
  clock (env w) - start = timeout - Z.of_nat n * 100000 ->
  qr_wait_loop (engine fuel) timeout w = (Ret tt, advance (Z.of_nat n * 100000) w).
Proof.
  induction n as [|n IH]; intros fuel w start timeout Hf Hw Hs Ht.
  - unfold qr_wait_loop, time_time, bind, gets. cbv beta iota. rewrite Hs, Hw.
    replace (clock (env w) - start <? timeout) with false
      by (symmetry; apply Z.ltb_ge; lia).
    cbn [andb Z.of_nat Z.mul]. rewrite advance_0. reflexivity.
  - destruct fuel as [|fuel]; [lia|].
    unfold qr_wait_loop at 1. unfold time_time, bind, gets. cbv beta iota. rewrite Hs, Hw.
    replace (clock (env w) - start <? timeout) with true
      by (symmetry; apply Z.ltb_lt; lia).
    cbn [andb]. rewrite sleep_eq.
    cbn [engine r_qr_wait_loop].
    rewrite (IH fuel _ start timeout); [|lia|exact Hw|exact Hs|].
    + rewrite advance_advance. do 2 f_equal. lia.
    + cbn [advance env set_env clock set_clock]. lia.
Qed.

Lemma clear_seq1_lights_eq w : clear_seq1_lights w = (Ret tt, seq1_cleared w).
Proof.
  unfold clear_seq1_lights, seq1_cleared, bind, gets. cbv beta iota.
  destruct w as [u a s d e t]. destruct u. cbn.
  destruct seq1_lights_active0; reflexivity.
Qed.

Lemma qr_code_after_wait d st u0 w0 :
  container_qr_code (uart (advance d (set_uart (set_qr_state true st None u0) w0))) = None.
Proof. reflexivity. Qed.

(** X8. SEQ3 gets no scan while it waits: nothing in the engine stores
    one during the QR wait.  It waits 30 s, logs the timeout, sends the
    command for the red container light and, once that is acknowledged,
    returns success and marks SEQ3 completed at that time; the flag
    [waiting_for_qr] stays set. *)
Theorem seq3_without_scan (fuel : nat) (w : World) (later : list (list byte)) :
  (300 <= fuel)%nat ->
  serial_connection (uart w) = true ->
  rx (env w) = ack_frame :: later ->
  let run := execute_sequence_3 (engine fuel) w in
  fst run = Ret true
  /\ trace (snd run) =
     trace w
     ++ [Log INFO "Starting SEQ3: Container Detection and QR Validation";
         Log ERROR "QR scan timeout - no QR code received";
         Log WARNING "QR validation failed: QR scan timeout";
         Write (command_frame x05 (next_id w) [x00; x01; x00]);
         Log INFO "SEQ3 completed successfully"]
  /\ seq3_completed (uart (snd run)) = true
  /\ seq3_completion_time (uart (snd run)) = Some (clock (env w) + seconds 30 + 100000)
  /\ waiting_for_qr (uart (snd run)) = true
  /\ seq1_lights_active (uart (snd run)) = false.
Proof.
  intros Hf Hc Hrx.
  destruct w as [u a s d e t]. destruct e as [clk rxs v1 v2 v3].
  destruct u. cbn in Hc, Hrx. subst.
  unfold execute_sequence_3, try_except, bind. rewrite log_eq, clear_seq1_lights_eq.
  unfold upd_uart, modify, time_time, gets, ret; cbv beta iota.
  erewrite (qr_wait_loop_silent 300 fuel _ _ (seconds 30));
    [|exact Hf|reflexivity|reflexivity|cbn; unfold seconds; lia].
  rewrite qr_code_after_wait. cbn [Audit.nonempty negb].
  rewrite log_eq. unfold handle_seq3_invalid_qr, set_container_light_red, try_except, bind.
  rewrite log_eq.
  rewrite (control_light_eq LightPosition_CONTAINER LightColor_RED_ON LightType_STEADY
             x00 x01 x00) by reflexivity.
  cbn [negb]. erewrite wait_for_ack_acked by first [lia | reflexivity].
  cbn [negb]. unfold upd_uart, modify, time_time, gets, ret; cbv beta iota.
  rewrite log_eq. unfold ret. cbn [fst snd].
  split; [reflexivity|]. split; [|split; [reflexivity|split; [|split; reflexivity]]].
  - cbn. rewrite <- ?app_assoc. reflexivity.
  - cbn. unfold seconds. f_equal; lia.
Qed.

Lemma seq3_without_scan_witness :
  fst (execute_sequence_3 (engine 300) (world0 0 [ack_frame])) = Ret true.
Proof.
  assert (H1 : (300 <= 300)%nat) by lia.
  exact (proj1 (seq3_without_scan 300 (world0 0 [ack_frame]) [] H1 eq_refl eq_refl)).
Defined.

Lemma idle_refl w : idle w w.
Proof. split; reflexivity. Qed.

Lemma idle_trans a b c : idle a b -> idle b c -> idle a c.
Proof. unfold idle. intuition congruence. Qed.

Lemma paused_refl w : paused w w.
Proof. repeat split; reflexivity. Qed.

Lemma paused_trans a b c : paused a b -> paused b c -> paused a c.
Proof. unfold paused. intuition congruence. Qed.

Lemma idle_emit e : request e = false -> respects idle (emit e).
Proof.
  intros H w. split; [reflexivity|]. cbn. unfold requests. rewrite filter_app. cbn.
  rewrite H. apply app_nil_r.
Qed.

Lemma idle_log lvl msg : respects idle (log lvl msg).
Proof. apply idle_emit. reflexivity. Qed.

Lemma idle_upd_uart f : respects idle (upd_uart f).
Proof. intros w. split; reflexivity. Qed.

Lemma idle_upd_env f : respects idle (upd_env f).
Proof. intros w. split; reflexivity. Qed.

Lemma idle_sleep d : respects idle (sleep d).
Proof. apply idle_upd_env. Qed.

Lemma idle_pack vs : respects idle (pack vs).
Proof. apply respects_pack, idle_refl. Qed.

Create HintDb idle.
#[local] Hint Resolve idle_log idle_upd_uart idle_upd_env idle_sleep idle_pack : idle.

Ltac idle_leaf :=
  first [ solve [auto with idle] | apply idle_emit; reflexivity ].

Ltac idle_tac := respects_tac idle idle_refl idle_trans idle_leaf.

Lemma idle_send_message t p : respects idle (send_message t p).
Proof. unfold send_message, get_next_message_id, serial_write. idle_tac. Qed.

Lemma idle_send_ack m : respects idle (send_ack m).
Proof. unfold send_ack, serial_write. idle_tac. Qed.

Lemma idle_receive_messages : respects idle receive_messages.
Proof. unfold receive_messages, serial_read. idle_tac. Qed.

#[local] Hint Resolve idle_send_message idle_send_ack idle_receive_messages : idle.

Lemma idle_control_light p c t : respects idle (control_light p c t).
Proof. unfold control_light. idle_tac. Qed.

Lemma idle_control_door a : respects idle (control_door a).
Proof. unfold control_door. idle_tac. Qed.

Lemma idle_control_actuator t a : respects idle (control_actuator t a).
Proof. unfold control_actuator. idle_tac. Qed.

#[local] Hint Resolve idle_control_light idle_control_door idle_control_actuator : idle.

Lemma idle_set_error_state : respects idle set_error_state.
Proof. unfold set_error_state, set_container_light_red. idle_tac. Qed.

Lemma idle_is_device_inactive : respects idle is_device_inactive.
Proof. unfold is_device_inactive. idle_tac. Qed.

Lemma idle_handle_ack m : respects idle (handle_ack m).
Proof. unfold handle_ack. idle_tac. Qed.

Lemma idle_turn_all_lights_off : respects idle turn_all_lights_off.
Proof. unfold turn_all_lights_off. idle_tac. Qed.

#[local] Hint Resolve idle_set_error_state idle_is_device_inactive idle_handle_ack
  idle_turn_all_lights_off : idle.

Lemma idle_handle_error_message m : respects idle (handle_error_message m).
Proof. unfold handle_error_message. idle_tac. Qed.

#[local] Hint Resolve idle_handle_error_message : idle.

Section IdleBodies.
Variable r : Rec.
Hypothesis Hr : idle_rec r.

Lemma idle_r_wait_for_ack_loop s t : respects idle (r_wait_for_ack_loop r s t).
Proof. apply Hr. Qed.

Lemma paused_r_qr_wait_loop t : respects paused (r_qr_wait_loop r t).
Proof. apply Hr. Qed.

Lemma idle_r_qr_wait_loop t : respects idle (r_qr_wait_loop r t).
Proof.
  intros w. destruct (paused_r_qr_wait_loop t w) as (_ & Hd & Ht).
  split; [exact Hd|rewrite Ht; reflexivity].
Qed.

Lemma idle_r_removals_loop s t a b : respects idle (r_removals_loop r s t a b).
Proof. apply Hr. Qed.

Lemma idle_r_execute_sequence_1 : respects idle (r_execute_sequence_1 r).
Proof. apply Hr. Qed.

Lemma idle_r_execute_sequence_2 : respects idle (r_execute_sequence_2 r).
Proof. apply Hr. Qed.

Lemma idle_r_execute_sequence_3 : respects idle (r_execute_sequence_3 r).
Proof. apply Hr. Qed.

#[local] Hint Resolve idle_r_wait_for_ack_loop idle_r_qr_wait_loop idle_r_removals_loop
  idle_r_execute_sequence_1
  idle_r_execute_sequence_2 idle_r_execute_sequence_3 : idle.

Lemma idle_handle_button_press m : respects idle (handle_button_press r m).
Proof. unfold handle_button_press. idle_tac. Qed.

Lemma idle_handle_sensor_change m : respects idle (handle_sensor_change r m).
Proof. unfold handle_sensor_change. idle_tac. Qed.

#[local] Hint Resolve idle_handle_button_press idle_handle_sensor_change : idle.

Lemma idle_wait_for_ack_dispatch m : respects idle (wait_for_ack_dispatch r m).
Proof. unfold wait_for_ack_dispatch. idle_tac. Qed.

#[local] Hint Resolve idle_wait_for_ack_dispatch : idle.

Lemma idle_wait_for_ack_loop s t : respects idle (wait_for_ack_loop r s t).
Proof. unfold wait_for_ack_loop. idle_tac. Qed.

#[local] Hint Resolve idle_wait_for_ack_loop : idle.

Lemma idle_wait_for_ack t : respects idle (wait_for_ack r t).
Proof. unfold wait_for_ack. idle_tac. Qed.

#[local] Hint Resolve idle_wait_for_ack : idle.

Lemma idle_execute_sequence_1 : respects idle (execute_sequence_1 r).
Proof.
  unfold execute_sequence_1, unblock_doors, block_doors, set_cover_light_white,
    set_container_light_white.
  idle_tac.
Qed.

Lemma idle_clear_seq1_lights : respects idle clear_seq1_lights.
Proof. unfold clear_seq1_lights. idle_tac. Qed.

#[local] Hint Resolve idle_clear_seq1_lights : idle.

Lemma idle_execute_sequence_2 : respects idle (execute_sequence_2 r).
Proof. unfold execute_sequence_2, set_cover_light_green. idle_tac. Qed.

Lemma idle_handle_seq3_invalid_qr reason : respects idle (handle_seq3_invalid_qr r reason).
Proof. unfold handle_seq3_invalid_qr, set_container_light_red. idle_tac. Qed.

#[local] Hint Resolve idle_handle_seq3_invalid_qr : idle.

Lemma paused_sleep d : respects paused (sleep d).
Proof. intros w. repeat split; reflexivity. Qed.

(** The QR wait only lets time pass. *)
Lemma paused_qr_wait_loop t : respects paused (qr_wait_loop r t).
Proof.
  unfold qr_wait_loop.
  respects_tac paused paused_refl paused_trans
    ltac:(first [apply paused_sleep | apply paused_r_qr_wait_loop]).
Qed.

Lemma paused_idle w w' : paused w w' -> idle w w'.
Proof. intros (_ & Hd & Ht). split; [exact Hd|rewrite Ht; reflexivity]. Qed.

Lemma idle_qr_wait_loop t : respects idle (qr_wait_loop r t).
Proof. intros w. apply paused_idle, paused_qr_wait_loop. Qed.

#[local] Hint Resolve idle_qr_wait_loop : idle.

(** SEQ3 clears the stored QR code before the wait and the wait leaves
    it alone, so the branch that validates a scan is never taken. *)
Lemma execute_sequence_3_never_validates w :
  execute_sequence_3 r w = seq3_without_validation r w.
Proof.
  unfold execute_sequence_3, seq3_without_validation, try_except, bind.
  rewrite log_eq, clear_seq1_lights_eq.
  unfold upd_uart, modify, time_time, gets, ret. cbv beta iota.
  match goal with |- context [qr_wait_loop r ?t ?w3] =>
    pose proof (paused_qr_wait_loop t w3) as (Hu & _ & _);
    destruct (qr_wait_loop r t w3) as [[[]|e|] w4]
  end; try reflexivity.
  cbn [fst snd] in Hu. rewrite Hu.
  cbn [uart set_uart container_qr_code set_qr_state Audit.nonempty negb]. reflexivity.
Qed.

Lemma idle_execute_sequence_3 : respects idle (execute_sequence_3 r).
Proof.
  intros w. rewrite execute_sequence_3_never_validates. revert w.
  change (respects idle (seq3_without_validation r)).
  unfold seq3_without_validation. idle_tac.
Qed.

Lemma idle_removals_dispatch flags m : respects idle (removals_dispatch flags m).
Proof. unfold removals_dispatch. idle_tac. Qed.

#[local] Hint Resolve idle_removals_dispatch : idle.

Lemma idle_removals_for ms : forall flags, respects idle (removals_for ms flags).
Proof.
  induction ms as [|m ms IH]; intros flags; cbn [removals_for]; idle_tac.
Qed.

#[local] Hint Resolve idle_removals_for : idle.

Lemma idle_removals_loop s t a b : respects idle (removals_loop r s t a b).
Proof. unfold removals_loop. idle_tac. Qed.

#[local] Hint Resolve idle_removals_loop : idle.

Lemma idle_wait_for_both_removals : respects idle (wait_for_both_removals r).
Proof. unfold wait_for_both_removals. idle_tac. Qed.

#[local] Hint Resolve idle_wait_for_both_removals : idle.

Lemma idle_execute_sequence_4 : respects idle (execute_sequence_4 r).
Proof.
  unfold execute_sequence_4, store_container, store_cover. idle_tac.
Qed.

Lemma idle_execute_sequence_5 : respects idle (execute_sequence_5 r).
Proof.
  unfold execute_sequence_5, open_container, open_cover, set_cover_light_red,
    set_container_light_red.
  idle_tac.
Qed.

Lemma idle_check_sequence_4_trigger : respects idle check_sequence_4_trigger.
Proof. unfold check_sequence_4_trigger. idle_tac. Qed.

#[local] Hint Resolve idle_execute_sequence_4 idle_execute_sequence_5
  idle_check_sequence_4_trigger : idle.

Lemma idle_check_automatic_sequences : respects idle (check_automatic_sequences r).
Proof. unfold check_automatic_sequences. idle_tac. Qed.

Lemma idle_process_message m : respects idle (process_message r m).
Proof. unfold process_message. idle_tac. Qed.

#[local] Hint Resolve idle_check_automatic_sequences idle_process_message : idle.

Lemma idle_process_messages : respects idle (process_messages r).
Proof. unfold process_messages. idle_tac. Qed.

End IdleBodies.

Lemma idle_engine fuel : idle_rec (engine fuel).
Proof.
  induction fuel as [|fuel IH].
  - repeat split; intros;
      first [apply (respects_out_of_fuel idle idle_refl)
            |apply (respects_out_of_fuel paused paused_refl)].
  - cbn [engine]. split; [|split; [|split; [|split; [|split]]]]; intros; cbn.
    + apply idle_wait_for_ack_loop, IH.
    + apply paused_qr_wait_loop, IH.
    + apply idle_removals_loop, IH.
    + apply idle_execute_sequence_1, IH.
    + apply idle_execute_sequence_2, IH.
    + apply idle_execute_sequence_3, IH.
Qed.

(** X9. The engine never validates a scan.  SEQ3 clears the stored QR
    code before its wait, and the wait only lets time pass, so the
    branch of SEQ3 that validates a scan is never taken: SEQ3 is the
    sequence without that branch.  A whole tick of the engine, whatever
    arrives on the line and whatever the recursion budget, leaves the
    store as it was and sends no request to the backend. *)
Theorem engine_never_validates (fuel : nat) (w : World) :
  execute_sequence_3 (engine fuel) w = seq3_without_validation (engine fuel) w
  /\ (let tick := snd (process_messages (engine fuel) w) in
      db tick = db w /\ requests (trace tick) = requests (trace w)).
Proof.
  split.
  - apply execute_sequence_3_never_validates, idle_engine.
  - apply (idle_process_messages (engine fuel) (idle_engine fuel) w).
Qed.

Lemma control_actuator_eq ty action (bt ba : byte) w :
  byte_of_int ty = Some bt -> byte_of_int action = Some ba ->
  serial_connection (uart w) = true ->
  control_actuator ty action w = (Ret true, sent x04 [bt; ba] w).
Proof.
  intros Ht Ha Hc. unfold control_actuator, pack, bind. cbn [pack_bytes].
  rewrite Ht, Ha.
  unfold ret at 1. apply (send_message_eq x04); [reflexivity|reflexivity|cbn; lia|exact Hc].
Qed.

(** X10. While the SEQ1 lights are recorded as active and neither SEQ2
    nor SEQ3 has completed, a tick of the automatic sequences does
    nothing until more than 60 s have passed since SEQ1; then it sends the
    two lights-off commands, without waiting for their ACKs, and clears
    the record. *)
Theorem seq1_lights_time_out (r : Rec) (w : World) (t0 : Z) :
  serial_connection (uart w) = true ->
  seq1_lights_active (uart w) = true ->
  seq1_activation_time (uart w) = Some t0 -> t0 <> 0 ->
  seq2_completed (uart w) = false -> seq3_completed (uart w) = false ->
  let run := check_automatic_sequences r w in
  fst run = Ret tt
  /\ (if clock (env w) - t0 >? seconds 60
      then trace (snd run) =
             trace w
             ++ Log INFO "SEQ1 timeout - turning off all lights"
                :: command_frames (message_id_counter (uart w))
                     [(x05, [x00; x03; x00]); (x05, [x01; x03; x00])]
           /\ seq1_lights_active (uart (snd run)) = false
           /\ seq1_activation_time (uart (snd run)) = None
      else snd run = w)
  /\ clock (env (snd run)) = clock (env w).
Proof.
  intros Hc Ha Ht Hnz H2 H3.
  destruct w as [u a s d e t]. destruct u. cbn in Hc, Ha, Ht, H2, H3. subst.
  unfold check_automatic_sequences, try_except, bind, time_time, gets. cbv beta iota.
  cbn [uart seq1_lights_active seq1_activation_time truthy_time andb].
  replace (t0 =? 0) with false by (symmetry; apply Z.eqb_neq; exact Hnz).
  cbn [negb andb env].
  destruct (clock e - t0 >? seconds 60) eqn:E.
  - rewrite log_eq. unfold turn_all_lights_off, bind.
    rewrite (control_light_eq LightPosition_CONTAINER LightColor_DISABLE_ALL LightType_STEADY
               x00 x03 x00) by reflexivity.
    rewrite (control_light_eq LightPosition_COVER LightColor_DISABLE_ALL LightType_STEADY
               x01 x03 x00) by reflexivity.
    unfold ret at 1. unfold upd_uart at 1, modify at 1. cbv beta iota.
    unfold check_sequence_4_trigger, time_time, bind, gets. cbv beta iota.
    cbn [uart set_uart seq4_in_progress set_seq1_lights seq2_completed seq3_completed sent
         appended set_trace set_message_id_counter andb orb].
    destruct seq4_in_progress0; unfold ret; cbn [fst snd]; repeat split.
    all: cbn; rewrite <- ?app_assoc; reflexivity.
  - unfold ret at 1.
    unfold check_sequence_4_trigger, time_time, bind, gets. cbv beta iota.
    cbn [uart seq4_in_progress seq2_completed seq3_completed andb orb].
    destruct seq4_in_progress0; unfold ret; cbn [fst snd]; repeat split.
Qed.

Lemma seq1_lights_time_out_witness :
  fst (check_automatic_sequences (engine 0)
         (mkWorld (set_seq1_lights true (Some 1) uart0) app0 svc0 (db0 0)
            (offline 70000000 []) [])) = Ret tt.
Proof.
  assert (H : 1 <> 0) by lia.
  exact (proj1 (seq1_lights_time_out (engine 0)
                  (mkWorld (set_seq1_lights true (Some 1) uart0) app0 svc0 (db0 0)
                     (offline 70000000 []) [])
                  1 eq_refl eq_refl eq_refl H eq_refl eq_refl)).
Defined.

(** X11. When SEQ2 completed more than 180 s ago and the microcontroller
    stays silent, a tick starts SEQ4, which sends the container store
    command, gives up after five seconds and clears [seq4_in_progress];
    the completion record of SEQ2 is left, so the trigger of SEQ4 holds
    again on the next tick. *)
Theorem failed_seq4_is_retried (fuel : nat) (w : World) (t2 : Z) :
  (50 <= fuel)%nat ->
  serial_connection (uart w) = true ->
  rx (env w) = [] ->
  seq1_lights_active (uart w) = false ->
  seq4_in_progress (uart w) = false ->
  seq2_completed (uart w) = true ->
  seq2_completion_time (uart w) = Some t2 -> t2 <> 0 ->
  clock (env w) - t2 > seconds 180 ->
  let run := check_automatic_sequences (engine fuel) w in
  fst run = Ret tt
  /\ trace (snd run) =
     trace w
     ++ [Log INFO "SEQ4 trigger conditions met";
         Log INFO "Triggering SEQ4: Combined Storage";
         Log INFO "Starting SEQ4: Combined Cover and Container Storage";
         Write (command_frame x04 (next_id w) [x01; x00]);
         Log ERROR "Timeout waiting for ACK for container store command"]
  /\ clock (env (snd run)) = clock (env w) + five_seconds
  /\ seq4_in_progress (uart (snd run)) = false
  /\ fst (check_sequence_4_trigger (snd run)) = Ret true.
Proof.
  intros Hf Hc Hrx H1 H4 H2 Ht Hnz Hd run.
  destruct w as [u a s d e t]. destruct e as [clk rxs v1 v2 v3].
  destruct u. cbn in Hc, Hrx, H1, H4, H2, Ht, Hd. subst.
  assert (Hready : (clk - t2 >? seconds 180) = true)
    by (apply Z.gtb_lt; unfold seconds in *; lia).
  assert (Hready' : (clk + five_seconds - t2 >? seconds 180) = true)
    by (apply Z.gtb_lt; unfold five_seconds, seconds in *; lia).
  assert (Hz : (t2 =? 0) = false) by (apply Z.eqb_neq; exact Hnz).
  eassert (Hrun : run = (Ret tt, _)).
  { subst run.
    unfold check_automatic_sequences, try_except, time_time, bind, gets. cbv beta iota.
    cbn [uart seq1_lights_active andb]. unfold ret at 1.
    unfold check_sequence_4_trigger at 1. unfold time_time, bind, gets. cbv beta iota.
    cbn [uart seq4_in_progress seq2_completed seq2_completion_time truthy_time env clock].
    rewrite Hz, Hready. cbn [negb andb orb].
    rewrite log_eq. unfold ret at 1. rewrite log_eq.
    unfold execute_sequence_4, try_finally, try_except, bind.
    unfold upd_uart at 1, modify at 1. cbv beta iota.
    rewrite log_eq. unfold store_container.
    rewrite (control_actuator_eq ActuatorType_CONTAINER ActuatorAction_STORE x01 x00)
      by reflexivity.
    cbn [negb]. rewrite wait_for_ack_silent by first [lia | reflexivity].
    cbn [negb]. rewrite log_eq. unfold ret at 1.
    unfold upd_uart at 1, modify at 1. cbv beta iota. unfold ret at 1.
    reflexivity. }
  rewrite Hrun. cbn [fst snd].
  split; [reflexivity|]. split; [|split; [reflexivity|split; [reflexivity|]]].
  - cbn. rewrite <- ?app_assoc. reflexivity.
  - unfold check_sequence_4_trigger, time_time, bind, gets. cbv beta iota.
    cbn [uart set_uart seq4_in_progress set_seq4_in_progress seq2_completed
         seq2_completion_time truthy_time env clock advance with_ack_state sent appended
         set_trace set_env set_clock set_ack_state set_message_id_counter].
    rewrite Hz, Hready'. reflexivity.
Qed.

Lemma failed_seq4_is_retried_witness :
  fst (check_automatic_sequences (engine 50)
         (mkWorld (set_seq2 true (Some 1) uart0) app0 svc0 (db0 0)
            (offline 200000000 []) [])) = Ret tt.
Proof.
  assert (H1 : (50 <= 50)%nat) by lia.
  assert (H2 : 1 <> 0) by lia.
  assert (H3 : 200000000 - 1 > seconds 180) by (unfold seconds; lia).
  exact (proj1 (failed_seq4_is_retried 50
                  (mkWorld (set_seq2 true (Some 1) uart0) app0 svc0 (db0 0)
                     (offline 200000000 []) [])
                  1 H1 eq_refl eq_refl eq_refl eq_refl eq_refl eq_refl H2 H3)).
Defined.

(** X12. When one read holds the sensor frame for the removed cover and
    the one for the removed container, the wait for both removals
    acknowledges each frame, clears both sensor states and succeeds after
    one poll of 100 ms. *)
Theorem both_removals_end_the_wait (fuel : nat) (w : World) (i1 i2 : byte)
    (later : list (list byte)) :
  (1 <= fuel)%nat ->
  serial_connection (uart w) = true ->
  int_of_byte i1 <= 99 -> int_of_byte i2 <= 99 ->
  rx (env w) = wire [([], cover_removed_message (int_of_byte i1));
                     ([], container_removed_message (int_of_byte i2))] [] :: later ->
  wait_for_both_removals (engine fuel) w =
    (Ret true,
     appended [Log INFO "Both items removed successfully"]
       (advance 100000
          (appended [Write (ack_for x02 i2)]
             (with_sensors (mkSensors false false)
                (appended [Write (ack_for x02 i1);
                           Log INFO "Container removal detected - Pi acknowledges"]
                   (with_sensors (mkSensors false (container (sensor_states (uart w))))
                      (appended [Log INFO "Cover removal detected - Pi acknowledges"]
                         (with_rx later w)))))))).
Proof.
  intros Hf Hc H1 H2 Hrx. destruct fuel as [|fuel]; [lia|].
  pose proof (int_of_byte_range i1) as R1. pose proof (int_of_byte_range i2) as R2.
  assert (V1 : validate_message (cover_removed_message (int_of_byte i1)) = true).
  { unfold validate_message, cover_removed_message. cbn [msg_id msg_type payload_length payload].
    replace ((0 <=? int_of_byte i1) && (int_of_byte i1 <=? 99)) with true
      by (symmetry; apply andb_true_iff; split; apply Z.leb_le; lia).
    reflexivity. }
  assert (V2 : validate_message (container_removed_message (int_of_byte i2)) = true).
  { unfold validate_message, container_removed_message. cbn [msg_id msg_type payload_length payload].
    replace ((0 <=? int_of_byte i2) && (int_of_byte i2 <=? 99)) with true
      by (symmetry; apply andb_true_iff; split; apply Z.leb_le; lia).
    reflexivity. }
  unfold cover_removed_message, container_removed_message in *.
  unfold wait_for_both_removals, try_except, bind. unfold time_time at 1, gets at 1.
  unfold removals_loop at 1. unfold time_time, bind, gets. cbv beta iota.
  rewrite Z.sub_diag. cbn [negb orb andb].
  change (0 <? seconds 120) with true. cbv beta iota.
  erewrite receive_messages_wire;
    [|exact Hc|exact Hrx|cbn [forallb fst snd no_start andb]; rewrite V1, V2; reflexivity
     |reflexivity].
  cbn [map snd removals_for]. unfold bind.
  unfold removals_dispatch at 1. cbn [cover_removed_message payload msg_type].
  change (SENSOR_STATE_CHANGE =? SENSOR_STATE_CHANGE) with true. cbv beta iota.
  change (int_of_byte x00) with 0. cbn [Z.eqb SensorType_COVER SensorStatus_NO_DETECTION andb].
  unfold bind. rewrite log_eq. unfold upd_uart at 1, modify at 1. cbv beta iota.
  unfold ret at 1. cbv beta iota.
  rewrite (send_ack_eq x02 i1 SENSOR_STATE_CHANGE) by (reflexivity || exact Hc).
  unfold ret at 1.
  unfold removals_dispatch at 1. cbn [container_removed_message payload msg_type].
  change (SENSOR_STATE_CHANGE =? SENSOR_STATE_CHANGE) with true. cbv beta iota.
  change (int_of_byte x00) with 0. change (int_of_byte x01) with 1.
  cbn [Z.eqb Pos.eqb SensorType_COVER SensorType_CONTAINER SensorStatus_NO_DETECTION andb].
  unfold bind. rewrite log_eq. unfold upd_uart at 1, modify at 1. cbv beta iota.
  unfold ret at 1. cbv beta iota.
  rewrite (send_ack_eq x02 i2 SENSOR_STATE_CHANGE) by (reflexivity || exact Hc).
  unfold ret at 1. unfold ret at 1. rewrite sleep_eq.
  cbn [engine r_removals_loop fst snd].
  unfold removals_loop at 1. unfold time_time, bind, gets. cbv beta iota.
  cbn [negb orb andb]. unfold ret at 1. cbn [fst snd negb orb]. rewrite log_eq. unfold ret.
  destruct w as [u a s d e t].
  unfold appended, with_sensors, advance, with_rx.
  cbn [set_trace set_uart set_env trace uart app svc db env].
  rewrite <- ?app_assoc. reflexivity.
Qed.

Lemma both_removals_end_the_wait_witness :
  fst (wait_for_both_removals (engine 1)
         (world0 0 [wire [([], cover_removed_message 1); ([], container_removed_message 2)] []]))
  = Ret true.
Proof.
  assert (H1 : (1 <= 1)%nat) by lia.
  assert (H2 : int_of_byte x01 <= 99) by (vm_compute; discriminate).
  assert (H3 : int_of_byte x02 <= 99) by (vm_compute; discriminate).
  rewrite (both_removals_end_the_wait 1
             (world0 0 [wire [([], cover_removed_message 1);
                              ([], container_removed_message 2)] []])
             x01 x02 [] H1 eq_refl H2 H3 eq_refl).
  reflexivity.
Defined.

End SequenceFacts.

(** ** QR processor: what is accepted *)

Module ScanFacts.
Import Codec Hash QR Observe QRFacts.

Lemma match_tail_scheme scheme cs hs :
  forallb code_class cs = true -> length cs = 6%nat ->
  forallb hash_class hs = true -> length hs = 6%nat ->
  match_tail scheme (chars (scheme ++ "://paka.eco/QR/") ++ cs ++ ["/"%char] ++ hs) =
  Some (string_of_list_ascii cs, string_of_list_ascii hs).
Proof.
  intros Hc Hcl Hh Hhl. unfold match_tail.
  change (list_ascii_of_string (scheme ++ "://paka.eco/QR/"))
    with (chars (scheme ++ "://paka.eco/QR/")).
  rewrite match_literal_prefix, (match_class_exact _ _ _ _ Hc Hcl).
  rewrite (match_literal_prefix ["/"%char]), <- (app_nil_r hs).
  rewrite (match_class_exact _ _ _ _ Hh Hhl), app_nil_r. reflexivity.
Qed.

Lemma match_from_url scheme cs hs :
  scheme = "http"%string \/ scheme = "https"%string ->
  forallb code_class cs = true -> length cs = 6%nat ->
  forallb hash_class hs = true -> length hs = 6%nat ->
  match_from (chars (scheme ++ "://paka.eco/QR/") ++ cs ++ ["/"%char] ++ hs) =
  Some (string_of_list_ascii cs, string_of_list_ascii hs).
Proof.
  intros Hs Hc Hcl Hh Hhl.
  pose proof (match_tail_scheme scheme cs hs Hc Hcl Hh Hhl) as Ht.
  destruct Hs as [-> | ->].
  - change (chars ("http" ++ "://paka.eco/QR/"))
      with ("h"%char :: chars "ttp://paka.eco/QR/") in *.
    cbn [List.app] in *. rewrite match_from_cons.
    rewrite match_from_short
      by (repeat (rewrite length_app || cbn [length]); rewrite Hcl, Hhl; cbn; lia).
    change (Ascii.eqb "h" newline) with false. cbv zeta iota.
    rewrite Ht.
    replace (match_tail "https" ("h"%char :: chars "ttp://paka.eco/QR/" ++ cs ++ "/"%char :: hs))
      with (@None (string * string)); [reflexivity|].
    reflexivity.
  - change (chars ("https" ++ "://paka.eco/QR/"))
      with ("h"%char :: "t"%char :: chars "tps://paka.eco/QR/") in *.
    cbn [List.app] in *. rewrite match_from_cons, (match_from_cons "t").
    rewrite match_from_short
      by (repeat (rewrite length_app || cbn [length]); rewrite Hcl, Hhl; cbn; lia).
    cbv zeta. rewrite !match_tail_t by auto.
    change (Ascii.eqb "h" newline) with false. change (Ascii.eqb "t" newline) with false.
    cbv iota. rewrite Ht. reflexivity.
Qed.

Lemma match_from_prefix p : forall cs g,
  existsb (Ascii.eqb newline) p = false ->
  match_from cs = Some g -> match_from (p ++ cs) = Some g.
Proof.
  induction p as [|c p IH]; intros cs g Hn Hm; [exact Hm|].
  cbn [existsb] in Hn. apply orb_false_iff in Hn. destruct Hn as [Hc Hp].
  cbn [List.app]. rewrite match_from_cons. cbv zeta.
  rewrite Ascii.eqb_sym, Hc. rewrite (IH cs g Hp Hm). reflexivity.
Qed.

Lemma chars_scanned prefix scheme code h :
  chars (scanned prefix scheme code h)
  = chars prefix ++ chars (scheme ++ "://paka.eco/QR/") ++ chars code ++ ["/"%char] ++ chars h.
Proof. unfold scanned. rewrite !chars_app, <- !app_assoc. reflexivity. Qed.

Lemma hd_app_default (a b : list ascii) d :
  b <> [] -> hd d (a ++ b) = hd (hd d b) a.
Proof. intros Hb. destruct a; [destruct b; [congruence|reflexivity]|reflexivity]. Qed.

Lemma not_empty_string s : s <> ""%string -> String.eqb s "" = false.
Proof. intros H. apply String.eqb_neq. exact H. Qed.

Lemma string_of_chars s : string_of_list_ascii (chars s) = s.
Proof. apply string_of_list_ascii_of_string. Qed.

(** What the processor makes of a scan of the expected form. *)
Lemma process_scanned key prefix scheme code h :
  scheme = "http"%string \/ scheme = "https"%string ->
  existsb (Ascii.eqb newline) (chars prefix) = false ->
  is_space (hd "h"%char (chars prefix)) = false ->
  String.length code = 6%nat -> forallb code_class (chars code) = true ->
  String.length h = 6%nat -> forallb hash_class (chars h) = true ->
  process_qr_code key (scanned prefix scheme code h) =
  if String.eqb (upper h) (generate_hmac_hash key (upper code))
  then mkQRResult (scanned prefix scheme code h) VALID (Some (upper code)) None false
         (Some (upper code, upper h))
  else mkQRResult (scanned prefix scheme code h) FRAUD_ATTEMPT None (Some invalid_hash) true
         (Some (upper code, upper h)).
Proof.
  intros Hs Hn Hsp Hc1 Hc2 Hh1 Hh2.
  assert (Hhne : chars h <> []).
  { intros E. apply (f_equal (@length ascii)) in E. rewrite length_chars in E.
    cbn in E. lia. }
  assert (Hstrip : strip (scanned prefix scheme code h) = scanned prefix scheme code h).
  { unfold strip. fold (chars (scanned prefix scheme code h)).
    rewrite strip_fixed; [apply string_of_chars| |].
    - rewrite chars_scanned, hd_app_default.
      + replace (hd " "%char (chars (scheme ++ "://paka.eco/QR/") ++ chars code ++ ["/"%char] ++ chars h))
          with "h"%char by (destruct Hs as [-> | ->]; reflexivity).
        exact Hsp.
      + destruct Hs as [-> | ->]; discriminate.
    - rewrite chars_scanned, !app_assoc, last_app_nonempty by exact Hhne.
      apply hash_class_facts. apply last_forallb; assumption. }
  assert (Hmatch : url_pattern_match (scanned prefix scheme code h) = Some (code, h)).
  { unfold url_pattern_match. fold (chars (scanned prefix scheme code h)).
    rewrite chars_scanned.
    rewrite (match_from_prefix _ _ (string_of_list_ascii (chars code), string_of_list_ascii (chars h)) Hn).
    - rewrite !string_of_chars. reflexivity.
    - apply match_from_url; auto; rewrite length_chars; assumption. }
  assert (Hne : String.eqb (scanned prefix scheme code h) "" = false).
  { apply not_empty_string. intros E. apply (f_equal chars) in E.
    rewrite chars_scanned in E. apply (f_equal (@length ascii)) in E.
    rewrite !length_app in E. cbn [length chars list_ascii_of_string] in E. lia. }
  unfold process_qr_code. cbv zeta.
  unfold parse_scanned_url. rewrite !Hstrip, Hne, Hmatch.
  destruct (String.eqb (upper h) (generate_hmac_hash key (upper code))); reflexivity.
Qed.

Lemma upper_chars s : chars (upper s) = map upper_char (chars s).
Proof. unfold upper, chars. apply list_ascii_of_string_of_list_ascii. Qed.

Lemma upper_length s : String.length (upper s) = String.length s.
Proof. rewrite <- !length_chars, upper_chars. apply length_map. Qed.

(** X13. The processor reads a scan leniently: whatever the scanner put
    before the URL (on the same line), with [http] or [https], and in any
    letter case, a code of six characters of the code class with a check
    string of six letters or digits is valid, with the upper-cased code as
    container id, when the upper-cased check string is the expected one,
    and a fraud attempt with the invalid-hash message otherwise. *)
Theorem scan_is_read_leniently key prefix scheme code h :
  scheme = "http"%string \/ scheme = "https"%string ->
  existsb (Ascii.eqb newline) (chars prefix) = false ->
  is_space (hd "h"%char (chars prefix)) = false ->
  String.length code = 6%nat -> forallb code_class (chars code) = true ->
  String.length h = 6%nat -> forallb hash_class (chars h) = true ->
  (upper h = generate_hmac_hash key (upper code) ->
   validation (process_qr_code key (scanned prefix scheme code h)) = VALID
   /\ container_id (process_qr_code key (scanned prefix scheme code h)) = Some (upper code))
  /\ (upper h <> generate_hmac_hash key (upper code) ->
      validation (process_qr_code key (scanned prefix scheme code h)) = FRAUD_ATTEMPT
      /\ container_id (process_qr_code key (scanned prefix scheme code h)) = None
      /\ error_message (process_qr_code key (scanned prefix scheme code h))
         = Some invalid_hash).
Proof.
  intros Hs Hn Hsp Hc1 Hc2 Hh1 Hh2.
  rewrite (process_scanned key prefix scheme code h Hs Hn Hsp Hc1 Hc2 Hh1 Hh2).
  split; intros E.
  - rewrite E, String.eqb_refl. split; reflexivity.
  - apply String.eqb_neq in E. rewrite E. repeat split.
Qed.

Lemma scan_is_read_leniently_witness :
  validation (process_qr_code "default_key" (scanned "]Q2\000026" "http" "abcdef" "z7rhif"))
  = VALID
  /\ container_id (process_qr_code "default_key" (scanned "]Q2\000026" "http" "abcdef" "z7rhif"))
     = Some "ABCDEF"%string.
Proof.
  assert (E : upper "z7rhif" = generate_hmac_hash "default_key" (upper "abcdef"))
    by (vm_compute; reflexivity).
  exact (proj1 (scan_is_read_leniently "default_key" "]Q2\000026" "http" "abcdef" "z7rhif"
                  (or_introl eq_refl) eq_refl eq_refl eq_refl eq_refl eq_refl eq_refl) E).
Defined.

Lemma b32_char_letter v : base32_letter (b32_char v) = true.
Proof.
  unfold b32_char. generalize (Z.to_nat (Z.land v 31)). intros n.
  do 33 (destruct n as [|n]; [reflexivity|]). reflexivity.
Qed.

(** X14. The expected check string is six characters of A-Z and 2-7,
    whatever the key and the code; so a scan whose check string holds
    another character (0, 1, 8 or 9), which the URL pattern admits, is
    always a fraud attempt. *)
Theorem expected_hash_is_base32 key code :
  String.length (generate_hmac_hash key code) = 6%nat
  /\ forallb base32_letter (chars (generate_hmac_hash key code)) = true
  /\ forall prefix scheme scanned_code h,
       scheme = "http"%string \/ scheme = "https"%string ->
       existsb (Ascii.eqb newline) (chars prefix) = false ->
       is_space (hd "h"%char (chars prefix)) = false ->
       String.length scanned_code = 6%nat -> forallb code_class (chars scanned_code) = true ->
       String.length h = 6%nat -> forallb hash_class (chars h) = true ->
       forallb base32_letter (chars (upper h)) = false ->
       validation (process_qr_code key (scanned prefix scheme scanned_code h)) = FRAUD_ATTEMPT.
Proof.
  assert (Hshape : forall k c,
            String.length (generate_hmac_hash k c) = 6%nat
            /\ forallb base32_letter (chars (generate_hmac_hash k c)) = true).
  { intros k c. unfold generate_hmac_hash.
    pose proof (hmac_sha256_length (utf8_encode k) (utf8_encode c)) as Hlen.
    destruct (hmac_sha256 (utf8_encode k) (utf8_encode c))
      as [|b0 [|b1 [|b2 [|b3 [|b4 tl]]]]]; try discriminate Hlen.
    cbv zeta. cbn [b32encode b32_group List.app firstn hash_length].
    unfold upper. rewrite list_ascii_of_string_of_list_ascii.
    cbn [map]. rewrite !upper_b32_char. unfold chars.
    rewrite list_ascii_of_string_of_list_ascii.
    cbn [forallb string_of_list_ascii String.length]. rewrite !b32_char_letter.
    split; reflexivity. }
  destruct (Hshape key code) as [H1 H2]. split; [exact H1|]. split; [exact H2|].
  intros prefix scheme sc h Hs Hn Hsp Hc1 Hc2 Hh1 Hh2 Hbad.
  rewrite (process_scanned key prefix scheme sc h Hs Hn Hsp Hc1 Hc2 Hh1 Hh2).
  destruct (String.eqb (upper h) (generate_hmac_hash key (upper sc))) eqn:E; [|reflexivity].
  apply String.eqb_eq in E. rewrite E in Hbad.
  rewrite (proj2 (Hshape key (upper sc))) in Hbad. discriminate.
Qed.

Lemma expected_hash_is_base32_witness :
  validation (process_qr_code "default_key" (scanned "" "https" "ABCDEF" "Z8RHIF"))
  = FRAUD_ATTEMPT.
Proof.
  exact (proj2 (proj2 (expected_hash_is_base32 "default_key" "ABCDEF"))
           "" "https" "ABCDEF" "Z8RHIF"
           (or_intror eq_refl) eq_refl eq_refl eq_refl eq_refl eq_refl eq_refl eq_refl)%string.
Defined.

Lemma match_class_group cls n : forall cs g r,
  match_class cls n cs = Some (g, r) -> length g = n /\ forallb cls g = true.
Proof.
  induction n as [|n IH]; intros cs g r H; cbn in H.
  - injection H as <- _. split; reflexivity.
  - destruct cs as [|c cs]; [discriminate|].
    destruct (cls c) eqn:Ec; [|discriminate].
    destruct (match_class cls n cs) as [[g' r']|] eqn:E; [|discriminate].
    injection H as <- _. destruct (IH _ _ _ E) as [Hl Hf].
    cbn. rewrite Ec, Hf, Hl. split; reflexivity.
Qed.

Lemma match_tail_groups scheme cs c h :
  match_tail scheme cs = Some (c, h) ->
  (length (chars c) = 6%nat /\ forallb code_class (chars c) = true)
  /\ (length (chars h) = 6%nat /\ forallb hash_class (chars h) = true).
Proof.
  unfold match_tail. intros H.
  destruct (match_literal _ cs) as [r1|]; [|discriminate].
  destruct (match_class code_class 6 r1) as [[code r2]|] eqn:E2; [|discriminate].
  destruct (match_literal _ r2) as [r3|]; [|discriminate].
  destruct (match_class hash_class 6 r3) as [[hash r4]|] eqn:E4; [|discriminate].
  assert (Hg : c = string_of_list_ascii code /\ h = string_of_list_ascii hash).
  { destruct r4 as [|x [|y r]]; try discriminate.
    - injection H as <- <-. split; reflexivity.
    - destruct (Ascii.eqb x newline); [|discriminate]. injection H as <- <-. split; reflexivity. }
  destruct Hg as [-> ->]. unfold chars. rewrite !list_ascii_of_string_of_list_ascii.
  split; [exact (match_class_group _ _ _ _ _ E2)|exact (match_class_group _ _ _ _ _ E4)].
Qed.

Lemma match_from_groups cs : forall c h,
  match_from cs = Some (c, h) ->
  (length (chars c) = 6%nat /\ forallb code_class (chars c) = true)
  /\ (length (chars h) = 6%nat /\ forallb hash_class (chars h) = true).
Proof.
  assert (Hhere : forall l c h,
            match match_tail "https" l with
            | Some g => Some g
            | None => match_tail "http" l
            end = Some (c, h) ->
            (length (chars c) = 6%nat /\ forallb code_class (chars c) = true)
            /\ (length (chars h) = 6%nat /\ forallb hash_class (chars h) = true)).
  { intros l c h H. destruct (match_tail "https" l) as [[c1 h1]|] eqn:E.
    - injection H as <- <-. exact (match_tail_groups _ _ _ _ E).
    - exact (match_tail_groups _ _ _ _ H). }
  induction cs as [|x cs IH]; intros c h H.
  - apply (Hhere [] c h). exact H.
  - rewrite match_from_cons in H. cbv zeta in H.
    destruct (Ascii.eqb x newline); [exact (Hhere _ _ _ H)|].
    destruct (match_from cs) as [[c1 h1]|] eqn:E.
    + injection H as <- <-. apply IH. reflexivity.
    + exact (Hhere _ _ _ H).
Qed.

Lemma code_class_upper c : code_class c = true -> code_alphabet (upper_char c) = true.
Proof. by_cases c; intros H; vm_compute in H; try discriminate; reflexivity. Qed.

(** What a VALID result stands for. *)
Lemma valid_result_shape key qr :
  validation (process_qr_code key qr) = VALID ->
  exists code h,
    parse_scanned_url (strip qr) = Some (code, h)
    /\ process_qr_code key qr = mkQRResult (strip qr) VALID (Some code) None false (Some (code, h))
    /\ h = generate_hmac_hash key code
    /\ String.length code = 6%nat
    /\ forallb code_alphabet (chars code) = true.
Proof.
  unfold process_qr_code. cbv zeta.
  destruct (parse_scanned_url (strip qr)) as [[code h]|] eqn:Ep; [|discriminate].
  destruct (String.eqb h (generate_hmac_hash key code)) eqn:Eh; cbn [negb]; [|discriminate].
  intros _. exists code, h. split; [reflexivity|]. split; [reflexivity|].
  apply String.eqb_eq in Eh. split; [exact Eh|].
  unfold parse_scanned_url in Ep.
  destruct (String.eqb (strip qr) ""); [discriminate|].
  unfold url_pattern_match in Ep.
  destruct (match_from _) as [[c0 h0]|] eqn:Em; [|discriminate].
  injection Ep as <- _.
  destruct (match_from_groups _ _ _ Em) as [[Hl Hc] _].
  split.
  - rewrite upper_length, <- length_chars. exact Hl.
  - rewrite upper_chars. clear Hl Em. induction (chars c0) as [|x l IH]; [reflexivity|].
    cbn in Hc |- *. apply andb_prop in Hc. destruct Hc as [Hx Hc].
    rewrite (code_class_upper _ Hx), (IH Hc). reflexivity.
Qed.

(** X15. For a key and a scan made of characters below U+0100 (the
    strings of this development), a result is VALID only with a
    container id of six characters of the code alphabet, the parsed pair
    made of that id and the first six characters of the upper-cased
    Base32 encoding of its HMAC-SHA256 under the key, no error message
    and no fraud flag. *)
Theorem valid_result_is_sound (key qr : string) :
  validation (process_qr_code key qr) = VALID ->
  exists code,
    container_id (process_qr_code key qr) = Some code
    /\ String.length code = 6%nat
    /\ forallb code_alphabet (chars code) = true
    /\ parsed_url (process_qr_code key qr) = Some (code, authentic_hash key code)
    /\ is_fraud_attempt (process_qr_code key qr) = false
    /\ error_message (process_qr_code key qr) = None.
Proof.
  intros H. destruct (valid_result_shape key qr H) as (code & h & _ & -> & -> & Hl & Hc).
  exists code. rewrite authentic_hash_generated. repeat split; assumption.
Qed.

Lemma valid_result_is_sound_witness :
  exists code,
    container_id (process_qr_code "default_key" " https://paka.eco/QR/ABCDEF/Z7RHIF ")
    = Some code
    /\ String.length code = 6%nat.
Proof.
  assert (H : validation (process_qr_code "default_key" " https://paka.eco/QR/ABCDEF/Z7RHIF ")
              = VALID) by (vm_compute; reflexivity).
  destruct (valid_result_is_sound "default_key" " https://paka.eco/QR/ABCDEF/Z7RHIF " H)
    as (code & H1 & H2 & _).
  exists code. split; assumption.
Defined.

End ScanFacts.

(** ** Store adapter: the container and audit tables *)

Module TableFacts.
Import Py Store StoreFacts Observe.

Lemma insert_desc_perm {A} (key : A -> Z) x l : Permutation (insert_desc key x l) (x :: l).
Proof.
  induction l as [|y tl IH]; cbn; [reflexivity|].
  destruct (key y <=? key x); [reflexivity|].
  rewrite IH. apply perm_swap.
Qed.

Lemma fold_insert_perm {A} (key : A -> Z) l : forall acc,
  Permutation (fold_left (fun acc x => insert_desc key x acc) l acc) (l ++ acc).
Proof.
  induction l as [|x tl IH]; intros acc; cbn; [reflexivity|].
  rewrite IH, insert_desc_perm. symmetry. apply Permutation_middle.
Qed.

Lemma order_desc_perm {A} (key : A -> Z) l : Permutation (order_desc key l) l.
Proof. unfold order_desc. rewrite fold_insert_perm, app_nil_r. reflexivity. Qed.

Lemma insert_desc_sorted {A} (key : A -> Z) x l :
  descending key l -> descending key (insert_desc key x l).
Proof.
  unfold descending. induction l as [|y tl IH]; intros H; cbn.
  - constructor; constructor.
  - inversion H as [|? ? Hs Hf]; subst.
    destruct (key y <=? key x) eqn:E.
    + apply Z.leb_le in E. constructor; [exact H|].
      constructor; [lia|]. eapply Forall_impl; [|exact Hf]. cbn. intros; lia.
    + apply Z.leb_gt in E. constructor; [apply IH, Hs|].
      eapply Permutation_Forall; [symmetry; apply insert_desc_perm|].
      constructor; [lia|exact Hf].
Qed.

Lemma fold_insert_sorted {A} (key : A -> Z) l : forall acc,
  descending key acc -> descending key (fold_left (fun acc x => insert_desc key x acc) l acc).
Proof.
  induction l as [|x tl IH]; intros acc H; cbn; [exact H|].
  apply IH, insert_desc_sorted, H.
Qed.

Lemma order_desc_sorted {A} (key : A -> Z) l : descending key (order_desc key l).
Proof. apply fold_insert_sorted. constructor. Qed.

Lemma iso_key_gt (a b : datetime) :
  iso_key a > iso_key b
  <-> instant a > instant b
      \/ (instant a = instant b /\ tz_aware a = true /\ tz_aware b = false).
Proof.
  unfold iso_key. destruct (tz_aware a), (tz_aware b); split; intros H;
    try (destruct H as [H|(H & H1 & H2)]; try discriminate; lia);
    destruct (Z.eq_dec (instant a) (instant b)); try (right; auto; fail); left; lia.
Qed.

Lemma iso_key_ge (a b : datetime) :
  iso_key a >= iso_key b
  <-> instant a > instant b
      \/ (instant a = instant b /\ (tz_aware a = true \/ tz_aware b = false)).
Proof.
  unfold iso_key. destruct (tz_aware a), (tz_aware b); split; intros H;
    try (destruct H as [H|(H & [H1|H1])]; try discriminate; lia);
    destruct (Z.eq_dec (instant a) (instant b)); try (right; auto; fail); left; lia.
Qed.

(** X16. The queries compare the ISO texts of the timestamps.
    [get_since] gives exactly the containers updated at a later instant
    than the cutoff (or at the same instant, when the stored time has a
    time zone and the cutoff has none); [get_logs_since] gives exactly
    the audit entries created at a later instant, and those created at
    the instant of the cutoff unless the cutoff has a time zone and the
    stored time has none.  Both come by decreasing text; [get_all] gives
    every container by decreasing update time, and a limit of 0 is no
    limit. *)
Theorem queries_since_are_ordered (since : datetime) (db : DB) :
  descending (fun c => iso_key (updated_at c)) (get_since since db)
  /\ (forall c, In c (get_since since db)
                <-> In c (containers db)
                    /\ (instant (updated_at c) > instant since
                        \/ (instant (updated_at c) = instant since
                            /\ tz_aware (updated_at c) = true /\ tz_aware since = false)))
  /\ descending (fun l => iso_key (created_at l)) (get_logs_since since db)
  /\ (forall l, In l (get_logs_since since db)
                <-> In l (audit_logs db)
                    /\ (instant (created_at l) > instant since
                        \/ (instant (created_at l) = instant since
                            /\ (tz_aware (created_at l) = true \/ tz_aware since = false))))
  /\ descending (fun c => iso_key (updated_at c)) (get_all None db)
  /\ Permutation (get_all None db) (containers db)
  /\ get_all (Some 0) db = get_all None db.
Proof.
  unfold get_since, get_logs_since, get_all, limited.
  split; [apply order_desc_sorted|]. split.
  { intros c. rewrite <- iso_key_gt. split.
    - intros H. apply (Permutation_in _ (order_desc_perm _ _)) in H.
      apply filter_In in H. destruct H as [H1 H2]. split; [exact H1|].
      apply Z.gtb_lt in H2. lia.
    - intros [H1 H2]. apply (Permutation_in _ (Permutation_sym (order_desc_perm _ _))).
      apply filter_In. split; [exact H1|]. apply Z.gtb_lt. lia. }
  split; [apply order_desc_sorted|]. split.
  { intros l. rewrite <- iso_key_ge. split.
    - intros H. apply (Permutation_in _ (order_desc_perm _ _)) in H.
      apply filter_In in H. destruct H as [H1 H2]. split; [exact H1|].
      apply Z.geb_le in H2. lia.
    - intros [H1 H2]. apply (Permutation_in _ (Permutation_sym (order_desc_perm _ _))).
      apply filter_In. split; [exact H1|]. apply Z.geb_le. lia. }
  split; [apply order_desc_sorted|]. split; [apply order_desc_perm|reflexivity].
Qed.

Lemma find_app_none {A} (p : A -> bool) l x :
  find p l = None -> find p (l ++ [x]) = if p x then Some x else None.
Proof.
  induction l as [|y tl IH]; cbn; [reflexivity|].
  destruct (p y); [discriminate|]. exact IH.
Qed.

Lemma find_app_some {A} (p : A -> bool) l x y :
  find p l = Some y -> find p (l ++ [x]) = Some y.
Proof.
  induction l as [|z tl IH]; cbn; [discriminate|].
  destruct (p z); [auto|]. exact IH.
Qed.

Lemma existsb_find_none {A} (p : A -> bool) l : existsb p l = false <-> find p l = None.
Proof.
  induction l as [|y tl IH]; cbn; [tauto|].
  destruct (p y); cbn; [split; discriminate|exact IH].
Qed.

(** X17. Creating a container whose QR code is already in the store is
    refused with the UNIQUE error; otherwise the new row, stamped with the
    current time, is appended, is found by its identifier and by its QR
    code, and every other lookup by identifier, the audit entries and the
    device status are as before. *)
Theorem create_then_lookup (now : datetime) (data : ContainerCreate) (db : DB) :
  get_by_id (uuid_of (uuid_counter db)) db = None ->
  let c := mkContainer (uuid_of (uuid_counter db)) (cc_qr_code data)
             (cc_is_returnable data) (cc_due_date data) now in
  match get_by_qr_code (cc_qr_code data) db with
  | Some _ => create now data db = DatabaseError UNIQUE_constraint
  | None =>
      exists db',
        create now data db = Ok (Some c) db'
        /\ get_by_id (id c) db' = Some c
        /\ get_by_qr_code (qr_code c) db' = Some c
        /\ containers db' = containers db ++ [c]
        /\ audit_logs db' = audit_logs db
        /\ device_status db' = device_status db
        /\ (forall other, other <> id c -> get_by_id other db' = get_by_id other db)
  end.
Proof.
  intros Hfresh c. unfold create, create_with_id, insert_container.
  cbn [containers bump_uuid id qr_code].
  replace (existsb (fun c' => String.eqb (id c') (uuid_of (uuid_counter db))) (containers db))
    with false by (symmetry; apply existsb_find_none; exact Hfresh).
  unfold get_by_qr_code in *. unfold get_by_id in *.
  destruct (find (fun c0 => String.eqb (qr_code c0) (cc_qr_code data)) (containers db))
    as [c0|] eqn:Eq.
  - replace (existsb (fun c' => String.eqb (qr_code c') (cc_qr_code data)) (containers db))
      with true; [reflexivity|].
    symmetry. apply existsb_exists. apply find_some in Eq. exists c0. exact Eq.
  - replace (existsb (fun c' => String.eqb (qr_code c') (cc_qr_code data)) (containers db))
      with false by (symmetry; apply existsb_find_none; exact Eq).
    eexists. cbn [containers set_containers bump_uuid].
    rewrite (find_app_none _ _ _ Hfresh). cbn [id]. rewrite String.eqb_refl.
    split; [reflexivity|]. cbn [containers set_containers audit_logs device_status].
    split; [rewrite (find_app_none _ _ _ Hfresh); cbn [id]; rewrite String.eqb_refl; reflexivity|].
    split; [rewrite (find_app_none _ _ _ Eq); cbn [qr_code c]; rewrite String.eqb_refl; reflexivity|].
    repeat split.
    intros other Ho.
    destruct (find (fun c0 => String.eqb (id c0) other) (containers db)) as [y|] eqn:E.
    + apply (find_app_some _ _ _ _ E).
    + rewrite (find_app_none _ _ _ E). cbn [id c].
      replace (String.eqb (uuid_of (uuid_counter db)) other) with false; [reflexivity|].
      symmetry. apply String.eqb_neq. intros Hx. apply Ho. symmetry. exact Hx.
Qed.

Lemma create_then_lookup_witness :
  exists db',
    create (mkDatetime 9 false) (mkContainerCreate "QR0001" true None) (mkDB [] None [] 0)
    = Ok (Some (mkContainer (uuid_of 0) "QR0001" true None (mkDatetime 9 false))) db'
    /\ get_by_qr_code "QR0001" db'
       = Some (mkContainer (uuid_of 0) "QR0001" true None (mkDatetime 9 false)).
Proof.
  destruct (create_then_lookup (mkDatetime 9 false) (mkContainerCreate "QR0001" true None)
              (mkDB [] None [] 0) eq_refl) as (db' & H1 & _ & H3 & _).
  exists db'. split; [exact H1|exact H3].
Defined.

Lemma find_map_other (cid other : string) (s : set_clauses) (l : list Container) :
  other <> cid ->
  find (fun c => String.eqb (id c) other)
       (map (fun c => if String.eqb (id c) cid then apply_clauses s c else c) l)
  = find (fun c => String.eqb (id c) other) l.
Proof.
  intros Ho. induction l as [|c tl IH]; cbn; [reflexivity|].
  destruct (String.eqb (id c) cid) eqn:E.
  - rewrite apply_clauses_id. apply String.eqb_eq in E.
    replace (String.eqb (id c) other) with false
      by (symmetry; apply String.eqb_neq; congruence).
    exact IH.
  - destruct (String.eqb (id c) other); [reflexivity|exact IH].
Qed.

Lemma map_id_updated (cid : string) (s : set_clauses) (l : list Container) :
  map id (map (fun c => if String.eqb (id c) cid then apply_clauses s c else c) l) = map id l.
Proof.
  rewrite map_map. apply map_ext. intros c.
  destruct (String.eqb (id c) cid); reflexivity.
Qed.

Lemma exec_update_frame (cid : string) (s : set_clauses) (db : DB) n db' :
  exec_update cid s db = Ok n db' ->
  map id (containers db') = map id (containers db)
  /\ audit_logs db' = audit_logs db /\ device_status db' = device_status db
  /\ uuid_counter db' = uuid_counter db
  /\ (forall other, other <> cid -> get_by_id other db' = get_by_id other db)
  /\ (get_by_id cid db = None -> n = 0 /\ db' = db).
Proof.
  unfold exec_update. destruct (get_by_id cid db) as [c0|] eqn:Ec.
  - match goal with |- (if ?b then _ else _) = _ -> _ => destruct b end; [discriminate|].
    intros H. injection H as <- <-. cbn [containers set_containers audit_logs device_status uuid_counter].
    split; [apply map_id_updated|]. repeat split; try discriminate.
    intros other Ho. unfold get_by_id. cbn [containers]. apply find_map_other, Ho.
  - intros H. injection H as <- <-. repeat split; reflexivity.
Qed.

(** X18. An update that goes through keeps the identifiers of the rows
    and their order, the audit entries and the device status, and leaves
    every row with another identifier as it was; for a missing identifier
    it returns nothing and changes nothing, and with no entries it
    returns the row as stored. *)
Theorem update_touches_one_row (now : datetime) (cid : string) (updates : dict) (db : DB)
    (r : option Container) (db' : DB) :
  update now cid updates db = Ok r db' ->
  map id (containers db') = map id (containers db)
  /\ audit_logs db' = audit_logs db /\ device_status db' = device_status db
  /\ (forall other, other <> cid -> get_by_id other db' = get_by_id other db)
  /\ (get_by_id cid db = None -> r = None /\ db' = db)
  /\ (updates = [] -> r = get_by_id cid db /\ db' = db).
Proof.
  unfold update. destruct (dict_is_empty updates) eqn:Ee.
  { intros H. injection H as <- <-. repeat split; auto. }
  destruct (build_clauses _ no_clauses) as [s|]; [|discriminate].
  destruct (clauses_empty s).
  { intros H. injection H as <- <-. repeat split; auto. }
  destruct (exec_update cid s db) as [n db1|e] eqn:Ex; [|discriminate].
  destruct (exec_update_frame _ _ _ _ _ Ex) as (H1 & H2 & H3 & _ & H5 & H6).
  intros H.
  assert (Hdb : db' = db1) by (destruct (n =? 0); injection H as _ <-; reflexivity).
  subst db1. split; [exact H1|]. split; [exact H2|]. split; [exact H3|].
  split; [exact H5|]. split.
  - intros Hn. destruct (H6 Hn) as [-> Hd]. cbn in H. injection H as <-. split; auto.
  - intros ->. discriminate.
Qed.

Lemma update_touches_one_row_witness :
  exists r db',
    update (mkDatetime 9 false) "c1" Scenario.server_updates (Scenario.db_c1 None) = Ok r db'
    /\ map id (containers db') = ["c1"%string].
Proof.
  destruct (update (mkDatetime 9 false) "c1" Scenario.server_updates (Scenario.db_c1 None))
    as [r db'|e] eqn:E; [|vm_compute in E; discriminate].
  exists r, db'. split; [reflexivity|].
  exact (proj1 (update_touches_one_row _ _ _ _ _ _ E)).
Defined.

(** X19. An update that carries only a [due_date] whose value is falsy
    (None, for one) leaves the due date of the row as it was and only
    stamps [updatedAt]: the due date cannot be cleared through
    [update]. *)
Theorem falsy_due_date_is_ignored (now : datetime) (cid : string) (v : pyval) (db : DB)
    (c0 : Container) :
  get_by_id cid db = Some c0 ->
  truthy v = false ->
  exists db',
    update now cid [("due_date"%string, v)] db
    = Ok (Some (mkContainer (id c0) (qr_code c0) (is_returnable c0) (due_date c0) now)) db'
    /\ get_by_id cid db'
       = Some (mkContainer (id c0) (qr_code c0) (is_returnable c0) (due_date c0) now).
Proof.
  intros Hc Hv. unfold update. cbn [dict_is_empty dict_set].
  change (String.eqb "updatedAt" "due_date") with false. cbv iota.
  cbn [dict_set build_clauses].
  change (String.eqb "due_date" "due_date") with true.
  change (String.eqb "due_date" "is_returnable") with false.
  change (String.eqb "due_date" "qr_code") with false.
  change (String.eqb "due_date" "updatedAt") with false.
  change (String.eqb "updatedAt" "due_date") with false.
  change (String.eqb "updatedAt" "is_returnable") with false.
  change (String.eqb "updatedAt" "qr_code") with false.
  change (String.eqb "updatedAt" "updatedAt") with true.
  rewrite Hv. cbn [andb set_dueDate set_isReturnable set_qrCode set_updatedAt no_clauses
                   clauses_empty].
  erewrite exec_update_ok by (eauto || reflexivity).
  cbn [Z.eqb]. rewrite get_by_id_updated, Hc. cbn [option_map apply_clauses set_dueDate
    set_isReturnable set_qrCode set_updatedAt].
  eexists. split; [reflexivity|]. rewrite get_by_id_updated, Hc. reflexivity.
Qed.

Lemma falsy_due_date_is_ignored_witness :
  exists db',
    update (mkDatetime 9 false) "c1" [("due_date"%string, VNone)]
      (Scenario.db_c1 (Some (mkDatetime 50 true)))
    = Ok (Some (mkContainer "c1" "ABCDEF" true (Some (mkDatetime 50 true)) (mkDatetime 9 false)))
         db'
    /\ get_by_id "c1" db'
       = Some (mkContainer "c1" "ABCDEF" true (Some (mkDatetime 50 true)) (mkDatetime 9 false)).
Proof.
  exact (falsy_due_date_is_ignored (mkDatetime 9 false) "c1" VNone
           (Scenario.db_c1 (Some (mkDatetime 50 true)))
           (Scenario.container_c1 (Some (mkDatetime 50 true))) eq_refl eq_refl).
Defined.

Lemma find_filter_same (cid : string) (l : list Container) :
  find (fun c => String.eqb (id c) cid)
       (filter (fun c => negb (String.eqb (id c) cid)) l) = None.
Proof.
  induction l as [|c tl IH]; cbn; [reflexivity|].
  destruct (String.eqb (id c) cid) eqn:E; cbn; [exact IH|]. rewrite E. exact IH.
Qed.

Lemma find_filter_other (cid other : string) (l : list Container) :
  other <> cid ->
  find (fun c => String.eqb (id c) other)
       (filter (fun c => negb (String.eqb (id c) cid)) l)
  = find (fun c => String.eqb (id c) other) l.
Proof.
  intros Ho. induction l as [|c tl IH]; cbn; [reflexivity|].
  destruct (String.eqb (id c) cid) eqn:E; cbn.
  - apply String.eqb_eq in E.
    replace (String.eqb (id c) other) with false
      by (symmetry; apply String.eqb_neq; congruence).
    exact IH.
  - destruct (String.eqb (id c) other); [reflexivity|exact IH].
Qed.

Lemma existsb_negb_negb {A} (p : A -> bool) (l : list A) :
  existsb (fun x => negb (negb (p x))) l = existsb p l.
Proof. induction l as [|x tl IH]; cbn; [reflexivity|]. rewrite negb_involutive, IH. reflexivity. Qed.

Lemma filter_shorter {A} (p : A -> bool) (l : list A) :
  Nat.ltb (length (filter p l)) (length l) = existsb (fun x => negb (p x)) l.
Proof.
  induction l as [|x tl IH]; [reflexivity|]. cbn [filter existsb length].
  pose proof (filter_length_le p tl) as Hle.
  destruct (p x); cbn [negb orb length].
  - rewrite <- IH. destruct (Nat.ltb_spec (length (filter p tl)) (length tl));
      [apply Nat.ltb_lt|apply Nat.ltb_ge]; lia.
  - apply Nat.ltb_lt. lia.
Qed.

(** X20. Deleting a container raises the FOREIGN KEY error exactly when
    the row exists and an audit entry refers to it, and this is the only
    error.  Otherwise the row is removed: it is no longer found, the
    result tells whether it existed, and the other rows and the audit
    entries are untouched. *)
Theorem delete_then_lookup (cid : string) (db : DB) :
  (delete cid db = DatabaseError FOREIGN_KEY_constraint
   <-> get_by_id cid db <> None
       /\ exists l, In l (audit_logs db) /\ Store.container_id l = Some cid)
  /\ match delete cid db with
     | Ok b db' =>
         get_by_id cid db' = None
         /\ b = match get_by_id cid db with Some _ => true | None => false end
         /\ (forall other, other <> cid -> get_by_id other db' = get_by_id other db)
         /\ audit_logs db' = audit_logs db
     | DatabaseError e => e = FOREIGN_KEY_constraint
     end.
Proof.
  unfold delete. cbv zeta.
  destruct (existsb (fun c => String.eqb (id c) cid) (containers db)) eqn:Ep.
  - destruct (existsb _ (audit_logs db)) eqn:Er; cbn [andb].
    + split; [|reflexivity]. split; [intros _|reflexivity]. split.
      * unfold get_by_id. intros Hn. apply existsb_find_none in Hn. congruence.
      * apply existsb_exists in Er. destruct Er as [l [Hin Hl]]. exists l.
        split; [exact Hin|]. destruct (Store.container_id l) as [c|]; [|discriminate].
        apply String.eqb_eq in Hl. congruence.
    + split.
      * split; [discriminate|]. intros [_ [l [Hin Hl]]]. exfalso.
        assert (Ht : existsb (fun l0 => match Store.container_id l0 with
                                        | Some c => String.eqb c cid
                                        | None => false
                                        end) (audit_logs db) = true).
        { apply existsb_exists. exists l. split; [exact Hin|].
          rewrite Hl. apply String.eqb_refl. }
        congruence.
      * unfold get_by_id. cbn [containers set_containers audit_logs].
        split; [apply find_filter_same|]. split.
        -- rewrite filter_shorter.
           destruct (find (fun c => String.eqb (id c) cid) (containers db)) eqn:Ef.
           ++ rewrite existsb_negb_negb. exact Ep.
           ++ apply existsb_find_none in Ef. congruence.
        -- split; [|reflexivity]. intros other Ho. apply find_filter_other, Ho.
  - cbn [andb]. split.
    + split; [discriminate|]. intros [Hp _]. exfalso. apply Hp.
      unfold get_by_id. apply existsb_find_none. exact Ep.
    + unfold get_by_id. cbn [containers set_containers audit_logs].
      split; [apply find_filter_same|]. split.
      * rewrite filter_shorter.
        replace (find (fun c => String.eqb (id c) cid) (containers db)) with (@None Container)
          by (symmetry; apply existsb_find_none; exact Ep).
        rewrite existsb_negb_negb. exact Ep.
      * split; [|reflexivity]. intros other Ho. apply find_filter_other, Ho.
Qed.

End TableFacts.

(** ** Audit logger and QR decision policy *)

Module PolicyFacts.
Import Codec Py World Link Decision Engine Observe Scenario CodecFacts MonadFacts LinkFacts
  DecisionFacts EngineFacts StoreFacts ScanFacts.

(** X21. An audit entry with a non-empty container reference is always
    stored, and exactly one row is added: with the reference when the
    container is in the store, and otherwise, after the FOREIGN KEY
    failure, without the reference and with the identifier appended to the
    description. *)
Theorem audit_entry_is_always_stored (w : World) (t : Store.LogType) (desc cid : string)
    (off : bool) :
  cid <> ""%string ->
  exists w' row,
    Audit.log_to_database t desc (Some cid) off w = (Ret tt, w')
    /\ Store.audit_logs (db w') = (Store.audit_logs (db w) ++ [row])%list
    /\ Store.containers (db w') = Store.containers (db w)
    /\ Store.log_type row = t /\ Store.is_offline_action row = off
    /\ Store.created_at row = mkDatetime (clock (env w)) false
    /\ Store.container_id row = (if known_container cid w then Some cid else None)
    /\ Store.description row
       = (if known_container cid w then desc else not_found_note desc cid).
Proof.
  intros Hne. unfold known_container.
  assert (Hn : Audit.nonempty (Some cid) = true).
  { cbn. apply negb_true_iff, String.eqb_neq. exact Hne. }
  destruct (existsb (fun c => String.eqb (Store.id c) cid) (Store.containers (db w))) eqn:E.
  - unfold Audit.log_to_database, Audit.create_log, Audit.app_log_line. run_monad.
    cbn -[Store.create_log]. unfold Store.create_log.
    cbn [Store.alc_container_id Store.containers Store.bump_uuid]. rewrite E. cbn.
    eexists. eexists. split; [reflexivity|]. cbn. repeat split.
  - unfold Audit.log_to_database, Audit.create_log, Audit.app_log_line. run_monad.
    cbn -[Store.create_log Audit.nonempty]. unfold Store.create_log at 1.
    cbn [Store.alc_container_id Store.containers Store.bump_uuid]. rewrite E.
    cbn -[Audit.nonempty Store.create_log]. rewrite Hn.
    cbn. eexists. eexists. split; [reflexivity|]. cbn. repeat split.
Qed.

Lemma audit_entry_is_always_stored_witness :
  exists w' row,
    Audit.log_to_database Store.RETURN_INVALID "rejected" (Some "gone"%string) true (world0 0 [])
    = (Ret tt, w')
    /\ Store.audit_logs (db w') = [row]
    /\ Store.container_id row = None
    /\ Store.description row = not_found_note "rejected" "gone".
Proof.
  assert (H : "gone"%string <> ""%string) by discriminate.
  destruct (audit_entry_is_always_stored (world0 0 []) Store.RETURN_INVALID "rejected" "gone"
              true H) as (w' & row & H1 & H2 & _ & _ & _ & _ & H7 & H8).
  exists w', row. repeat split; assumption.
Defined.

(** X22. A scan that passes the check of the QR processor but whose
    code is not in the local store is rejected without any request to the
    backend and without an audit entry: the validation falls through to
    the offline fallback, which does not find it either. *)
Theorem unknown_container_is_rejected_locally (w : World) (key qr : string) :
  qr_processor (uart w) = Some key ->
  api_service (uart w) = true -> db_manager (uart w) = true ->
  QR.validation (QR.process_qr_code key qr) = QR.VALID ->
  (forall code, QR.container_id (QR.process_qr_code key qr) = Some code ->
                Store.get_by_qr_code code (db w) = None) ->
  validate_container_qr qr w =
    (Ret false,
     appended [Log WARNING "Container not found in local database for QR";
               Log INFO "Using offline fallback validation";
               Log WARNING "Container not found in local database"] w).
Proof.
  intros Hk Ha Hd Hv Hg.
  destruct (valid_result_shape key qr Hv) as (code & h & _ & Hr & _ & Hl & _).
  rewrite Hr in Hg. specialize (Hg code eq_refl).
  assert (Hne : String.eqb code "" = false).
  { apply String.eqb_neq. intros ->. discriminate. }
  unfold validate_container_qr. run_monad. cbv beta iota. rewrite Hk. cbv beta iota zeta.
  rewrite Hr. cbn [QR.is_fraud_attempt QR.validation QR.container_id Audit.nonempty
                   QR.validation_value].
  rewrite Hne.
  change (String.eqb "valid" "fraud_attempt") with false.
  change (String.eqb "valid" "valid") with true.
  cbn [orb negb].
  unfold validate_with_server, handle_offline_fallback. run_monad. cbv beta iota.
  rewrite Ha, Hd. cbn [negb orb]. cbv beta iota.
  unfold gets. cbv beta iota. rewrite Hg. cbv beta iota.
  destruct w as [u a s d e t]. cbn in Hg, Hd |- *. rewrite Hd. cbn. rewrite Hg.
  unfold appended. cbn. rewrite <- !app_assoc. reflexivity.
Qed.

Lemma unknown_container_is_rejected_locally_witness :
  fst (validate_container_qr "https://paka.eco/QR/ABCDEF/Z7RHIF" (world0 1000 [])) = Ret false.
Proof.
  rewrite (unknown_container_is_rejected_locally (world0 1000 []) "default_key"
             "https://paka.eco/QR/ABCDEF/Z7RHIF").
  - reflexivity.
  - reflexivity.
  - reflexivity.
  - reflexivity.
  - vm_compute. reflexivity.
  - intros code H. vm_compute in H. injection H as <-. reflexivity.
Defined.

Lemma invalid_result_shape key qr :
  QR.validation (QR.process_qr_code key qr) <> QR.VALID ->
  exists msg,
    QR.process_qr_code key qr
    = QR.mkQRResult (QR.strip qr) QR.FRAUD_ATTEMPT None (Some msg) true
        (QR.parse_scanned_url (QR.strip qr)).
Proof.
  unfold QR.process_qr_code. cbv zeta.
  destruct (QR.parse_scanned_url (QR.strip qr)) as [[code h]|] eqn:Ep.
  - destruct (negb (String.eqb h (QR.generate_hmac_hash key code))).
    + intros _. eexists. reflexivity.
    + intros H. exfalso. apply H. reflexivity.
  - intros _. eexists. reflexivity.
Qed.

(** X23. A scan the QR processor does not hold valid is refused, no
    request is sent to the backend, and one audit entry of type ERROR
    without container reference records the security event with the
    message of the processor. *)
Theorem refused_scan_is_audited (w : World) (key qr : string) :
  qr_processor (uart w) = Some key ->
  audit_logger (uart w) = true ->
  QR.validation (QR.process_qr_code key qr) <> QR.VALID ->
  exists line msg details,
    QR.error_message (QR.process_qr_code key qr) = Some msg /\
    validate_container_qr qr w =
      (Ret false,
       appended [Log ERROR line]
         (audited Store.ERROR
            ("Security Event [fraud_attempt]: QR fraud attempt detected: " ++ msg
             ++ " - Details: " ++ details)%string None false
            (appended [Log WARNING "Fraud attempt detected"] w))).
Proof.
  intros Hk Ha Hv.
  destruct (invalid_result_shape key qr Hv) as [msg Hr].
  eexists. exists msg. eexists. split; [rewrite Hr; reflexivity|].
  unfold validate_container_qr. run_monad. cbv beta iota. rewrite Hk. cbv beta iota zeta.
  rewrite Hr. cbn [QR.is_fraud_attempt QR.validation QR.container_id Audit.nonempty
                   QR.validation_value QR.error_message orb].
  cbv beta iota.
  destruct w as [u a s d e t]. cbn in Ha, Hk |- *. rewrite Ha.
  unfold Audit.log_security_event, Audit.log_error, Audit.log_to_database, Audit.create_log,
    Audit.app_log_line. run_monad. cbn.
  reflexivity.
Qed.

Lemma refused_scan_is_audited_witness :
  exists row,
    Store.audit_logs
      (db (snd (validate_container_qr "https://paka.eco/QR/ABCDEF/AAAAAA" (world0 1000 []))))
    = [row] /\ Store.log_type row = Store.ERROR.
Proof.
  assert (Hv : QR.validation (QR.process_qr_code "default_key" "https://paka.eco/QR/ABCDEF/AAAAAA")
               <> QR.VALID) by (vm_compute; discriminate).
  destruct (refused_scan_is_audited (world0 1000 []) "default_key"
              "https://paka.eco/QR/ABCDEF/AAAAAA" eq_refl eq_refl Hv) as (line & msg & details & _ & H).
  rewrite H. eexists. split; reflexivity.
Defined.

Lemma existsb_id_updated (cid cid' : string) (s : Store.set_clauses) (l : list Store.Container) :
  existsb (fun c => String.eqb (Store.id c) cid')
    (map (fun c => if String.eqb (Store.id c) cid then Store.apply_clauses s c else c) l)
  = existsb (fun c => String.eqb (Store.id c) cid') l.
Proof.
  induction l as [|c tl IH]; cbn; [reflexivity|].
  rewrite IH. destruct (String.eqb (Store.id c) cid); reflexivity.
Qed.

(** X24. When the backend answers a validation with [isReturnable], its
    verdict is the result whatever the local record says: the local
    record takes the verdict as its [is_returnable] flag and the current
    time as [updatedAt], and one audit entry that is not offline, of type
    RETURN_VALID or RETURN_INVALID, refers to the container. *)
Theorem server_verdict_is_final (w : World) (key qr code : string) (c : Store.Container)
    (r : ValidateData) (cd : ContainerData) (b : bool) :
  qr_processor (uart w) = Some key ->
  api_service (uart w) = true -> db_manager (uart w) = true ->
  audit_logger (uart w) = true ->
  QR.validation (QR.process_qr_code key qr) = QR.VALID ->
  QR.container_id (QR.process_qr_code key qr) = Some code ->
  Store.get_by_qr_code code (db w) = Some c ->
  Store.id c <> ""%string ->
  validate_reply (env w) (Store.id c) = Response true (Some r) ->
  containerData r = Some cd ->
  cd_isReturnable cd = Some b ->
  exists w' c' row,
    validate_container_qr qr w = (Ret b, w')
    /\ Store.get_by_id (Store.id c) (db w') = Some c'
    /\ Store.is_returnable c' = b
    /\ Store.updated_at c' = mkDatetime (clock (env w)) false
    /\ Store.audit_logs (db w') = (Store.audit_logs (db w) ++ [row])%list
    /\ Store.log_type row = (if b then Store.RETURN_VALID else Store.RETURN_INVALID)
    /\ Store.is_offline_action row = false
    /\ Store.container_id row = Some (Store.id c).
Proof.
  intros Hk Ha Hd Hau Hv Hc Hq Hid Hrep Hcd Hb.
  destruct (valid_result_shape key qr Hv) as (code' & h & _ & Hr & _ & Hl & _).
  rewrite Hr in Hc. cbn in Hc. injection Hc as ->.
  assert (Hne : String.eqb code "" = false).
  { apply String.eqb_neq. intros ->. discriminate. }
  destruct (get_by_qr_code_id _ _ _ Hq) as [c0 Hc0].
  pose proof (has_id_of_qr _ _ _ Hq) as Hex.
  apply String.eqb_neq in Hid.
  destruct w as [u a s d e t]. cbn [uart db env trace] in *.
  unfold validate_container_qr. run_monad. cbv beta iota. cbn [uart]. rewrite Hk.
  cbv beta iota zeta.
  rewrite Hr. cbn [QR.is_fraud_attempt QR.validation QR.container_id Audit.nonempty
                   QR.validation_value].
  rewrite Hne.
  change (String.eqb "valid" "fraud_attempt") with false.
  change (String.eqb "valid" "valid") with true.
  cbn [orb negb].
  unfold validate_with_server, api_validate_container. run_monad. cbv beta iota.
  cbn [uart]. rewrite Ha, Hd. cbn [negb orb]. cbv beta iota.
  unfold gets, get. cbv beta iota. cbn [db]. rewrite Hq. cbv beta iota.
  cbn [env set_trace]. rewrite Hrep. cbv beta iota.
  unfold handle_server_response, update_local_container, Audit.log_return_valid,
    Audit.log_return_invalid. run_monad. unfold gets. rewrite Hcd.
  destruct cd as [ir ts]. cbn [cd_isReturnable cd_updatedAt] in *. subst ir.
  cbn -[Store.update Audit.log_to_database Store.get_by_qr_code String.eqb].
  rewrite Hq.
  cbn -[Store.update Audit.log_to_database Store.get_by_qr_code String.eqb].
  rewrite Hd, Hid.
  cbn -[Store.update Audit.log_to_database Store.get_by_qr_code String.eqb].
  rewrite Hq, Hau.
  change (String.eqb "updatedAt" "is_returnable") with false. cbv iota.
  destruct ts as [ts|];
    cbn -[Store.update Audit.log_to_database];
    unfold Store.update;
    cbn -[Store.exec_update Store.get_by_id Audit.log_to_database];
    (erewrite exec_update_ok by (try exact Hc0; reflexivity));
    cbn -[Store.get_by_id Store.set_containers Audit.log_to_database];
    destruct b; cbn -[Store.get_by_id Store.set_containers Audit.log_to_database];
    match goal with
    | |- context [Audit.log_to_database ?ty ?ds (Some ?i) ?o ?w0] =>
        let Hl := fresh "Hl" in
        let line := fresh "line" in
        assert (He : existsb (fun c1 => String.eqb (Store.id c1) i)
                       (Store.containers (db w0)) = true)
          by (unfold set_trace, set_db; cbn [db Store.containers Store.set_containers];
              rewrite existsb_id_updated; exact Hex);
        destruct (log_to_database_existing w0 ty ds i o He) as [line Hl]; rewrite Hl
    end;
    eexists; eexists; eexists; (split; [reflexivity|]);
    unfold audited, set_trace, set_db, Store.set_audit_logs, Store.bump_uuid, Store.set_containers;
    cbn [db Store.audit_logs Store.containers Store.uuid_counter];
    (split; [unfold Store.get_by_id; cbn [Store.containers]; rewrite find_updated;
             unfold Store.get_by_id in Hc0; rewrite Hc0; reflexivity|]);
    repeat split.
Qed.

Lemma server_verdict_is_final_witness :
  exists w' c',
    validate_container_qr "https://paka.eco/QR/ABCDEF/Z7RHIF" (world_online_c1 1000 false)
    = (Ret false, w')
    /\ Store.get_by_id "c1" (db w') = Some c'
    /\ Store.is_returnable c' = false.
Proof.
  assert (Hid : Store.id (container_c1 None) <> ""%string) by discriminate.
  assert (Hv : QR.validation (QR.process_qr_code "default_key" "https://paka.eco/QR/ABCDEF/Z7RHIF")
               = QR.VALID) by (vm_compute; reflexivity).
  assert (Hc : QR.container_id (QR.process_qr_code "default_key" "https://paka.eco/QR/ABCDEF/Z7RHIF")
               = Some "ABCDEF"%string) by (vm_compute; reflexivity).
  destruct (server_verdict_is_final (world_online_c1 1000 false) "default_key"
              "https://paka.eco/QR/ABCDEF/Z7RHIF" "ABCDEF"
              (container_c1 None) (mkValidateData (Some (mkContainerData (Some false) None)))
              (mkContainerData (Some false) None) false
              eq_refl eq_refl eq_refl eq_refl Hv Hc eq_refl Hid eq_refl eq_refl eq_refl)
    as (w' & c' & row & H1 & H2 & H3 & _).
  exists w', c'. repeat split; assumption.
Defined.

End PolicyFacts.

(** ** Mode changes, healthcheck and sync *)

Module ModeFacts.
Import Codec Py World Link Observe Scenario MonadFacts LinkFacts DecisionFacts Service
  ServiceFacts.

Lemma log_info_eq desc w :
  exists line,
    Audit.log_info desc w
    = (Ret tt, appended [Log INFO line] (audited Store.INFO desc None false w)).
Proof.
  unfold Audit.log_info, Audit.log_to_database, Audit.create_log, Audit.app_log_line.
  run_monad. cbn. eexists. reflexivity.
Qed.

(** X25. Leaving inactive mode always sends the two lights-off commands
    and the door unblock and switches scanning on, also while secure mode
    is still set; leaving secure mode while the device is inactive sends
    nothing and leaves scanning as it was. *)
Theorem mode_exits_are_not_symmetric (w : World) :
  (serial_connection (uart w) = true ->
   exists w' line,
     Main.exit_inactive_mode w = (Ret tt, w')
     /\ device_inactive (app w') = false
     /\ device_secure_mode (app w') = device_secure_mode (app w)
     /\ scan_enabled (app w') = (qr_scanner (app w) || scan_enabled (app w))%bool
     /\ trace w'
        = (trace w ++ [Log INFO "Exiting inactive mode - device is now active"]
             ++ command_frames (message_id_counter (uart w)) release_commands
             ++ [Log INFO line])%list)
  /\ (device_inactive (app w) = true ->
      exists w' line,
        Main.exit_secure_mode w = (Ret tt, w')
        /\ device_secure_mode (app w') = false
        /\ device_inactive (app w') = true
        /\ scan_enabled (app w') = scan_enabled (app w)
        /\ uart w' = uart w
        /\ trace w'
           = (trace w
              ++ [Log INFO "Exiting secure mode - server connection restored";
                  Log INFO "Device still in inactive mode - keeping restrictions in place";
                  Log INFO line])%list).
Proof.
  split.
  - intros Hc. unfold Main.exit_inactive_mode, Main.lights_off_and_unblock,
      Main.switch_scanning, turn_all_lights_off, unblock_doors.
    destruct w as [u a s d e t]. destruct u. cbn in Hc. subst.
    rewrite bind_log_eq, bind_upd_app_eq.
    unfold try_except, bind.
    rewrite (control_light_eq LightPosition_CONTAINER LightColor_DISABLE_ALL LightType_STEADY
               x00 x03 x00) by reflexivity.
    rewrite (control_light_eq LightPosition_COVER LightColor_DISABLE_ALL LightType_STEADY
               x01 x03 x00) by reflexivity.
    unfold ret at 1.
    rewrite (control_door_eq DoorAction_UNBLOCK x01) by reflexivity.
    unfold ret at 1. unfold gets at 1.
    destruct a as [inact sec scanner scan].
    cbn [app set_app sent appended set_trace set_uart Main.set_device_inactive qr_scanner].
    destruct scanner; [unfold upd_app, modify|unfold ret];
      match goal with |- context [Audit.log_info ?ds ?w0] =>
        destruct (log_info_eq ds w0) as [line Hl]; rewrite Hl end;
      eexists; exists line; (split; [reflexivity|]);
      cbn -[Z.modulo]; rewrite <- ?app_assoc; repeat split; rewrite ?orb_true_r; reflexivity.
  - intros Hi. unfold Main.exit_secure_mode.
    destruct w as [u a s d e t]. destruct a as [inact sec scanner scan]. cbn in Hi. subst.
    rewrite bind_log_eq, bind_upd_app_eq.
    unfold bind, gets. cbn [app set_app set_trace Main.set_device_secure_mode device_inactive negb].
    rewrite log_eq.
    match goal with |- context [Audit.log_info ?ds ?w0] =>
      destruct (log_info_eq ds w0) as [line Hl]; rewrite Hl end.
    eexists; exists line; (split; [reflexivity|]).
    cbn. rewrite <- ?app_assoc. repeat split; reflexivity.
Qed.

Lemma mode_exits_are_not_symmetric_witness :
  (exists w' line,
     Main.exit_inactive_mode (world_restricted 0) = (Ret tt, w')
     /\ device_secure_mode (app w') = true
     /\ scan_enabled (app w') = true
     /\ trace w'
        = ([Log INFO "Exiting inactive mode - device is now active"]
             ++ command_frames 0 release_commands ++ [Log INFO line])%list)
  /\ (exists w', Main.exit_secure_mode (world_restricted 0) = (Ret tt, w')
                 /\ uart w' = uart0 /\ scan_enabled (app w') = false).
Proof.
  destruct (mode_exits_are_not_symmetric (world_restricted 0)) as [H1 H2].
  destruct (H1 eq_refl) as (w1 & l1 & E1 & _ & E3 & E4 & E5).
  destruct (H2 eq_refl) as (w2 & l2 & F1 & _ & _ & F4 & F5 & _).
  split; [exists w1, l1; repeat split; assumption|exists w2; repeat split; assumption].
Defined.

Lemma settled_refl w : settled w w.
Proof. repeat split. Qed.

Lemma settled_trans a b c : settled a b -> settled b c -> settled a c.
Proof. unfold settled. intuition congruence. Qed.

Lemma requests_snoc t e : request e = false -> requests (t ++ [e]) = requests t.
Proof.
  intros H. unfold requests. rewrite filter_app. cbn. rewrite H. apply app_nil_r.
Qed.

Lemma settled_emit e : request e = false -> respects settled (emit e).
Proof. intros H w. repeat split. cbn. apply requests_snoc, H. Qed.

Lemma settled_log lvl msg : respects settled (log lvl msg).
Proof. apply settled_emit. reflexivity. Qed.

Lemma settled_upd_uart f : respects settled (upd_uart f).
Proof. intros w. repeat split. Qed.

Lemma settled_upd_app f : respects settled (upd_app f).
Proof. intros w. repeat split. Qed.

Lemma settled_create_log now a : respects settled (db_call (Store.create_log now a)).
Proof.
  apply (respects_db_call settled settled_refl). intros w r d H.
  unfold Store.create_log in H.
  destruct (negb _) in H; [discriminate|]. injection H as _ <-. repeat split.
Qed.

Lemma settled_pack vs : respects settled (pack vs).
Proof. apply respects_pack, settled_refl. Qed.

Create HintDb settled.
#[local] Hint Resolve settled_log settled_upd_uart settled_upd_app settled_create_log
  settled_pack : settled.

Ltac settled_leaf :=
  first [ solve [auto with settled] | apply settled_emit; reflexivity ].

Ltac settled_tac := respects_tac settled settled_refl settled_trans settled_leaf.

Lemma settled_send_message t p : respects settled (send_message t p).
Proof. unfold send_message, get_next_message_id, serial_write. settled_tac. Qed.

#[local] Hint Resolve settled_send_message : settled.

Lemma settled_log_to_database t d c o : respects settled (Audit.log_to_database t d c o).
Proof. unfold Audit.log_to_database, Audit.create_log, Audit.app_log_line. settled_tac. Qed.

#[local] Hint Resolve settled_log_to_database : settled.

Lemma settled_on_secure_mode_change b : respects settled (Main.on_secure_mode_change b).
Proof.
  unfold Main.on_secure_mode_change, Main.enter_secure_mode, Main.exit_secure_mode,
    Main.red_lights_and_block, Main.lights_off_and_unblock, Main.switch_scanning,
    Audit.log_info, set_cover_light_red, set_container_light_red, block_doors,
    turn_all_lights_off, unblock_doors, control_light, control_door.
  settled_tac.
Qed.

Lemma settled_on_device_status_change b : respects settled (Main.on_device_status_change b).
Proof.
  unfold Main.on_device_status_change, Main.enter_inactive_mode, Main.exit_inactive_mode,
    Main.red_lights_and_block, Main.lights_off_and_unblock, Main.switch_scanning,
    Audit.log_info, set_cover_light_red, set_container_light_red, block_doors,
    turn_all_lights_off, unblock_doors, control_light, control_door.
  settled_tac.
Qed.

Lemma returns_on_device_status_change b : returns (Main.on_device_status_change b).
Proof.
  unfold Main.on_device_status_change, Main.enter_inactive_mode, Main.exit_inactive_mode,
    Main.red_lights_and_block, Main.lights_off_and_unblock, Main.switch_scanning,
    Audit.log_info, set_cover_light_red, set_container_light_red, block_doors,
    turn_all_lights_off, unblock_doors.
  total; (eapply returns_control_light || eapply returns_control_door); reflexivity.
Qed.

Ltac run_mode_callback :=
  match goal with
  | |- context [Main.on_secure_mode_change ?b ?w3] =>
      let Hr := fresh "Hr" in
      let o := fresh "o" in
      let w4 := fresh "w4" in
      destruct (returns_on_secure_mode_change b w3) as [[] Hr];
      destruct (settled_on_secure_mode_change b w3) as (?E1 & ?E2 & ?E3 & ?E4);
      destruct (Main.on_secure_mode_change b w3) as [o w4];
      cbn [fst snd] in Hr, E1, E2, E3, E4; subst o
  | |- context [Main.on_device_status_change ?b ?w3] =>
      let Hr := fresh "Hr" in
      let o := fresh "o" in
      let w4 := fresh "w4" in
      destruct (returns_on_device_status_change b w3) as [[] Hr];
      destruct (settled_on_device_status_change b w3) as (?E1 & ?E2 & ?E3 & ?E4);
      destruct (Main.on_device_status_change b w3) as [o w4];
      cbn [fst snd] in Hr, E1, E2, E3, E4; subst o
  end.

Lemma check_secure_mode_outcome (w : World) :
  exists w',
    check_secure_mode w = (Ret tt, w')
    /\ env w' = env w
    /\ requests (trace w') = requests (trace w)
    /\ last_active_status (svc w') = last_active_status (svc w)
    /\ match Store.get_status (db w) with
       | Some ds =>
           Store.get_status (db w')
           = Some (with_safe_mode (secure_requested (clock (env w)) ds) ds)
           /\ last_secure_mode_status (svc w') = Some (secure_requested (clock (env w)) ds)
       | None =>
           Store.get_status (db w') = None
           /\ last_secure_mode_status (svc w') = Some false
       end.
Proof.
  unfold check_secure_mode.
  assert (Hi : forall d : datetime,
             instant (if negb (tz_aware d) then mkDatetime (instant d) true else d)
             = instant d)
    by (intros [i []]; reflexivity).
  unfold try_except, bind, gets, db_query, now_utc, log, emit, modify, db_call, ret,
    upd_svc, Store.update_status.
  destruct (Store.get_status (db w)) as [ds|] eqn:H.
  - cbn -[Main.on_secure_mode_change Z.gtb Z.sub days SECURE_MODE_THRESHOLD requests].
    rewrite H.
    cbn -[Main.on_secure_mode_change Z.gtb Z.sub days SECURE_MODE_THRESHOLD requests].
    rewrite Hi. unfold Store.get_status in H. unfold SECURE_MODE_THRESHOLD.
    fold (secure_requested (clock (env w)) ds).
    destruct (secure_requested (clock (env w)) ds) eqn:Hs;
      destruct (Store.is_in_safe_mode ds) eqn:Hst;
      cbn -[Main.on_secure_mode_change requests];
      destruct (last_secure_mode_status (svc w)) as [[|]|] eqn:Hl;
      destruct (secure_mode_callback (svc w)) eqn:Hc;
      cbn -[Main.on_secure_mode_change requests];
      try run_mode_callback;
      cbn -[requests]; eexists; (split; [reflexivity|]);
      cbn -[requests]; unfold Store.get_status;
      rewrite ?E1, ?E2, ?E3, ?E4; cbn -[requests]; rewrite ?H;
      rewrite ?requests_snoc by reflexivity;
      repeat split; try reflexivity;
      rewrite <- Hst at 1; rewrite with_safe_mode_same; reflexivity.
  - cbn -[Main.on_secure_mode_change requests]. rewrite H.
    cbn -[Main.on_secure_mode_change requests].
    destruct (last_secure_mode_status (svc w)) as [[|]|] eqn:Hl;
      destruct (secure_mode_callback (svc w)) eqn:Hc;
      cbn -[Main.on_secure_mode_change requests];
      try run_mode_callback;
      cbn -[requests]; eexists; (split; [reflexivity|]);
      cbn -[requests]; unfold Store.get_status in *;
      rewrite ?E1, ?E2, ?E3, ?E4; cbn -[requests]; rewrite ?H;
      repeat split; reflexivity.
Qed.

(** X26. After a healthcheck the backend answers with success, the
    status row holds the current time as [last_seen_at], the [active]
    value of the answer when it has one, and no safe mode; the watchdog
    that runs right after asks for normal mode; one request was sent. *)
Theorem successful_healthcheck_clears_safe_mode (w : World) (ds : Store.DeviceStatus)
    (active : option bool) :
  Store.get_status (db w) = Some ds ->
  healthcheck_reply (env w) (Store.version ds) (Store.update_failures ds)
  = Response true active ->
  exists w',
    do_healthcheck w = (Ret tt, w')
    /\ Store.get_status (db w')
       = Some (Store.mkDeviceStatus (Store.last_sync_at ds) (mkDatetime (clock (env w)) true)
                 (Store.version ds) (Store.update_failures ds)
                 (match active with Some b => b | None => Store.active ds end) false)
    /\ last_secure_mode_status (svc w') = Some false
    /\ last_active_status (svc w')
       = match active with Some b => Some b | None => last_active_status (svc w) end
    /\ requests (trace w')
       = (requests (trace w)
          ++ [PostHealthcheck (Store.version ds) (Store.update_failures ds)])%list.
Proof.
  intros H Hrep. unfold do_healthcheck.
  unfold try_except, bind, gets, get, db_query, now_utc, log, emit, modify, db_call, ret, raise,
    upd_svc, Store.update_status.
  cbn -[check_secure_mode Main.on_device_status_change requests]. rewrite H.
  cbn -[check_secure_mode Main.on_device_status_change requests]. rewrite Hrep.
  unfold Store.get_status in H.
  assert (Hfresh : forall a,
             secure_requested (clock (env w))
               (Store.mkDeviceStatus (Store.last_sync_at ds) (mkDatetime (clock (env w)) true)
                  (Store.version ds) (Store.update_failures ds) a false) = false).
  { intros a. unfold secure_requested. cbn. rewrite Z.sub_diag. reflexivity. }
  destruct active as [b|];
    cbn -[check_secure_mode Main.on_device_status_change requests];
    [destruct (last_active_status (svc w)) as [last|] eqn:Hl;
     [destruct (negb (Bool.eqb last b)) eqn:Hd;
      [destruct (device_status_callback (svc w)) eqn:Hc|]|]|];
    cbn -[check_secure_mode Main.on_device_status_change requests];
    try run_mode_callback;
    cbn -[check_secure_mode requests];
    match goal with |- context [check_secure_mode ?w3] =>
      destruct (check_secure_mode_outcome w3) as (w' & Hrun & He & Hq & Ha & Hst);
      rewrite Hrun; exists w'; (split; [reflexivity|]);
      unfold Store.get_status in Hst |- *;
      cbn -[requests secure_requested with_safe_mode] in Hst, He, Hq, Ha
    end;
    rewrite ?E1, ?E2, ?E3, ?E4 in *;
    cbn -[requests secure_requested with_safe_mode] in Hst, He, Hq, Ha;
    rewrite ?H in Hst; cbn -[requests secure_requested with_safe_mode] in Hst;
    destruct Hst as [Hst1 Hst2]; rewrite Hst1, Hst2, Ha, Hq.
  all: unfold Store.apply_status_update; cbn [Store.u_last_sync_at Store.u_last_seen_at
         Store.u_version Store.u_update_failures Store.u_active Store.u_is_in_safe_mode].
  all: rewrite ?Hfresh.
  all: rewrite ?requests_snoc by reflexivity.
  all: repeat split; try reflexivity.
  all: unfold requests; rewrite filter_app; reflexivity.
Qed.

(** X27. A healthcheck that raises adds one to [update_failures]; one
    answered with [success] false does not.  In both cases [last_seen_at]
    is kept and the safe-mode flag is what the watchdog asks for at that
    time. *)
Theorem only_unanswered_healthchecks_are_counted (w : World) (ds : Store.DeviceStatus) :
  Store.get_status (db w) = Some ds ->
  (healthcheck_reply (env w) (Store.version ds) (Store.update_failures ds) = RequestException ->
   exists w',
     do_healthcheck w = (Ret tt, w')
     /\ Store.get_status (db w')
        = Some (Store.mkDeviceStatus (Store.last_sync_at ds) (Store.last_seen_at ds)
                  (Store.version ds) (Store.update_failures ds + 1) (Store.active ds)
                  (secure_requested (clock (env w)) ds))
     /\ last_active_status (svc w') = last_active_status (svc w))
  /\ (forall active,
        healthcheck_reply (env w) (Store.version ds) (Store.update_failures ds)
        = Response false active ->
        exists w',
          do_healthcheck w = (Ret tt, w')
          /\ Store.get_status (db w')
             = Some (with_safe_mode (secure_requested (clock (env w)) ds) ds)
          /\ last_active_status (svc w') = last_active_status (svc w)).
Proof.
  intros H. split; [intros Hrep|intros active Hrep]; unfold do_healthcheck;
    unfold try_except, bind, gets, get, db_query, now_utc, log, emit, modify, db_call, ret,
      raise, upd_svc, Store.update_status;
    cbn -[check_secure_mode requests]; rewrite H;
    cbn -[check_secure_mode requests]; rewrite Hrep;
    unfold Store.get_status in H;
    cbn -[check_secure_mode requests];
    match goal with |- context [check_secure_mode ?w3] =>
      destruct (check_secure_mode_outcome w3) as (w' & Hrun & He & Hq & Ha & Hst);
      rewrite Hrun; exists w'; (split; [reflexivity|]);
      unfold Store.get_status in Hst |- *;
      cbn -[requests secure_requested with_safe_mode] in Hst, He, Hq, Ha
    end;
    rewrite ?H in Hst; cbn -[requests secure_requested with_safe_mode] in Hst;
    destruct Hst as [Hst1 Hst2]; rewrite Hst1, Ha; split; reflexivity.
Qed.

(** X28. Without a device status row a healthcheck sends no request
    and creates no row: the default status it tries to write is an UPDATE
    of a missing row, and reading the version of nothing raises, which is
    logged as a failed request. *)
Theorem healthcheck_needs_a_status_row (w : World) :
  Store.get_status (db w) = None ->
  exists w',
    do_healthcheck w = (Ret tt, w')
    /\ Store.get_status (db w') = None
    /\ requests (trace w') = requests (trace w)
    /\ last_secure_mode_status (svc w') = Some false.
Proof.
  intros H. unfold do_healthcheck.
  unfold try_except, bind, gets, get, db_query, now_utc, log, emit, modify, db_call, ret,
    raise, upd_svc, Store.update_status.
  cbn -[check_secure_mode requests]. rewrite H.
  cbn -[check_secure_mode requests]. unfold Store.get_status in H. rewrite H.
  cbn -[check_secure_mode requests].
  match goal with |- context [check_secure_mode ?w3] =>
    destruct (check_secure_mode_outcome w3) as (w' & Hrun & He & Hq & Ha & Hst);
    rewrite Hrun; exists w'; (split; [reflexivity|]);
    unfold Store.get_status in Hst |- *;
    cbn -[requests secure_requested with_safe_mode] in Hst, He, Hq, Ha
  end.
  rewrite ?H in Hst. cbn -[requests secure_requested with_safe_mode] in Hst.
  destruct Hst as [Hst1 Hst2]. rewrite Hst1, Hst2, Hq.
  rewrite requests_snoc by reflexivity. repeat split; reflexivity.
Qed.

Lemma successful_healthcheck_clears_safe_mode_witness :
  exists w',
    do_healthcheck (world_online 1000 (Some false)) = (Ret tt, w')
    /\ option_map Store.is_in_safe_mode (Store.get_status (db w')) = Some false
    /\ option_map Store.active (Store.get_status (db w')) = Some false
    /\ last_secure_mode_status (svc w') = Some false.
Proof.
  destruct (successful_healthcheck_clears_safe_mode (world_online 1000 (Some false))
              (Store.mkDeviceStatus (mkDatetime 1000 false) (mkDatetime 1000 false) "1.0.0" 0
                 true false)
              (Some false) eq_refl eq_refl) as (w' & H1 & H2 & H3 & _).
  exists w'. rewrite H2. repeat split; assumption.
Defined.

Lemma only_unanswered_healthchecks_are_counted_witness :
  exists w',
    do_healthcheck (world0 1000 []) = (Ret tt, w')
    /\ option_map Store.update_failures (Store.get_status (db w')) = Some 1.
Proof.
  destruct (proj1 (only_unanswered_healthchecks_are_counted (world0 1000 [])
                     (Store.mkDeviceStatus (mkDatetime 1000 false) (mkDatetime 1000 false)
                        "1.0.0" 0 true false) eq_refl) eq_refl)
    as (w' & H1 & H2 & _).
  exists w'. rewrite H2. split; [exact H1|reflexivity].
Defined.

Lemma healthcheck_needs_a_status_row_witness :
  exists w',
    do_healthcheck (world_c1 1000 None) = (Ret tt, w')
    /\ Store.get_status (db w') = None
    /\ requests (trace w') = [].
Proof.
  destruct (healthcheck_needs_a_status_row (world_c1 1000 None) eq_refl)
    as (w' & H1 & H2 & H3 & _).
  exists w'. repeat split; assumption.
Defined.

(** X29. A regular sync that raises or is answered with [success] false
    changes nothing but the trace: one request with the pending audit
    entries and containers was sent, nothing was deleted, and the last
    sync time is kept, so the same entries are offered again. *)
Theorem failed_sync_keeps_the_store (w : World) :
  unsuccessful (sync_reply (env w) (pending_logs (db w)) (pending_containers (db w))) = true ->
  exists es,
    do_sync w = (Ret tt, appended es w)
    /\ requests es = [PostSync (pending_logs (db w)) (pending_containers (db w))].
Proof.
  unfold pending_logs, pending_containers, sync_since, do_sync.
  unfold try_except, bind, db_query, now_utc, gets, get, log, emit, modify, ret, raise.
  cbv beta iota.
  destruct (Store.get_status (db w)) as [ds|] eqn:H; intros Hrep;
    cbn -[Store.get_since Store.get_logs_since];
    match type of Hrep with
    | unsuccessful ?r = true => destruct r as [|[|] data]
    end; try discriminate;
    cbn -[Store.get_since Store.get_logs_since];
    unfold appended, set_trace; cbn [trace uart app svc db env];
    rewrite <- ?app_assoc; eexists; (split; [reflexivity|]); reflexivity.
Qed.

Lemma logs_kept_refl w : logs_kept w w.
Proof. split; reflexivity. Qed.

Lemma logs_kept_trans a b c : logs_kept a b -> logs_kept b c -> logs_kept a c.
Proof. unfold logs_kept. intuition congruence. Qed.

Lemma logs_kept_log lvl msg : respects logs_kept (log lvl msg).
Proof. intros w. split; [reflexivity|]. cbn. apply requests_snoc. reflexivity. Qed.

Lemma logs_kept_delete_all_containers : respects logs_kept (db_call Store.delete_all_containers).
Proof.
  apply (respects_db_call logs_kept logs_kept_refl). intros w r d H.
  unfold Store.delete_all_containers in H.
  destruct (existsb _ _) in H; [discriminate|]. injection H as _ <-. split; reflexivity.
Qed.

Lemma logs_kept_create_with_id now i c :
  respects logs_kept (db_call (Store.create_with_id now i c)).
Proof.
  apply (respects_db_call logs_kept logs_kept_refl). intros w r d H.
  unfold Store.create_with_id, Store.insert_container in H.
  repeat match type of H with
         | context [if ?b then _ else _] => destruct b
         end; try discriminate; cbn in H; injection H as _ <-; split; reflexivity.
Qed.

Lemma logs_kept_update_status u : respects logs_kept (db_call (Store.update_status u)).
Proof.
  apply (respects_db_call logs_kept logs_kept_refl). intros w r d H.
  unfold Store.update_status in H. injection H as _ <-. split; reflexivity.
Qed.

Create HintDb logs_kept.
#[local] Hint Resolve logs_kept_log logs_kept_delete_all_containers
  logs_kept_create_with_id logs_kept_update_status : logs_kept.

Ltac logs_kept_tac :=
  respects_tac logs_kept logs_kept_refl logs_kept_trans ltac:(solve [auto with logs_kept]).

Lemma logs_kept_update_containers data : respects logs_kept (update_containers data).
Proof. unfold update_containers. logs_kept_tac. Qed.

Lemma unfuelled_update_containers data : unfuelled (update_containers data).
Proof. unfold update_containers. total. Qed.

(** X30. The initial sync always ends with an empty audit log and
    sends one request with no data; when that request raises or is
    answered with [success] false the container table is left empty too,
    and the device status is untouched. *)
Theorem initial_sync_empties_the_store (w : World) :
  exists w',
    do_initial_sync w = (Ret tt, w')
    /\ Store.audit_logs (db w') = []
    /\ requests (trace w') = (requests (trace w) ++ [PostSync [] []])%list
    /\ (unsuccessful (sync_reply (env w) [] []) = true ->
        Store.containers (db w') = []
        /\ Store.device_status (db w') = Store.device_status (db w)).
Proof.
  unfold do_initial_sync.
  unfold try_except, bind, db_call, now_utc, gets, get, log, emit, modify, ret, raise,
    Store.delete_all_logs, Store.delete_all_containers, Store.update_status.
  cbn -[update_containers requests].
  destruct (sync_reply (env w) [] []) as [|[|] data];
    cbn -[update_containers requests].
  - eexists. split; [reflexivity|]. cbn -[requests].
    unfold requests. rewrite !filter_app. cbn [filter request]. rewrite !app_nil_r.
    repeat split; reflexivity.
  - match goal with |- context [update_containers data ?w2] =>
      pose proof (logs_kept_update_containers data w2) as [Hl Hq];
      pose proof (unfuelled_update_containers data w2) as Hu;
      destruct (update_containers data w2) as [[[]|e|] w3]
    end; cbn [fst snd] in Hl, Hq, Hu; [| |congruence];
      cbn -[requests] in Hl, Hq |- *;
      (eexists; split; [reflexivity|]); cbn -[requests];
      rewrite Hl, ?requests_snoc by reflexivity; rewrite Hq;
      unfold requests; rewrite !filter_app; cbn [filter request]; rewrite !app_nil_r;
      repeat split; discriminate.
  - eexists. split; [reflexivity|]. cbn -[requests].
    unfold requests. rewrite !filter_app. cbn [filter request]. rewrite !app_nil_r.
    repeat split; reflexivity.
Qed.

Lemma failed_sync_keeps_the_store_witness :
  exists es,
    do_sync (world0 1000 []) = (Ret tt, appended es (world0 1000 []))
    /\ requests es = [PostSync [] []].
Proof. exact (failed_sync_keeps_the_store (world0 1000 []) eq_refl). Defined.

Lemma initial_sync_empties_the_store_witness :
  exists w',
    do_initial_sync (world_c1 1000 None) = (Ret tt, w')
    /\ Store.containers (db w') = []
    /\ Store.audit_logs (db w') = [].
Proof.
  destruct (initial_sync_empties_the_store (world_c1 1000 None)) as (w' & H1 & H2 & _ & H4).
  exists w'. split; [exact H1|]. split; [exact (proj1 (H4 eq_refl))|exact H2].
Defined.

End ModeFacts.
